(** * TipKoro: the balance-and-subscription consistency core

    A shallow embedding of the request handlers of the repository
    (supabase edge functions [process-donation], [create-subscription],
    [request-withdrawal], [rupantorpay-webhook], and the administrator's
    [handleWithdrawal]) over an explicit ledger store, and the properties
    of the specification that concern them.

    Conventions of the embedding.
    - A JS [number] holding money or a month count is a [Z].
    - A [Date] is its time value, milliseconds since the epoch, a [Z];
      the edge runtime's local time zone is UTC, so the local calendar
      fields of a [Date] are its UTC fields.
    - A [DATE] column ('YYYY-MM-DD') is kept as its day number since the
      epoch; [civil_from_days] reads the year, month and day back.
    - A table is the list of its rows, in insertion order; of a row, the
      columns the handlers read or write are kept.
    - A call of the store client is read by what it spells: [.eq] filters
      and [.single()] yields the row when exactly one matches. A write
      the store refuses returns an [error] and changes nothing.
    - The client the functions import, supabase-js 2.45.0, has no [sql]
      member: [supabaseService.sql`current_amount - ${amount}`], which
      the two balance updates have as the value of [current_amount],
      throws a [TypeError] while the argument of [.update] is evaluated.
      The update is not sent, and the handler's [catch] answers.
    - Whatever a handler obtains from outside (the caller's identity, the
      clock, the gateway's answers, the identifier the store gives a new
      row, whether the store accepts a write) is a field of the handler's
      [World] record, so that a handler is a function of its world, its
      request and the store. *)

From Stdlib Require Import ZArith List String Ascii Bool Lia DecimalString.
From Stdlib Require Import DecimalPos DecimalZ.
Import ListNotations.
Local Open Scope string_scope.
Local Open Scope Z_scope.

(** ** JavaScript strings and numbers *)

Module Js.

(** [t.startsWith(p)] *)
Definition startsWith (t p : string) : bool := String.prefix p t.

(** [s.substring(a, b)] for [a <= b]; both ends are clamped to the length. *)
Definition substring (s : string) (a b : nat) : string :=
  String.substring a (b - a) s.

Definition upper (c : ascii) : ascii :=
  let n := nat_of_ascii c in
  if (97 <=? n)%nat && (n <=? 122)%nat then ascii_of_nat (n - 32) else c.

(** [s.toUpperCase()] on the ASCII range. *)
Fixpoint toUpperCase (s : string) : string :=
  match s with
  | EmptyString => EmptyString
  | String c r => String (upper c) (toUpperCase r)
  end.

(** [`${n}`] and [n.toString()] of an integral number: its decimal digits. *)
Definition toString (n : Z) : string := NilZero.string_of_int (Z.to_int n).

(** [a || b] on strings that may be absent: the empty string is falsy. *)
Definition or_else (a : option string) (b : string) : string :=
  match a with
  | Some x => if String.eqb x "" then b else x
  | None => b
  end.

End Js.

(** ** JavaScript dates *)

Module JsDate.

Definition msPerDay : Z := 86400000.

Definition Day (t : Z) : Z := t / msPerDay.
Definition TimeWithinDay (t : Z) : Z := t mod msPerDay.

(** The day number of year [y], month [m] (1 to 12), day [d], in the
    proleptic Gregorian calendar; [d] may run past the end of the month. *)
Definition days_from_civil (y m d : Z) : Z :=
  let y' := if m <=? 2 then y - 1 else y in
  let era := y' / 400 in
  let yoe := y' - era * 400 in
  let doy := (153 * (if 2 <? m then m - 3 else m + 9) + 2) / 5 + d - 1 in
  let doe := yoe * 365 + yoe / 4 - yoe / 100 + doy in
  era * 146097 + doe - 719468.

(** Months are numbered through the years: month [12 * y + m] is month
    [m] (from 0) of year [y]. [monthStart k] is the day number of its
    first day. *)
Definition monthStart (k : Z) : Z := days_from_civil (k / 12) (k mod 12 + 1) 1.

(** The month a day falls in: an estimate from the mean length of a
    month, then a step back or forth. *)
Definition monthOfDay (n : Z) : Z :=
  let k := (n + 719468) * 4800 / 146097 + 2 in
  if n <? monthStart k then k - 1
  else if monthStart (k + 1) <=? n then k + 1
  else k.

(** Year, month (1 to 12) and day of the month of a day number. *)
Definition civil_from_days (n : Z) : Z * Z * Z :=
  let k := monthOfDay n in
  (k / 12, k mod 12 + 1, n - monthStart k + 1).

(** ECMAScript's InLeapYear and the length of month [m] (1 to 12). *)
Definition isLeapYear (y : Z) : bool :=
  ((y mod 4 =? 0) && negb (y mod 100 =? 0)) || (y mod 400 =? 0).

Definition daysInMonth (y m : Z) : Z :=
  if m =? 2 then (if isLeapYear y then 29 else 28)
  else if (m =? 4) || (m =? 6) || (m =? 9) || (m =? 11) then 30
  else 31.

(** What is checked of a month to know the calendar: its length, and how
    far its first day is from where months of the mean length would put
    it. *)
Definition month_ok (k : Z) : bool :=
  (monthStart (k + 1) =? monthStart k + daysInMonth (k / 12) (k mod 12 + 1))
  && (-146097 <=? (monthStart (k + 2) + 719468) * 4800 - k * 146097)
  && ((monthStart (k + 2) + 719468) * 4800 - k * 146097 <=? 146097).

Fixpoint all_from (fuel : nat) (i : Z) (f : Z -> bool) : bool :=
  match fuel with
  | O => true
  | S k => f i && all_from k (i + 1) f
  end.

Definition YearFromTime (t : Z) : Z := fst (fst (civil_from_days (Day t))).
(** Months count from 0 in JavaScript. *)
Definition MonthFromTime (t : Z) : Z := snd (fst (civil_from_days (Day t))) - 1.
Definition DateFromTime (t : Z) : Z := snd (civil_from_days (Day t)).

(** ECMAScript's MakeDay: a month outside 0..11 carries into the year, and
    a day past the end of the month runs into the following month. *)
Definition MakeDay (year month date : Z) : Z :=
  let ym := year + month / 12 in
  let mn := month mod 12 in
  days_from_civil ym (mn + 1) 1 + date - 1.

Definition MakeDate (day time : Z) : Z := day * msPerDay + time.

Definition getMonth (t : Z) : Z := MonthFromTime t.

(** [d.setMonth(m)]: the new time value of [d], as long as it is within
    the range of time values, 8.64e15 ms either side of the epoch (three
    million months from now are). Past that range JavaScript makes the
    date invalid and [toISOString] throws; the embedding leaves that
    out. *)
Definition setMonth (t m : Z) : Z :=
  MakeDate (MakeDay (YearFromTime t) m (DateFromTime t)) (TimeWithinDay t).

(** [new Date(s)] for a [DATE] column value: midnight UTC of that day. *)
Definition ofDATE (day : Z) : Z := day * msPerDay.

(** [d.toISOString().split('T')[0]]: the UTC calendar day of [d]. *)
Definition isoDate (t : Z) : Z := Day t.

(** Adding [n] months to a calendar day, the way [setMonth] does it. *)
Definition addMonthsDay (day n : Z) : Z :=
  let '(y, m, d) := civil_from_days day in
  MakeDay y (m - 1 + n) d.

End JsDate.

(** ** JSON bodies and HTTP responses *)

Inductive Json : Type :=
| JNull
| JBool (b : bool)
| JNum (n : Z)
| JStr (s : string).

Record Response : Type := mkResponse {
  status : Z;
  body : list (string * Json)
}.

Fixpoint field (k : string) (o : list (string * Json)) : option Json :=
  match o with
  | [] => None
  | (k', v) :: r => if String.eqb k' k then Some v else field k r
  end.

(** A key whose value may be [undefined]: [JSON.stringify] leaves it out. *)
Definition opt_field (k : string) (o : option string) : list (string * Json) :=
  match o with
  | Some s => [(k, JStr s)]
  | None => []
  end.

(** ** The ledger store *)

Module Db.

Section Table.
Context {A : Type}.

(** [.select(...).eq(...).single()]: the row when exactly one matches. *)
Definition select_single (p : A -> bool) (t : list A) : option A :=
  match filter p t with
  | [r] => Some r
  | _ => None
  end.

(** [.insert(r)]: refused when the store fails or the primary key is taken. *)
Definition insert (key : A -> string) (accepted : bool) (r : A) (t : list A)
  : option (list A) :=
  if accepted && negb (existsb (fun x => String.eqb (key x) (key r)) t)
  then Some (t ++ [r])%list else None.

(** A row after an update restricted to the rows matching [p]. *)
Definition on (p : A -> bool) (f : A -> A) (r : A) : A :=
  if p r then f r else r.

(** [.update(f).eq(...)]: every matching row is rewritten, or none when
    the store reports an error. *)
Definition update (accepted : bool) (p : A -> bool) (f : A -> A) (t : list A)
  : option (list A) :=
  if accepted then Some (map (on p f) t) else None.

End Table.

End Db.

Module User.
Record t : Type := mk {
  id : string;
  role : string;
  current_amount : Z;
  subscription_status : option string;
  subscription_expires_at : option Z;
  updated_at : option Z
}.
End User.

Module Donation.
Record t : Type := mk {
  id : string;
  creator_id : string;
  amount : Z;
  donor_name : option string;
  donor_email : option string;
  message : option string;
  is_anonymous : bool;
  payment_status : string;
  txn_id : string;
  payment_id : string;
  updated_at : option Z
}.
End Donation.

Module Subscription.
Record t : Type := mk {
  id : string;
  user_id : string;
  amount : Z;
  paid_until : Z;
  is_active : bool;
  last_payment_txn_id : string;
  payment_id : string;
  status : string;
  updated_at : option Z
}.
End Subscription.

Module Withdrawal.
Record t : Type := mk {
  id : string;
  user_id : string;
  amount : Z;
  method : string;
  bank_name : string;
  bank_account_name : string;
  bank_account_number : string;
  status : string;
  processed_at : option Z
}.
End Withdrawal.

Record Store : Type := mkStore {
  users : list User.t;
  donations : list Donation.t;
  subscriptions : list Subscription.t;
  withdrawals : list Withdrawal.t
}.

Definition with_users (s : Store) (us : list User.t) : Store :=
  mkStore us (donations s) (subscriptions s) (withdrawals s).
Definition with_donations (s : Store) (ds : list Donation.t) : Store :=
  mkStore (users s) ds (subscriptions s) (withdrawals s).
Definition with_subscriptions (s : Store) (ss : list Subscription.t) : Store :=
  mkStore (users s) (donations s) ss (withdrawals s).
Definition with_withdrawals (s : Store) (ws : list Withdrawal.t) : Store :=
  mkStore (users s) (donations s) (subscriptions s) ws.

(** The [user] that [auth.getUser(token)] yields. *)
Record AuthUser : Type := mkAuthUser {
  auth_id : string;
  auth_email : option string
}.

(** The caller of an authenticated endpoint: the [Authorization] header and
    what [auth.getUser(token)] makes of it. Without the header the handler
    throws on [authHeader.replace]; [thrown] is the error's message. *)
Inductive Caller : Type :=
| NoAuthorizationHeader (thrown : string)
| UnknownToken
| Authenticated (user : AuthUser).

(** The gateway's answer to a checkout request. *)
Record CheckoutResult : Type := mkCheckout {
  checkout_status : bool;
  checkout_payment_id : option string;
  checkout_payment_url : option string;
  checkout_message : option string
}.

Definition internal_error (details : string) : Response :=
  mkResponse 500 [("error", JStr "Internal server error"); ("details", JStr details)].

(** The two variants of the intake functions in the repository: the one
    that opens a checkout at the gateway, and the one that simulates the
    payment. *)
Inductive Variant : Type := Gateway | Simulated.

(** ** Transaction identifiers *)

Module TxnId.

(** [`DON_${creator_id.substring(0, 8)}_${Date.now()}`] *)
Definition donation_gateway (creator_id : string) (now : Z) : string :=
  "DON_" ++ Js.substring creator_id 0 8 ++ "_" ++ Js.toString now.

(** [`TXN_${Date.now()}_${Math.random().toString(36).substring(2, 8).toUpperCase()}`],
    [random36] being [Math.random().toString(36)]. *)
Definition donation_simulated (now : Z) (random36 : string) : string :=
  "TXN_" ++ Js.toString now ++ "_" ++ Js.toUpperCase (Js.substring random36 2 8).

(** [`SUB_${user.id.substring(0, 8)}_${Date.now()}`] *)
Definition subscription_gateway (user_id : string) (now : Z) : string :=
  "SUB_" ++ Js.substring user_id 0 8 ++ "_" ++ Js.toString now.

(** [`SUB_${Date.now()}_${Math.random().toString(36).substring(2, 8).toUpperCase()}`] *)
Definition subscription_simulated (now : Z) (random36 : string) : string :=
  "SUB_" ++ Js.toString now ++ "_" ++ Js.toUpperCase (Js.substring random36 2 8).

End TxnId.

(** ** Access-time status (profile and donation pages) *)

(** [fetchCreator]: [isActive] starts out [false] and is set from the
    subscription row when there is one. *)
Definition isActive (today : Z) (subscription : option Subscription.t) : bool :=
  match subscription with
  | Some sub =>
      Subscription.is_active sub
      && (JsDate.ofDATE (Subscription.paid_until sub) >=? today)
  | None => false
  end.

(** ** Donation intake: [process-donation] *)

Module ProcessDonation.

Record DonationRequest : Type := mkRequest {
  creator_id : string;
  amount : Z;
  donor_name : option string;
  donor_email : option string;
  message : option string;
  is_anonymous : bool
}.

Record World : Type := mkWorld {
  (** [new Date()] of the subscription check *)
  now : Z;
  (** [Date.now()] of the transaction id *)
  txn_now : Z;
  (** [Math.random().toString(36)], simulated variant *)
  random36 : string;
  (** the gateway's checkout answer, or the message of what the call threw *)
  checkout : string + CheckoutResult;
  (** the identifier the store gives the inserted donation *)
  donation_id : string;
  insert_accepted : bool;
  (** the message of the [TypeError] that the call of [supabaseService.sql]
      throws, simulated variant *)
  sql_thrown : string
}.

Definition reject (code : Z) (msg : string) : Response :=
  mkResponse code [("error", JStr msg)].

(** Validation, creator lookup and subscription check, the same text in
    both variants: the rejection, or the creator row. *)
Definition precheck (w : World) (req : DonationRequest) (s : Store)
  : Response + User.t :=
  if String.eqb (creator_id req) "" || (amount req =? 0) || (amount req <? 10)
  then inl (reject 400 "Invalid donation data. Minimum amount is 10 BDT.")
  else
    match Db.select_single
            (fun u => String.eqb (User.id u) (creator_id req)
                      && String.eqb (User.role u) "creator") (users s) with
    | None => inl (reject 404 "Creator not found")
    | Some creator =>
        match Db.select_single
                (fun sub => String.eqb (Subscription.user_id sub) (creator_id req))
                (subscriptions s) with
        | None => inl (reject 400 "Creator's subscription is not active")
        | Some subscription =>
            if negb (Subscription.is_active subscription)
               || (JsDate.ofDATE (Subscription.paid_until subscription) <? now w)
            then inl (reject 400 "Creator's subscription is not active")
            else inr creator
        end
    end.

Definition new_donation (w : World) (req : DonationRequest)
           (payment_status txnId payment_id : string) : Donation.t :=
  Donation.mk (donation_id w) (creator_id req) (amount req)
              (if is_anonymous req then None else donor_name req)
              (if is_anonymous req then None else donor_email req)
              (message req) (is_anonymous req)
              payment_status txnId payment_id None.

(** The simulated variant: the payment is taken as made and the donation
    is inserted as [completed]. The balance update that follows,
    [.update({ current_amount: supabaseService.sql`current_amount + ${amount}`, ... })],
    throws while its argument is evaluated: it is not sent, the [catch]
    answers 500 with the error's message, and the 200 at the end of the
    [try] block is never reached. *)
Definition simulated (w : World) (req : DonationRequest) (s : Store)
  : Response * Store :=
  match precheck w req s with
  | inl r => (r, s)
  | inr creator =>
      let txnId := TxnId.donation_simulated (txn_now w) (random36 w) in
      match Db.insert Donation.id (insert_accepted w)
              (new_donation w req "completed" txnId ("dummy_payment_" ++ txnId))
              (donations s) with
      | None => (reject 500 "Failed to process donation", s)
      | Some ds => (internal_error (sql_thrown w), with_donations s ds)
      end
  end.

(** The gateway variant: the checkout is opened first, the donation is
    inserted as [pending], and the balance is left alone. *)
Definition gateway (w : World) (req : DonationRequest) (s : Store)
  : Response * Store :=
  match precheck w req s with
  | inl r => (r, s)
  | inr creator =>
      let txnId := TxnId.donation_gateway (creator_id req) (txn_now w) in
      match checkout w with
      | inl thrown => (internal_error thrown, s)
      | inr rupantorPayResult =>
          if negb (checkout_status rupantorPayResult)
          then (internal_error
                  ("RupantorPay API error: "
                     ++ Js.or_else (checkout_message rupantorPayResult) "Unknown error"), s)
          else
            match Db.insert Donation.id (insert_accepted w)
                    (new_donation w req "pending" txnId
                       (Js.or_else (checkout_payment_id rupantorPayResult)
                                   ("rupantorpay_" ++ txnId)))
                    (donations s) with
            | None => (reject 500 "Failed to process donation", s)
            | Some ds =>
                (mkResponse 200
                   ([("success", JBool true); ("txn_id", JStr txnId);
                     ("donation_id", JStr (donation_id w))]
                      ++ opt_field "payment_url" (checkout_payment_url rupantorPayResult)
                      ++ [("message",
                           JStr "Donation initiated, redirecting to payment gateway")])%list,
                 with_donations s ds)
            end
      end
  end.

Definition handler (v : Variant) : World -> DonationRequest -> Store -> Response * Store :=
  match v with
  | Gateway => gateway
  | Simulated => simulated
  end.

(** The transaction id a variant generates. *)
Definition txnId (v : Variant) (w : World) (req : DonationRequest) : string :=
  match v with
  | Gateway => TxnId.donation_gateway (creator_id req) (txn_now w)
  | Simulated => TxnId.donation_simulated (txn_now w) (random36 w)
  end.

End ProcessDonation.

(** ** Subscription intake: [create-subscription] *)

Module CreateSubscription.

Record SubscriptionRequest : Type := mkRequest {
  duration_months : option Z
}.

Record World : Type := mkWorld {
  caller : Caller;
  (** [Date.now()] of the transaction id *)
  txn_now : Z;
  random36 : string;
  (** the gateway's checkout answer, or the message of what the call threw *)
  checkout : string + CheckoutResult;
  (** [const today = new Date()] *)
  today : Z;
  (** the identifier the store gives an inserted subscription *)
  subscription_id : string;
  subscription_accepted : bool;
  subscription_now : Z;
  mirror_accepted : bool;
  mirror_now : Z
}.

Definition reject (code : Z) (msg : string) : Response :=
  mkResponse code [("error", JStr msg)].

(** [const { duration_months = 1 } = await req.json()] *)
Definition months (req : SubscriptionRequest) : Z :=
  match duration_months req with
  | Some d => d
  | None => 1
  end.

(** [const paidUntil = new Date(today); paidUntil.setMonth(paidUntil.getMonth() + duration_months)] *)
Definition paidUntil (today d : Z) : Z :=
  JsDate.setMonth today (JsDate.getMonth today + d).

(** The date an existing row is extended to. *)
Definition newPaidUntil (today d : Z) (existing : Subscription.t) : Z :=
  let currentPaidUntil := JsDate.ofDATE (Subscription.paid_until existing) in
  let extendFrom := if currentPaidUntil >? today then currentPaidUntil else today in
  JsDate.setMonth extendFrom (JsDate.getMonth extendFrom + d).

(** The [.update({...})] of an existing row; [amount] and [status] are
    not among the columns written. *)
Definition extend (today d : Z) (active : bool) (txnId payment_id : string)
           (now : Z) (existing r : Subscription.t) : Subscription.t :=
  Subscription.mk (Subscription.id r) (Subscription.user_id r)
                  (Subscription.amount r)
                  (JsDate.isoDate (newPaidUntil today d existing))
                  active txnId payment_id (Subscription.status r) (Some now).

(** The [users] mirror: [subscription_status] and [subscription_expires_at]. *)
Definition mirror (expires now : Z) (u : User.t) : User.t :=
  User.mk (User.id u) (User.role u) (User.current_amount u)
          (Some "active") (Some expires) (Some now).

(** What both variants do once the transaction id is known and the
    payment is initiated (gateway) or taken as made (simulated). *)
Definition upsert (w : World) (user : AuthUser) (d : Z) (active : bool)
           (txnId payment_id status : string) (s : Store)
  : option (string * Store) :=
  match Db.select_single
          (fun sub => String.eqb (Subscription.user_id sub) (auth_id user))
          (subscriptions s) with
  | Some existingSubscription =>
      match Db.update (subscription_accepted w)
              (fun r => String.eqb (Subscription.id r)
                                   (Subscription.id existingSubscription))
              (extend (today w) d active txnId payment_id (subscription_now w)
                      existingSubscription)
              (subscriptions s) with
      | Some ss => Some (Subscription.id existingSubscription, with_subscriptions s ss)
      | None => None
      end
  | None =>
      match Db.insert Subscription.id (subscription_accepted w)
              (Subscription.mk (subscription_id w) (auth_id user) (100 * d)
                               (JsDate.isoDate (paidUntil (today w) d))
                               active txnId payment_id status None)
              (subscriptions s) with
      | Some ss => Some (subscription_id w, with_subscriptions s ss)
      | None => None
      end
  end.

(** The update of the [users] row; a failure is logged and otherwise ignored. *)
Definition update_mirror (w : World) (user : AuthUser) (d : Z) (s : Store) : Store :=
  match Db.update (mirror_accepted w)
          (fun u => String.eqb (User.id u) (auth_id user))
          (mirror (paidUntil (today w) d) (mirror_now w)) (users s) with
  | Some us => with_users s us
  | None => s
  end.

Definition is_creator (user : AuthUser) (s : Store) : bool :=
  match Db.select_single (fun u => String.eqb (User.id u) (auth_id user)) (users s) with
  | Some userProfile => String.eqb (User.role userProfile) "creator"
  | None => false
  end.

(** The gateway variant: the subscription is written inactive, to be
    activated by the webhook. *)
Definition gateway (w : World) (req : SubscriptionRequest) (s : Store)
  : Response * Store :=
  match caller w with
  | NoAuthorizationHeader thrown => (internal_error thrown, s)
  | UnknownToken => (reject 401 "User not authenticated", s)
  | Authenticated user =>
      let d := months req in
      if negb (is_creator user s)
      then (reject 400 "Only creators can purchase subscriptions", s)
      else
        let txnId := TxnId.subscription_gateway (auth_id user) (txn_now w) in
        let subscriptionAmount := 100 * d in
        match checkout w with
        | inl thrown => (internal_error thrown, s)
        | inr rupantorPayResult =>
            if negb (checkout_status rupantorPayResult)
            then (internal_error
                    ("RupantorPay API error: "
                       ++ Js.or_else (checkout_message rupantorPayResult) "Unknown error"), s)
            else
              match upsert w user d false txnId
                      (Js.or_else (checkout_payment_id rupantorPayResult)
                                  ("rupantorpay_" ++ txnId))
                      "pending" s with
              | None => (reject 500 "Failed to process subscription", s)
              | Some (id, s1) =>
                  (mkResponse 200
                     ([("success", JBool true); ("txn_id", JStr txnId);
                       ("subscription_id", JStr id);
                       ("amount", JNum subscriptionAmount)]
                        ++ opt_field "payment_url" (checkout_payment_url rupantorPayResult)
                        ++ [("message",
                             JStr "Subscription payment initiated, redirecting to payment gateway")])%list,
                   update_mirror w user d s1)
              end
        end
  end.

(** The simulated variant: the subscription is written active at once. *)
Definition simulated (w : World) (req : SubscriptionRequest) (s : Store)
  : Response * Store :=
  match caller w with
  | NoAuthorizationHeader thrown => (internal_error thrown, s)
  | UnknownToken => (reject 401 "User not authenticated", s)
  | Authenticated user =>
      let d := months req in
      if negb (is_creator user s)
      then (reject 400 "Only creators can purchase subscriptions", s)
      else
        let txnId := TxnId.subscription_simulated (txn_now w) (random36 w) in
        let subscriptionAmount := 100 * d in
        match upsert w user d true txnId ("dummy_payment_" ++ txnId) "active" s with
        | None => (reject 500 "Failed to process subscription", s)
        | Some (id, s1) =>
            (mkResponse 200
               [("success", JBool true); ("txn_id", JStr txnId);
                ("subscription_id", JStr id);
                ("amount", JNum subscriptionAmount);
                ("paid_until", JNum (JsDate.isoDate (paidUntil (today w) d)));
                ("message", JStr "Subscription processed successfully")],
             update_mirror w user d s1)
        end
  end.

Definition handler (v : Variant)
  : World -> SubscriptionRequest -> Store -> Response * Store :=
  match v with
  | Gateway => gateway
  | Simulated => simulated
  end.

(** The transaction id a variant generates. *)
Definition txnId (v : Variant) (w : World) (user : AuthUser) : string :=
  match v with
  | Gateway => TxnId.subscription_gateway (auth_id user) (txn_now w)
  | Simulated => TxnId.subscription_simulated (txn_now w) (random36 w)
  end.

End CreateSubscription.

(** ** Withdrawal intake: [request-withdrawal] *)

Module RequestWithdrawal.

Record WithdrawalRequest : Type := mkRequest {
  amount : Z;
  method : string;
  bank_name : string;
  bank_account_name : string;
  bank_account_number : string
}.

Record World : Type := mkWorld {
  caller : Caller;
  (** the identifier the store gives the inserted withdrawal *)
  withdrawal_id : string;
  insert_accepted : bool;
  (** the message of the [TypeError] that the call of [supabaseService.sql]
      throws *)
  sql_thrown : string
}.

Definition reject (code : Z) (msg : string) : Response :=
  mkResponse code [("error", JStr msg)].

Definition new_withdrawal (w : World) (user : AuthUser) (req : WithdrawalRequest)
  : Withdrawal.t :=
  Withdrawal.mk (withdrawal_id w) (auth_id user) (amount req) (method req)
                (bank_name req) (bank_account_name req) (bank_account_number req)
                "pending" None.

(** Once the withdrawal is inserted, the balance update,
    [.update({ current_amount: supabaseService.sql`current_amount - ${amount}`, ... })],
    throws while its argument is evaluated: it is not sent and the [catch]
    answers 500 with the error's message. The [if (updateError)] branch
    with its compensating delete and the 200 at the end of the [try] block
    are never reached. *)
Definition handler (w : World) (req : WithdrawalRequest) (s : Store)
  : Response * Store :=
  match caller w with
  | NoAuthorizationHeader thrown => (internal_error thrown, s)
  | UnknownToken => (reject 401 "User not authenticated", s)
  | Authenticated user =>
      if (amount req =? 0) || (amount req <=? 0)
      then (reject 400 "Invalid withdrawal amount", s)
      else
        match Db.select_single (fun u => String.eqb (User.id u) (auth_id user))
                (users s) with
        | None => (reject 400 "Only creators can request withdrawals", s)
        | Some userProfile =>
            if negb (String.eqb (User.role userProfile) "creator")
            then (reject 400 "Only creators can request withdrawals", s)
            else if User.current_amount userProfile <? amount req
            then (mkResponse 400
                    [("error", JStr "Insufficient balance");
                     ("available_balance", JNum (User.current_amount userProfile))], s)
            else
              match Db.insert Withdrawal.id (insert_accepted w)
                      (new_withdrawal w user req) (withdrawals s) with
              | None => (reject 500 "Failed to create withdrawal request", s)
              | Some ws =>
                  (internal_error (sql_thrown w), with_withdrawals s ws)
              end
        end
  end.

End RequestWithdrawal.

(** ** Webhook reconciler: [rupantorpay-webhook] *)

Module Webhook.

Record WebhookPayload : Type := mkPayload {
  transaction_id : string;
  status : string;
  amount : string
}.

(** The gateway's answer to the verification call: the truthiness of its
    [status] and its [payment_status]. *)
Record Verification : Type := mkVerification {
  verified : bool;
  payment_status : string
}.

Record World : Type := mkWorld {
  (** the answer of the verification call, or the message of what it threw *)
  verification : string + Verification;
  donations_accepted : bool;
  donations_now : Z;
  subscriptions_accepted : bool;
  subscriptions_now : Z
}.

Definition set_payment_status (st : string) (now : Z) (d : Donation.t) : Donation.t :=
  Donation.mk (Donation.id d) (Donation.creator_id d) (Donation.amount d)
              (Donation.donor_name d) (Donation.donor_email d) (Donation.message d)
              (Donation.is_anonymous d) st (Donation.txn_id d) (Donation.payment_id d)
              (Some now).

Definition set_is_active (b : bool) (now : Z) (r : Subscription.t) : Subscription.t :=
  Subscription.mk (Subscription.id r) (Subscription.user_id r) (Subscription.amount r)
                  (Subscription.paid_until r) b (Subscription.last_payment_txn_id r)
                  (Subscription.payment_id r) (Subscription.status r) (Some now).

(** [.from('donations').update({payment_status, updated_at}).eq('txn_id', transaction_id)];
    an error leaves the table as it was. *)
Definition update_donations (w : World) (tid st : string) (s : Store) : Store :=
  match Db.update (donations_accepted w)
          (fun d => String.eqb (Donation.txn_id d) tid)
          (set_payment_status st (donations_now w)) (donations s) with
  | Some ds => with_donations s ds
  | None => s
  end.

(** [.from('subscriptions').update({is_active, updated_at}).eq('last_payment_txn_id', transaction_id)] *)
Definition update_subscriptions (w : World) (tid : string) (b : bool) (s : Store) : Store :=
  match Db.update (subscriptions_accepted w)
          (fun r => String.eqb (Subscription.last_payment_txn_id r) tid)
          (set_is_active b (subscriptions_now w)) (subscriptions s) with
  | Some ss => with_subscriptions s ss
  | None => s
  end.

Definition handler (w : World) (p : WebhookPayload) (s : Store) : Response * Store :=
  match verification w with
  | inl thrown =>
      (mkResponse 500 [("error", JStr "Webhook processing failed");
                       ("details", JStr thrown)], s)
  | inr v =>
      let tid := transaction_id p in
      let s' :=
        if verified v && String.eqb (payment_status v) "completed" then
          let s1 := if Js.startsWith tid "DON_"
                    then update_donations w tid "completed" s else s in
          if Js.startsWith tid "SUB_"
          then update_subscriptions w tid true s1 else s1
        else
          let s1 := if Js.startsWith tid "DON_"
                    then update_donations w tid "failed" s else s in
          if Js.startsWith tid "SUB_"
          then update_subscriptions w tid false s1 else s1 in
      (mkResponse 200 [("success", JBool true);
                       ("message", JStr "Webhook processed successfully")], s')
  end.

End Webhook.

(** ** The administrator's action on a withdrawal: [handleWithdrawal] *)

Module Admin.

Inductive Action : Type := approve | reject.

Record World : Type := mkWorld {
  accepted : bool;
  now : Z
}.

(** [.update({ status, processed_at })] *)
Definition process (action : Action) (now : Z) (r : Withdrawal.t) : Withdrawal.t :=
  Withdrawal.mk (Withdrawal.id r) (Withdrawal.user_id r) (Withdrawal.amount r)
                (Withdrawal.method r) (Withdrawal.bank_name r)
                (Withdrawal.bank_account_name r) (Withdrawal.bank_account_number r)
                (match action with approve => "approved" | reject => "rejected" end)
                (Some now).

(** The toast's title and the store afterwards. *)
Definition handleWithdrawal (w : World) (withdrawalId : string) (action : Action)
           (s : Store) : string * Store :=
  match Db.update (accepted w)
          (fun r => String.eqb (Withdrawal.id r) withdrawalId)
          (process action (now w)) (withdrawals s) with
  | None => ("Error", s)
  | Some ws => ("Success", with_withdrawals s ws)
  end.

End Admin.

(** ** Rows up to their [updated_at] stamp *)

Definition donation_content (d : Donation.t) : Donation.t :=
  Donation.mk (Donation.id d) (Donation.creator_id d) (Donation.amount d)
              (Donation.donor_name d) (Donation.donor_email d) (Donation.message d)
              (Donation.is_anonymous d) (Donation.payment_status d)
              (Donation.txn_id d) (Donation.payment_id d) None.

Definition subscription_content (r : Subscription.t) : Subscription.t :=
  Subscription.mk (Subscription.id r) (Subscription.user_id r) (Subscription.amount r)
                  (Subscription.paid_until r) (Subscription.is_active r)
                  (Subscription.last_payment_txn_id r) (Subscription.payment_id r)
                  (Subscription.status r) None.

(** What an administrator's action may change of a withdrawal: its
    [status] and [processed_at], nothing else. *)
Definition same_but_status (r r' : Withdrawal.t) : Prop :=
  Withdrawal.id r' = Withdrawal.id r
  /\ Withdrawal.user_id r' = Withdrawal.user_id r
  /\ Withdrawal.amount r' = Withdrawal.amount r
  /\ Withdrawal.method r' = Withdrawal.method r
  /\ Withdrawal.bank_name r' = Withdrawal.bank_name r
  /\ Withdrawal.bank_account_name r' = Withdrawal.bank_account_name r
  /\ Withdrawal.bank_account_number r' = Withdrawal.bank_account_number r.

(** ** Concrete ledgers and requests *)

Module Scenario.

Definition creator_id : string := "c0ffee00-0000-4000-8000-000000000001".

Definition creator (balance : Z) : User.t :=
  User.mk creator_id "creator" balance None None None.

Definition caller : Caller := Authenticated (mkAuthUser creator_id None).

(** 2025-08-27T16:42:18.000Z *)
Definition now : Z := JsDate.MakeDate (JsDate.days_from_civil 2025 8 27) 60138000.

Definition subscription (paid_until : Z) (active : bool) : Subscription.t :=
  Subscription.mk "5ub00000-0000-4000-8000-000000000001" creator_id 100 paid_until
                  active "SUB_c0ffee00_1755000000000" "pay_1" "pending" None.

(** A creator with an empty balance whose subscription is paid until
    2025-09-30 and active. *)
Definition store : Store :=
  mkStore [creator 0] []
          [subscription (JsDate.days_from_civil 2025 9 30) true] [].

Definition checkout_ok : CheckoutResult :=
  mkCheckout true (Some "pay_2") (Some "https://payment.rupantorpay.com/checkout/pay_2") None.

(** What the runtime says of the call of a member that is not there. *)
Definition sql_is_not_a_function : string := "supabaseService.sql is not a function".

(** A donation of 50, through the gateway and through the simulation. *)
Definition donation_request : ProcessDonation.DonationRequest :=
  ProcessDonation.mkRequest creator_id 50 (Some "Rahim") None None false.

Definition donation_world : ProcessDonation.World :=
  ProcessDonation.mkWorld now now "0.4fzyo82mvyr" (inr checkout_ok)
                          "d0000000-0000-4000-8000-000000000001" true
                          sql_is_not_a_function.

Definition donation_txn : string := TxnId.donation_gateway creator_id now.

Definition completed : Webhook.Verification := Webhook.mkVerification true "completed".

Definition webhook_world (clock : Z) : Webhook.World :=
  Webhook.mkWorld (inr completed) true clock true clock.

Definition webhook_payload : Webhook.WebhookPayload :=
  Webhook.mkPayload donation_txn "completed" "50".

(** The ledger once the gateway donation is recorded. *)
Definition store_pending : Store :=
  snd (ProcessDonation.gateway donation_world donation_request store).

(** Withdrawals. *)
Definition withdrawal_request (amount : Z) : RequestWithdrawal.WithdrawalRequest :=
  RequestWithdrawal.mkRequest amount "bkash" "bKash" "Creator" "01700000000".

Definition withdrawal_world : RequestWithdrawal.World :=
  RequestWithdrawal.mkWorld caller "w0000000-0000-4000-8000-000000000001"
                            true sql_is_not_a_function.

Definition store_balance (balance : Z) : Store :=
  mkStore [creator balance] []
          [subscription (JsDate.days_from_civil 2025 9 30) true] [].

(** The same creator with the subscription still flagged active but paid
    until 2025-08-26 only. *)
Definition store_expired : Store :=
  mkStore [creator 0] []
          [subscription (JsDate.days_from_civil 2025 8 26) true] [].

(** A renewal for one month on 2025-08-27. *)
Definition subscription_world : CreateSubscription.World :=
  CreateSubscription.mkWorld caller now "0.4fzyo82mvyr" (inr checkout_ok)
                             now "5ub00000-0000-4000-8000-000000000002"
                             true now true now.

(** A renewal on 2025-01-31 at noon of a subscription paid until 2025-02-03. *)
Definition january_31 : Z := JsDate.MakeDate (JsDate.days_from_civil 2025 1 31) 43200000.

Definition renewal_world : CreateSubscription.World :=
  CreateSubscription.mkWorld caller january_31 "0.4fzyo82mvyr" (inr checkout_ok)
                             january_31 "5ub00000-0000-4000-8000-000000000002"
                             true january_31 true january_31.

Definition renewal_request : CreateSubscription.SubscriptionRequest :=
  CreateSubscription.mkRequest (Some 1).

Definition store_renewal : Store :=
  mkStore [creator 0] []
          [subscription (JsDate.days_from_civil 2025 2 3) true] [].

End Scenario.

(** ** Further handlers of the pages *)

(** The creator dashboard: [fetchDashboardData]'s donation summary. *)
Module Dashboard.

Record DonationSummary : Type := mkSummary {
  total_donations : Z;
  total_amount : Z;
  recent_donations : list Donation.t
}.

(** The state the page starts with. *)
Definition initial : DonationSummary := mkSummary 0 0 [].

(** [.from('donations').select('*').eq('creator_id', user.id)
     .eq('payment_status', 'completed').order('created_at', { ascending: false })]:
    rows are kept in the order of their insertion, so the newest is last. *)
Definition completed_donations (user_id : string) (s : Store) : list Donation.t :=
  rev (filter (fun d => String.eqb (Donation.creator_id d) user_id
                        && String.eqb (Donation.payment_status d) "completed")
              (donations s)).

(** The summary is computed for a creator's profile only. *)
Definition fetchDashboardData (user : AuthUser) (s : Store) : DonationSummary :=
  match Db.select_single (fun u => String.eqb (User.id u) (auth_id user)) (users s) with
  | Some profileData =>
      if String.eqb (User.role profileData) "creator" then
        let donationData := completed_donations (auth_id user) s in
        mkSummary (Z.of_nat (List.length donationData))
                  (fold_left (fun sum d => sum + Donation.amount d) donationData 0)
                  (firstn 5 donationData)
      else initial
  | None => initial
  end.

End Dashboard.

(** The administrator's dashboard: the four counts of [fetchDashboardData],
    each as the store answers it. *)
Module AdminDashboard.

Record Stats : Type := mkStats {
  totalUsers : Z;
  totalCreators : Z;
  totalDonations : Z;
  pendingWithdrawals : Z
}.

(** [.select('*', { count: 'exact', head: true })] under a filter. *)
Definition count {A : Type} (p : A -> bool) (t : list A) : Z :=
  Z.of_nat (List.length (filter p t)).

Definition fetchDashboardData (s : Store) : Stats :=
  mkStats (count (fun _ => true) (users s))
          (count (fun u => String.eqb (User.role u) "creator") (users s))
          (count (fun d => String.eqb (Donation.payment_status d) "completed")
                 (donations s))
          (count (fun r => String.eqb (Withdrawal.status r) "pending")
                 (withdrawals s)).

End AdminDashboard.

(** The creator's withdrawals page: what [fetchData] puts on it. *)
Module WithdrawalsPage.

(** [.from('withdrawals').select('*').eq('user_id', user.id)
     .order('created_at', { ascending: false })], rows being kept in the
    order of their insertion. *)
Definition withdrawalsData (user_id : string) (s : Store) : list Withdrawal.t :=
  rev (filter (fun r => String.eqb (Withdrawal.user_id r) user_id) (withdrawals s)).

Record State : Type := mkState {
  userBalance : Z;
  withdrawals : list Withdrawal.t
}.

(** [useState(0)], [useState([])] *)
Definition initial : State := mkState 0 [].

(** The balance is set when the profile is found, [current_amount || 0],
    and left as it was otherwise; the history is always set. *)
Definition fetchData (user : AuthUser) (page : State) (s : Store) : State :=
  mkState
    (match Db.select_single (fun u => String.eqb (User.id u) (auth_id user)) (users s) with
     | Some userData =>
         if User.current_amount userData =? 0 then 0 else User.current_amount userData
     | None => userBalance page
     end)
    (withdrawalsData (auth_id user) s).

End WithdrawalsPage.

(** The subscription page: [daysRemaining]. *)
Module SubscriptionPage.

(** [Math.ceil(a / b)] of two integers, [b] positive; the quotient of the
    two time values is taken as exact. *)
Definition ceil_div (a b : Z) : Z := - ((- a) / b).

(** [subscription && subscription.paid_until
       ? Math.ceil((new Date(subscription.paid_until).getTime() - new Date().getTime())
                   / (1000 * 3600 * 24))
       : 0] *)
Definition daysRemaining (now : Z) (subscription : option Subscription.t) : Z :=
  match subscription with
  | Some sub =>
      ceil_div (JsDate.ofDATE (Subscription.paid_until sub) - now) (1000 * 3600 * 24)
  | None => 0
  end.

End SubscriptionPage.

(** ** Readings of the ledger, and its runs *)

(** The balance the ledger holds for each user row. *)
Definition balances (s : Store) : list (string * Z) :=
  map (fun u => (User.id u, User.current_amount u)) (users s).

Definition balances_nonneg (s : Store) : Prop :=
  Forall (fun u => 0 <= User.current_amount u) (users s).

Definition one_subscription_each (s : Store) : Prop :=
  forall uid,
    (List.length (filter (fun r => String.eqb (Subscription.user_id r) uid)
                    (subscriptions s)) <= 1)%nat.

(** What stays of a donation whatever happens to it. *)
Definition same_donation (d d' : Donation.t) : Prop :=
  Donation.id d' = Donation.id d
  /\ Donation.creator_id d' = Donation.creator_id d
  /\ Donation.amount d' = Donation.amount d
  /\ Donation.donor_name d' = Donation.donor_name d
  /\ Donation.donor_email d' = Donation.donor_email d
  /\ Donation.message d' = Donation.message d
  /\ Donation.is_anonymous d' = Donation.is_anonymous d
  /\ Donation.txn_id d' = Donation.txn_id d
  /\ Donation.payment_id d' = Donation.payment_id d.

(** What the reconciler leaves of a subscription: all but [is_active] and
    [updated_at]. *)
Definition same_but_active (r r' : Subscription.t) : Prop :=
  Subscription.id r' = Subscription.id r
  /\ Subscription.user_id r' = Subscription.user_id r
  /\ Subscription.amount r' = Subscription.amount r
  /\ Subscription.paid_until r' = Subscription.paid_until r
  /\ Subscription.last_payment_txn_id r' = Subscription.last_payment_txn_id r
  /\ Subscription.payment_id r' = Subscription.payment_id r
  /\ Subscription.status r' = Subscription.status r.

(** Whose a subscription is. *)
Definition same_owner (r r' : Subscription.t) : Prop :=
  Subscription.id r' = Subscription.id r
  /\ Subscription.user_id r' = Subscription.user_id r.

(** Who a user is. *)
Definition same_user (u u' : User.t) : Prop :=
  User.id u' = User.id u /\ User.role u' = User.role u.

(** A table that kept its rows, each as [R] allows, and may have new ones
    after them. *)
Definition grows {A : Type} (R : A -> A -> Prop) (t t' : list A) : Prop :=
  exists kept new, t' = (kept ++ new)%list /\ Forall2 R t kept.

(** What a ledger keeps of an earlier one: the users, and the rows of the
    other tables, possibly followed by new ones. *)
Definition kept (s s' : Store) : Prop :=
  Forall2 same_user (users s) (users s')
  /\ grows same_donation (donations s) (donations s')
  /\ grows same_owner (subscriptions s) (subscriptions s')
  /\ grows same_but_status (withdrawals s) (withdrawals s').

(** One request served, by any handler, in any world. *)
Inductive step : Store -> Store -> Prop :=
| step_donation v w req s :
    step s (snd (ProcessDonation.handler v w req s))
| step_subscription v w req s :
    step s (snd (CreateSubscription.handler v w req s))
| step_withdrawal w req s :
    step s (snd (RequestWithdrawal.handler w req s))
| step_webhook w p s :
    step s (snd (Webhook.handler w p s))
| step_admin w withdrawalId action s :
    step s (snd (Admin.handleWithdrawal w withdrawalId action s)).

(** Requests served one after the other. *)
Inductive run : Store -> Store -> Prop :=
| run_done s : run s s
| run_more s s1 s2 : step s s1 -> run s1 s2 -> run s s2.

(** ** Further concrete cases *)

Module Cases.

(** A donation of exactly 10, the least accepted. *)
Definition donation_of_10 : ProcessDonation.DonationRequest :=
  ProcessDonation.mkRequest Scenario.creator_id 10 (Some "Rahim")
                            (Some "rahim@example.com") (Some "Keep going") false.

(** The same, given anonymously with the name and address filled in. *)
Definition anonymous_donation : ProcessDonation.DonationRequest :=
  ProcessDonation.mkRequest Scenario.creator_id 10 (Some "Rahim")
                            (Some "rahim@example.com") (Some "Keep going") true.

(** A creator who never subscribed. *)
Definition store_new_creator : Store :=
  mkStore [Scenario.creator 0] [] [] [].

(** The ledger after that creator's first subscription through the gateway. *)
Definition store_subscribed : Store :=
  snd (CreateSubscription.gateway Scenario.subscription_world
         Scenario.renewal_request store_new_creator).

Definition subscription_txn : string :=
  TxnId.subscription_gateway Scenario.creator_id Scenario.now.

Definition subscription_payload : Webhook.WebhookPayload :=
  Webhook.mkPayload subscription_txn "completed" "100".

Definition failed : Webhook.Verification := Webhook.mkVerification true "failed".

Definition webhook_world_failed (clock : Z) : Webhook.World :=
  Webhook.mkWorld (inr failed) true clock true clock.

Definition admin_world (clock : Z) : Admin.World := Admin.mkWorld true clock.

(** The ledger after a request to withdraw 30 from a balance of 50. *)
Definition store_withdrawn : Store :=
  snd (RequestWithdrawal.handler Scenario.withdrawal_world
         (Scenario.withdrawal_request 30) (Scenario.store_balance 50)).

End Cases.

(** * Properties *)

(** ** Tables *)

Section TableFacts.
Context {A : Type}.
Implicit Types (p q : A -> bool) (f g : A -> A) (t : list A).

Lemma filter_on p q f t :
  (forall r, p (f r) = p r) ->
  filter p (map (Db.on q f) t) = map (Db.on q f) (filter p t).
Proof.
  intros Hp. induction t as [|a t IH]; simpl; [reflexivity|].
  assert (Ha : p (Db.on q f a) = p a).
  { unfold Db.on. destruct (q a); auto. }
  rewrite Ha. destruct (p a); simpl; rewrite IH; reflexivity.
Qed.

Lemma select_single_on p q f t :
  (forall r, p (f r) = p r) ->
  Db.select_single p (map (Db.on q f) t)
  = option_map (Db.on q f) (Db.select_single p t).
Proof.
  intros Hp. unfold Db.select_single. rewrite filter_on by assumption.
  destruct (filter p t) as [|a [|b l]]; reflexivity.
Qed.

Lemma select_single_In p t r :
  Db.select_single p t = Some r -> In r t /\ p r = true.
Proof.
  unfold Db.select_single. intros H.
  destruct (filter p t) as [|a [|b l]] eqn:E; try discriminate.
  injection H as ->. apply filter_In. rewrite E. left. reflexivity.
Qed.

Lemma filter_none p t :
  (forall x, In x t -> p x = false) -> filter p t = [].
Proof.
  intros H. induction t as [|a t IH]; simpl; [reflexivity|].
  rewrite (H a) by (left; reflexivity).
  apply IH. intros x Hx. apply H. right. assumption.
Qed.

Lemma select_single_none p t :
  (forall x, In x t -> p x = false) -> Db.select_single p t = None.
Proof.
  intros H. unfold Db.select_single. rewrite filter_none by assumption. reflexivity.
Qed.

Lemma select_single_new p t r :
  (forall x, In x t -> p x = false) -> p r = true ->
  Db.select_single p (t ++ [r]) = Some r.
Proof.
  intros Hnone Hr. unfold Db.select_single. rewrite filter_app. simpl.
  rewrite Hr, filter_none by assumption. reflexivity.
Qed.

Lemma on_on p f g t :
  (forall r, p (f r) = p r) ->
  map (Db.on p g) (map (Db.on p f) t) = map (Db.on p (fun r => g (f r))) t.
Proof.
  intros Hp. rewrite map_map. apply map_ext. intros r. unfold Db.on.
  destruct (p r) eqn:E; [rewrite Hp, E | rewrite E]; reflexivity.
Qed.

Lemma insert_Some key accepted r t t' :
  Db.insert key accepted r t = Some t' ->
  t' = (t ++ [r])%list
  /\ existsb (fun x => String.eqb (key x) (key r)) t = false.
Proof.
  unfold Db.insert. intros H.
  destruct accepted; simpl in H; [|discriminate].
  destruct (existsb _ t); simpl in H; [discriminate|].
  injection H as <-. split; reflexivity.
Qed.

End TableFacts.

Lemma store_eta (s : Store) :
  mkStore (users s) (donations s) (subscriptions s) (withdrawals s) = s.
Proof. destruct s; reflexivity. Qed.

(** A transaction id carries one prefix only. *)
Lemma startsWith_SUB_not_DON (t : string) :
  Js.startsWith t "SUB_" = true -> Js.startsWith t "DON_" = false.
Proof.
  unfold Js.startsWith. destruct t as [|c t]; cbn [String.prefix]; [discriminate|].
  destruct (ascii_dec "S" c) as [<-|]; [|discriminate].
  intros _. destruct (ascii_dec "D" "S") as [E|]; [discriminate E|reflexivity].
Qed.

Lemma startsWith_DON_not_SUB (t : string) :
  Js.startsWith t "DON_" = true -> Js.startsWith t "SUB_" = false.
Proof.
  intros H. destruct (Js.startsWith t "SUB_") eqn:E; [|reflexivity].
  apply startsWith_SUB_not_DON in E. congruence.
Qed.

(** ** The webhook reconciler *)

Module WebhookFacts.
Import Webhook.

Lemma update_donations_frame w tid st s :
  users (update_donations w tid st s) = users s
  /\ subscriptions (update_donations w tid st s) = subscriptions s
  /\ withdrawals (update_donations w tid st s) = withdrawals s.
Proof.
  unfold update_donations, Db.update.
  destruct (donations_accepted w); simpl; auto.
Qed.

Lemma update_subscriptions_frame w tid b s :
  users (update_subscriptions w tid b s) = users s
  /\ donations (update_subscriptions w tid b s) = donations s
  /\ withdrawals (update_subscriptions w tid b s) = withdrawals s.
Proof.
  unfold update_subscriptions, Db.update.
  destruct (subscriptions_accepted w); simpl; auto.
Qed.

(** The reconciler writes [donations] and [subscriptions] only. *)
Lemma handler_frame w p s :
  users (snd (handler w p s)) = users s
  /\ withdrawals (snd (handler w p s)) = withdrawals s.
Proof.
  unfold handler. destruct (verification w) as [thrown|v]; simpl; [auto|].
  destruct (verified v && String.eqb (payment_status v) "completed");
    destruct (Js.startsWith (transaction_id p) "DON_");
    destruct (Js.startsWith (transaction_id p) "SUB_");
    repeat match goal with
           | |- context [update_subscriptions ?w ?t ?b ?s] =>
               destruct (update_subscriptions_frame w t b s) as (-> & _ & ->)
           | |- context [update_donations ?w ?t ?st ?s] =>
               destruct (update_donations_frame w t st s) as (-> & _ & ->)
           end; auto.
Qed.

End WebhookFacts.

Section Absorb.
Context {A B : Type}.
Implicit Types (p : A -> bool) (f g : A -> A) (c : A -> B) (t : list A).

(** A second update of the same rows hides the first when it overwrites
    what the first wrote. *)
Lemma on_absorb p f g t :
  (forall r, p (f r) = p r) -> (forall r, g (f r) = g r) ->
  map (Db.on p g) (map (Db.on p f) t) = map (Db.on p g) t.
Proof.
  intros Hp Hg. rewrite on_on by assumption. apply map_ext. intros r.
  unfold Db.on. destruct (p r); auto.
Qed.

Lemma on_content p f g c t :
  (forall r, c (g r) = c (f r)) ->
  map c (map (Db.on p g) t) = map c (map (Db.on p f) t).
Proof.
  intros Hc. rewrite !map_map. apply map_ext. intros r.
  unfold Db.on. destruct (p r); auto.
Qed.
End Absorb.

Module WebhookRedelivery.
Import Webhook WebhookFacts.

Lemma donations_redelivered tid st n1 n2 t :
  let q := fun d => String.eqb (Donation.txn_id d) tid in
  map donation_content
      (map (Db.on q (set_payment_status st n2))
           (map (Db.on q (set_payment_status st n1)) t))
  = map donation_content (map (Db.on q (set_payment_status st n1)) t).
Proof.
  intros q. rewrite on_absorb by reflexivity. apply on_content. reflexivity.
Qed.

Lemma donations_replayed tid st n t :
  let q := fun d => String.eqb (Donation.txn_id d) tid in
  map (Db.on q (set_payment_status st n)) (map (Db.on q (set_payment_status st n)) t)
  = map (Db.on q (set_payment_status st n)) t.
Proof. intros q. apply on_absorb; reflexivity. Qed.

Lemma subscriptions_redelivered tid b n1 n2 t :
  let q := fun r => String.eqb (Subscription.last_payment_txn_id r) tid in
  map subscription_content
      (map (Db.on q (set_is_active b n2)) (map (Db.on q (set_is_active b n1)) t))
  = map subscription_content (map (Db.on q (set_is_active b n1)) t).
Proof.
  intros q. rewrite on_absorb by reflexivity. apply on_content. reflexivity.
Qed.

Lemma subscriptions_replayed tid b n t :
  let q := fun r => String.eqb (Subscription.last_payment_txn_id r) tid in
  map (Db.on q (set_is_active b n)) (map (Db.on q (set_is_active b n)) t)
  = map (Db.on q (set_is_active b n)) t.
Proof. intros q. apply on_absorb; reflexivity. Qed.

End WebhookRedelivery.

(** C1, on the code as it is. Once the reconciler has verified the gateway
    donation of 50 as completed, the donation row is [completed] and the
    creator's [current_amount] is still 0: the reconciler never writes the
    [users] table, for any delivery and any ledger. The claim has the
    amount credited at this point. *)
Theorem webhook_completed_donation_not_credited :
  (forall w p s, users (snd (Webhook.handler w p s)) = users s)
  /\ let s2 := snd (Webhook.handler (Scenario.webhook_world (Scenario.now + 60000))
                                    Scenario.webhook_payload Scenario.store_pending) in
     map Donation.txn_id (donations Scenario.store_pending) = [Scenario.donation_txn]
     /\ map Donation.payment_status (donations Scenario.store_pending) = ["pending"]
     /\ map Donation.payment_status (donations s2) = ["completed"]
     /\ map Donation.amount (donations s2) = [50]
     /\ map User.current_amount (users Scenario.store_pending) = [0]
     /\ map User.current_amount (users s2) = [0].
Proof.
  split.
  - intros w p s. apply WebhookFacts.handler_frame.
  - vm_compute. repeat split; reflexivity.
Qed.

(** C5. When the same verification result [v] (completed or not) is
    delivered a second time for a transaction id whose first delivery the
    store applied, the second delivery changes no state and credits
    nothing: the [users] and [withdrawals] tables are those the first
    delivery left, which are those before it; every donation and every
    subscription has the columns the first delivery left it with, the
    [updated_at] stamp apart, and a row that does not carry the
    transaction id is the same row, stamp included; no row is added or
    removed. If the clock reads the same, the ledger is the same. *)
Theorem webhook_redelivery (w1 w2 : Webhook.World) (p : Webhook.WebhookPayload)
        (s : Store) (v : Webhook.Verification) :
  Webhook.verification w1 = inr v -> Webhook.verification w2 = inr v ->
  Webhook.donations_accepted w1 = true -> Webhook.subscriptions_accepted w1 = true ->
  let s1 := snd (Webhook.handler w1 p s) in
  let s2 := snd (Webhook.handler w2 p s1) in
  users s2 = users s1 /\ users s1 = users s
  /\ withdrawals s2 = withdrawals s1 /\ withdrawals s1 = withdrawals s
  /\ Forall2 (fun d1 d2 =>
                donation_content d2 = donation_content d1
                /\ Donation.payment_status d2 = Donation.payment_status d1
                /\ (Donation.txn_id d1 <> Webhook.transaction_id p -> d2 = d1))
             (donations s1) (donations s2)
  /\ Forall2 (fun r1 r2 =>
                subscription_content r2 = subscription_content r1
                /\ Subscription.is_active r2 = Subscription.is_active r1
                /\ (Subscription.last_payment_txn_id r1 <> Webhook.transaction_id p ->
                    r2 = r1))
             (subscriptions s1) (subscriptions s2)
  /\ (Webhook.donations_now w2 = Webhook.donations_now w1 ->
      Webhook.subscriptions_now w2 = Webhook.subscriptions_now w1 -> s2 = s1).
Proof.
  intros V1 V2 A1 A2 s1 s2.
  destruct (WebhookFacts.handler_frame w2 p s1) as [U2 W2].
  destruct (WebhookFacts.handler_frame w1 p s) as [U1 W1].
  fold s1 in U1, W1. fold s2 in U2, W2.
  split; [exact U2|]. split; [exact U1|]. split; [exact W2|]. split; [exact W1|].
  assert (Hmaps : forall {A B} (R : B -> B -> Prop) (h1 h2 : A -> B) (t : list A),
             (forall x, R (h1 x) (h2 x)) -> Forall2 R (map h1 t) (map h2 t)).
  { intros A B R h1 h2 t HR. induction t; cbn [map]; constructor; auto. }
  assert (Hsame : forall {A} (R : A -> A -> Prop) (t : list A),
             (forall x, R x x) -> Forall2 R t t).
  { intros A R t HR. induction t; constructor; auto. }
  assert (Hd : forall st n1 n2 t,
             Forall2 (fun d1 d2 =>
                        donation_content d2 = donation_content d1
                        /\ Donation.payment_status d2 = Donation.payment_status d1
                        /\ (Donation.txn_id d1 <> Webhook.transaction_id p -> d2 = d1))
                     (map (Db.on (fun d => String.eqb (Donation.txn_id d)
                                                      (Webhook.transaction_id p))
                                 (Webhook.set_payment_status st n1)) t)
                     (map (Db.on (fun d => String.eqb (Donation.txn_id d)
                                                      (Webhook.transaction_id p))
                                 (Webhook.set_payment_status st n2))
                          (map (Db.on (fun d => String.eqb (Donation.txn_id d)
                                                           (Webhook.transaction_id p))
                                      (Webhook.set_payment_status st n1)) t))).
  { intros st n1 n2 t. rewrite (map_map _ _ t). apply Hmaps. intros d. unfold Db.on.
    destruct (String.eqb_spec (Donation.txn_id d) (Webhook.transaction_id p)) as [E|N].
    - cbn [Webhook.set_payment_status Donation.txn_id]. rewrite E, String.eqb_refl.
      cbn [Webhook.set_payment_status Donation.txn_id Donation.payment_status].
      split; [reflexivity|]. split; [reflexivity|]. intros N. contradiction.
    - replace (String.eqb (Donation.txn_id d) (Webhook.transaction_id p))
        with false by (symmetry; apply String.eqb_neq; exact N).
      split; [reflexivity|]. split; reflexivity. }
  assert (Hs : forall b n1 n2 t,
             Forall2 (fun r1 r2 =>
                        subscription_content r2 = subscription_content r1
                        /\ Subscription.is_active r2 = Subscription.is_active r1
                        /\ (Subscription.last_payment_txn_id r1
                            <> Webhook.transaction_id p -> r2 = r1))
                     (map (Db.on (fun r => String.eqb (Subscription.last_payment_txn_id r)
                                                      (Webhook.transaction_id p))
                                 (Webhook.set_is_active b n1)) t)
                     (map (Db.on (fun r => String.eqb (Subscription.last_payment_txn_id r)
                                                      (Webhook.transaction_id p))
                                 (Webhook.set_is_active b n2))
                          (map (Db.on (fun r => String.eqb
                                                  (Subscription.last_payment_txn_id r)
                                                  (Webhook.transaction_id p))
                                      (Webhook.set_is_active b n1)) t))).
  { intros b n1 n2 t. rewrite (map_map _ _ t). apply Hmaps. intros r. unfold Db.on.
    destruct (String.eqb_spec (Subscription.last_payment_txn_id r)
                              (Webhook.transaction_id p)) as [E|N].
    - cbn [Webhook.set_is_active Subscription.last_payment_txn_id].
      rewrite E, String.eqb_refl.
      cbn [Webhook.set_is_active Subscription.last_payment_txn_id Subscription.is_active].
      split; [reflexivity|]. split; [reflexivity|]. intros N. contradiction.
    - replace (String.eqb (Subscription.last_payment_txn_id r) (Webhook.transaction_id p))
        with false by (symmetry; apply String.eqb_neq; exact N).
      split; [reflexivity|]. split; reflexivity. }
  subst s2 s1. clear U1 U2 W1 W2.
  unfold Webhook.handler. rewrite V1, V2. cbn [snd].
  unfold Webhook.update_donations, Webhook.update_subscriptions, Db.update.
  rewrite A1, A2.
  destruct (Webhook.verified v && String.eqb (Webhook.payment_status v) "completed");
    destruct (Js.startsWith (Webhook.transaction_id p) "DON_");
    destruct (Js.startsWith (Webhook.transaction_id p) "SUB_");
    destruct (Webhook.donations_accepted w2);
    destruct (Webhook.subscriptions_accepted w2);
    cbn [donations subscriptions users withdrawals with_donations with_subscriptions];
    (split; [|split]);
    try (apply Hsame; intros x; split; [reflexivity|split; reflexivity]);
    try apply Hd; try apply Hs.
  all: intros E1 E2; rewrite ?E1, ?E2; unfold with_donations, with_subscriptions;
    cbn [donations subscriptions users withdrawals];
    rewrite ?WebhookRedelivery.donations_replayed,
            ?WebhookRedelivery.subscriptions_replayed; reflexivity.
Qed.

(** C5 at two deliveries of the completion of the donation of 50, a
    minute apart. *)
Lemma webhook_redelivery_witness :
  let w1 := Scenario.webhook_world (Scenario.now + 60000) in
  let w2 := Scenario.webhook_world (Scenario.now + 120000) in
  let s1 := snd (Webhook.handler w1 Scenario.webhook_payload Scenario.store_pending) in
  let s2 := snd (Webhook.handler w2 Scenario.webhook_payload s1) in
  users s2 = users s1 /\ users s1 = users Scenario.store_pending
  /\ withdrawals s2 = withdrawals s1 /\ withdrawals s1 = withdrawals Scenario.store_pending
  /\ Forall2 (fun d1 d2 =>
                donation_content d2 = donation_content d1
                /\ Donation.payment_status d2 = Donation.payment_status d1
                /\ (Donation.txn_id d1 <> Webhook.transaction_id Scenario.webhook_payload ->
                    d2 = d1))
             (donations s1) (donations s2)
  /\ Forall2 (fun r1 r2 =>
                subscription_content r2 = subscription_content r1
                /\ Subscription.is_active r2 = Subscription.is_active r1
                /\ (Subscription.last_payment_txn_id r1
                    <> Webhook.transaction_id Scenario.webhook_payload -> r2 = r1))
             (subscriptions s1) (subscriptions s2)
  /\ (Scenario.now + 120000 = Scenario.now + 60000 ->
      Scenario.now + 120000 = Scenario.now + 60000 -> s2 = s1).
Proof.
  exact (webhook_redelivery (Scenario.webhook_world (Scenario.now + 60000))
           (Scenario.webhook_world (Scenario.now + 120000))
           Scenario.webhook_payload Scenario.store_pending Scenario.completed
           eq_refl eq_refl eq_refl eq_refl).
Defined.

(** What the second of those deliveries does renew is the stamp of the
    donation it matches. *)
Example webhook_redelivery_restamps :
  let w1 := Scenario.webhook_world (Scenario.now + 60000) in
  let w2 := Scenario.webhook_world (Scenario.now + 120000) in
  let s1 := snd (Webhook.handler w1 Scenario.webhook_payload Scenario.store_pending) in
  let s2 := snd (Webhook.handler w2 Scenario.webhook_payload s1) in
  map Donation.payment_status (donations s1) = ["completed"]
  /\ map Donation.payment_status (donations s2) = ["completed"]
  /\ map Donation.updated_at (donations s1) = [Some (Scenario.now + 60000)]
  /\ map Donation.updated_at (donations s2) = [Some (Scenario.now + 120000)].
Proof. vm_compute. repeat split; reflexivity. Qed.

(** C6. Webhook dispatch is isolated by prefix: whatever the verification
    says and whatever else the payload carries, a delivery whose
    transaction id starts with SUB_ leaves the [donations] table as it is,
    and one whose id starts with DON_ leaves the [subscriptions] table as
    it is. *)
Theorem webhook_dispatch_isolated (w : Webhook.World) (p : Webhook.WebhookPayload)
        (s : Store) :
  (Js.startsWith (Webhook.transaction_id p) "SUB_" = true ->
   donations (snd (Webhook.handler w p s)) = donations s)
  /\ (Js.startsWith (Webhook.transaction_id p) "DON_" = true ->
      subscriptions (snd (Webhook.handler w p s)) = subscriptions s).
Proof.
  split; intros H; unfold Webhook.handler;
    destruct (Webhook.verification w) as [thrown|v]; cbn [snd]; try reflexivity.
  - rewrite H, (startsWith_SUB_not_DON _ H).
    destruct (Webhook.verified v && String.eqb (Webhook.payment_status v) "completed");
      apply WebhookFacts.update_subscriptions_frame.
  - rewrite H, (startsWith_DON_not_SUB _ H).
    destruct (Webhook.verified v && String.eqb (Webhook.payment_status v) "completed");
      apply WebhookFacts.update_donations_frame.
Qed.
(** ** Withdrawals *)

Lemma Forall2_map_same {A} (R : A -> A -> Prop) (f : A -> A) (t : list A) :
  (forall r, R r (f r)) -> Forall2 R t (map f t).
Proof. intros H. induction t; simpl; constructor; auto. Qed.

Lemma existsb_fresh {A} (key : A -> string) (k : string) (t : list A) :
  (forall r, In r t -> key r <> k) ->
  existsb (fun x => String.eqb (key x) k) t = false.
Proof.
  intros H. induction t as [|a t IH]; simpl; [reflexivity|].
  rewrite IH by (intros r Hr; apply H; right; assumption).
  rewrite orb_false_r. apply String.eqb_neq. apply H. left. reflexivity.
Qed.

Module WithdrawalFacts.
Import RequestWithdrawal.

(** The handler once the caller is known, the amount is positive and the
    profile read is a creator's: what is left is the balance check, the
    insert and the update that throws. *)
Lemma handler_creator w req s user profile :
  caller w = Authenticated user ->
  Db.select_single (fun u => String.eqb (User.id u) (auth_id user)) (users s)
  = Some profile ->
  User.role profile = "creator" ->
  0 < amount req ->
  handler w req s =
  if User.current_amount profile <? amount req
  then (mkResponse 400
          [("error", JStr "Insufficient balance");
           ("available_balance", JNum (User.current_amount profile))], s)
  else
    match Db.insert Withdrawal.id (insert_accepted w)
            (new_withdrawal w user req) (withdrawals s) with
    | None => (reject 500 "Failed to create withdrawal request", s)
    | Some ws => (internal_error (sql_thrown w), with_withdrawals s ws)
    end.
Proof.
  intros Hc Hp Hr Ha. unfold handler. rewrite Hc, Hp, Hr.
  replace (amount req =? 0) with false by (symmetry; apply Z.eqb_neq; lia).
  replace (amount req <=? 0) with false by (symmetry; apply Z.leb_gt; lia).
  reflexivity.
Qed.

Lemma insert_fresh w user req s :
  insert_accepted w = true ->
  (forall r, In r (withdrawals s) -> Withdrawal.id r <> withdrawal_id w) ->
  Db.insert Withdrawal.id (insert_accepted w) (new_withdrawal w user req)
            (withdrawals s)
  = Some (withdrawals s ++ [new_withdrawal w user req])%list.
Proof.
  intros Hi Hf. unfold Db.insert. rewrite Hi.
  change (Withdrawal.id (new_withdrawal w user req)) with (withdrawal_id w).
  rewrite existsb_fresh by assumption. reflexivity.
Qed.

(** A request that passes every check and whose row the store takes. *)
Lemma handler_inserted w req s user profile :
  caller w = Authenticated user ->
  Db.select_single (fun u => String.eqb (User.id u) (auth_id user)) (users s)
  = Some profile ->
  User.role profile = "creator" ->
  0 < amount req <= User.current_amount profile ->
  insert_accepted w = true ->
  (forall r, In r (withdrawals s) -> Withdrawal.id r <> withdrawal_id w) ->
  handler w req s
  = (internal_error (sql_thrown w),
     with_withdrawals s (withdrawals s ++ [new_withdrawal w user req])).
Proof.
  intros Hc Hp Hr [Ha Hle] Hi Hf.
  rewrite (handler_creator w req s user profile Hc Hp Hr Ha).
  replace (User.current_amount profile <? amount req) with false
    by (symmetry; apply Z.ltb_ge; lia).
  rewrite insert_fresh by assumption. reflexivity.
Qed.

(** No request is answered 200, and none writes the [users] table. *)
Lemma handler_never_succeeds w req s :
  status (fst (handler w req s)) <> 200 /\ users (snd (handler w req s)) = users s.
Proof.
  unfold handler.
  destruct (caller w) as [thrown| |user]; try (split; [cbn; discriminate|reflexivity]).
  destruct ((amount req =? 0) || (amount req <=? 0));
    try (split; [cbn; discriminate|reflexivity]).
  destruct (Db.select_single _ (users s)) as [profile|];
    try (split; [cbn; discriminate|reflexivity]).
  destruct (negb (String.eqb (User.role profile) "creator"));
    try (split; [cbn; discriminate|reflexivity]).
  destruct (User.current_amount profile <? amount req);
    try (split; [cbn; discriminate|reflexivity]).
  destruct (Db.insert _ _ _ _) as [ws|]; split; first [cbn; discriminate|reflexivity].
Qed.

End WithdrawalFacts.

(** C2, on the code as it is. A request for more than the balance is
    answered 400 with the balance as [available_balance] and leaves the
    ledger, as the claim has it. A request for exactly the balance does
    not succeed: once its row is inserted the balance update throws
    before it is sent, the answer is 500 and the balance is what it was,
    not 0. So it is for the creator holding 50 who asks for 50. *)
Theorem withdrawal_of_whole_balance_fails :
  (forall w req s user profile,
      RequestWithdrawal.caller w = Authenticated user ->
      Db.select_single (fun u => String.eqb (User.id u) (auth_id user)) (users s)
      = Some profile ->
      User.role profile = "creator" ->
      0 < RequestWithdrawal.amount req ->
      (User.current_amount profile < RequestWithdrawal.amount req ->
       RequestWithdrawal.handler w req s
       = (mkResponse 400
            [("error", JStr "Insufficient balance");
             ("available_balance", JNum (User.current_amount profile))], s))
      /\ (RequestWithdrawal.amount req = User.current_amount profile ->
          RequestWithdrawal.insert_accepted w = true ->
          (forall r, In r (withdrawals s) ->
                     Withdrawal.id r <> RequestWithdrawal.withdrawal_id w) ->
          status (fst (RequestWithdrawal.handler w req s)) = 500
          /\ Db.select_single (fun u => String.eqb (User.id u) (auth_id user))
                              (users (snd (RequestWithdrawal.handler w req s)))
             = Some profile
          /\ User.current_amount profile <> 0))
  /\ let result := RequestWithdrawal.handler Scenario.withdrawal_world
                     (Scenario.withdrawal_request 50) (Scenario.store_balance 50) in
     status (fst result) = 500
     /\ field "error" (body (fst result)) = Some (JStr "Internal server error")
     /\ map User.current_amount (users (snd result)) = [50]
     /\ map (fun r => (Withdrawal.amount r, Withdrawal.status r))
            (withdrawals (snd result)) = [(50, "pending")].
Proof.
  split.
  - intros w req s user profile Hc Hp Hr Ha.
    split.
    + intros Hlt.
      rewrite (WithdrawalFacts.handler_creator w req s user profile Hc Hp Hr Ha).
      apply Z.ltb_lt in Hlt. rewrite Hlt. reflexivity.
    + intros Heq Hi Hf.
      rewrite (WithdrawalFacts.handler_inserted w req s user profile Hc Hp Hr
                 ltac:(lia) Hi Hf).
      cbn [fst snd status internal_error users with_withdrawals].
      split; [reflexivity|]. split; [exact Hp|lia].
  - vm_compute. repeat split; reflexivity.
Qed.

(** C3, on the code as it is. A request that passes every check and whose
    row the store takes is answered 500 as an internal error, and the
    ledger it leaves is the one before with the withdrawal row added: the
    balance is not debited, the update having thrown before it was sent,
    and the row is not deleted, the compensating branch never being
    reached. No request is answered 200 and none writes a balance. So it
    is for the creator holding 50 who asks for 30: a pending withdrawal
    of 30 stands against an untouched balance of 50. *)
Theorem withdrawal_row_left_without_debit :
  (forall w req s user profile,
      RequestWithdrawal.caller w = Authenticated user ->
      Db.select_single (fun u => String.eqb (User.id u) (auth_id user)) (users s)
      = Some profile ->
      User.role profile = "creator" ->
      0 < RequestWithdrawal.amount req <= User.current_amount profile ->
      RequestWithdrawal.insert_accepted w = true ->
      (forall r, In r (withdrawals s) ->
                 Withdrawal.id r <> RequestWithdrawal.withdrawal_id w) ->
      RequestWithdrawal.handler w req s
      = (internal_error (RequestWithdrawal.sql_thrown w),
         mkStore (users s) (donations s) (subscriptions s)
                 (withdrawals s ++ [RequestWithdrawal.new_withdrawal w user req])))
  /\ (forall w req s,
         status (fst (RequestWithdrawal.handler w req s)) <> 200
         /\ users (snd (RequestWithdrawal.handler w req s)) = users s)
  /\ let result := RequestWithdrawal.handler Scenario.withdrawal_world
                     (Scenario.withdrawal_request 30) (Scenario.store_balance 50) in
     status (fst result) = 500
     /\ field "error" (body (fst result)) = Some (JStr "Internal server error")
     /\ field "details" (body (fst result)) = Some (JStr Scenario.sql_is_not_a_function)
     /\ map User.current_amount (users (snd result)) = [50]
     /\ map (fun r => (Withdrawal.id r, Withdrawal.amount r, Withdrawal.status r))
            (withdrawals (snd result))
        = [("w0000000-0000-4000-8000-000000000001", 30, "pending")].
Proof.
  split; [|split].
  - intros w req s user profile Hc Hp Hr Ha Hi Hf.
    exact (WithdrawalFacts.handler_inserted w req s user profile Hc Hp Hr Ha Hi Hf).
  - exact WithdrawalFacts.handler_never_succeeds.
  - vm_compute. repeat split; reflexivity.
Qed.

(** ** The administrator's action *)

(** C9. Approving or rejecting a withdrawal writes the [status] and
    [processed_at] of the withdrawal rows with that id and nothing else:
    the [users] table (every [current_amount], so also after a rejection),
    the donations and the subscriptions are unchanged, every withdrawal
    keeps all its other columns, and withdrawals with another id are
    unchanged. *)
Theorem admin_action_frame (w : Admin.World) (withdrawalId : string)
        (action : Admin.Action) (s : Store) :
  let s' := snd (Admin.handleWithdrawal w withdrawalId action s) in
  users s' = users s
  /\ donations s' = donations s
  /\ subscriptions s' = subscriptions s
  /\ Forall2 (fun r r' =>
                same_but_status r r'
                /\ (Withdrawal.id r <> withdrawalId -> r' = r)
                /\ (r' = r \/ r' = Admin.process action (Admin.now w) r))
             (withdrawals s) (withdrawals s').
Proof.
  unfold Admin.handleWithdrawal, Db.update.
  destruct (Admin.accepted w); cbn [snd users donations subscriptions withdrawals with_withdrawals];
    repeat (split; [reflexivity|]).
  - apply Forall2_map_same. intros r. unfold Db.on.
    destruct (String.eqb (Withdrawal.id r) withdrawalId) eqn:E.
    + split; [repeat split|]. split; [|right; reflexivity].
      intros Hne. apply String.eqb_eq in E. contradiction.
    + split; [repeat split|]. split; [reflexivity|left; reflexivity].
  - rewrite <- (map_id (withdrawals s)) at 2. apply Forall2_map_same.
    intros r. split; [repeat split|]. split; [reflexivity|left; reflexivity].
Qed.
(** ** Subscription dates *)

Module DateFacts.
Import JsDate.

Lemma msPerDay_pos : 0 < msPerDay.
Proof. reflexivity. Qed.

(** *** The calendar *)

Lemma all_from_spec fuel f :
  forall i, all_from fuel i f = true ->
            forall j, i <= j < i + Z.of_nat fuel -> f j = true.
Proof.
  induction fuel as [|n IH]; intros i H j Hj; [lia|].
  cbn [all_from] in H. apply andb_true_iff in H. destruct H as [H0 H1].
  destruct (Z.eq_dec j i) as [->|]; [assumption|].
  apply (IH (i + 1)); [assumption|lia].
Qed.

(** The 4800 months of the four centuries from year 0 on. *)
Lemma era_months : all_from 4800 0 month_ok = true.
Proof. vm_compute. reflexivity. Qed.

(** The calendar repeats every 400 years, which are 146097 days. *)
Lemma days_from_civil_era (y m d q : Z) :
  days_from_civil (y + 400 * q) m d = days_from_civil y m d + 146097 * q.
Proof.
  unfold days_from_civil.
  replace (if m <=? 2 then y + 400 * q - 1 else y + 400 * q)
    with ((if m <=? 2 then y - 1 else y) + q * 400) by (destruct (m <=? 2); lia).
  rewrite Z.div_add by discriminate.
  set (y' := if m <=? 2 then y - 1 else y).
  replace (y' + q * 400 - (y' / 400 + q) * 400) with (y' - y' / 400 * 400) by lia.
  lia.
Qed.

Lemma monthStart_era (k q : Z) : monthStart (k + 4800 * q) = monthStart k + 146097 * q.
Proof.
  unfold monthStart.
  replace (k + 4800 * q) with (k + (400 * q) * 12) by lia.
  rewrite Z.div_add, Z.mod_add by discriminate. apply days_from_civil_era.
Qed.

Lemma isLeapYear_era (y q : Z) : isLeapYear (y + 400 * q) = isLeapYear y.
Proof.
  unfold isLeapYear.
  replace ((y + 400 * q) mod 4) with (y mod 4)
    by (replace (y + 400 * q) with (y + (100 * q) * 4) by lia;
        rewrite Z.mod_add by discriminate; reflexivity).
  replace ((y + 400 * q) mod 100) with (y mod 100)
    by (replace (y + 400 * q) with (y + (4 * q) * 100) by lia;
        rewrite Z.mod_add by discriminate; reflexivity).
  replace ((y + 400 * q) mod 400) with (y mod 400)
    by (replace (y + 400 * q) with (y + q * 400) by lia;
        rewrite Z.mod_add by discriminate; reflexivity).
  reflexivity.
Qed.

Lemma month_ok_all (k : Z) : month_ok k = true.
Proof.
  pose proof (Z.div_mod k 4800 ltac:(discriminate)) as E.
  pose proof (Z.mod_pos_bound k 4800 ltac:(reflexivity)) as B.
  set (r := k mod 4800) in *. set (q := k / 4800) in *.
  assert (Hr : month_ok r = true).
  { apply (all_from_spec 4800 month_ok 0 era_months). cbn. lia. }
  unfold month_ok in *.
  replace k with (r + 4800 * q) by lia.
  replace (r + 4800 * q + 1) with (r + 1 + 4800 * q) by lia.
  replace (r + 4800 * q + 2) with (r + 2 + 4800 * q) by lia.
  rewrite !monthStart_era.
  replace (r + 4800 * q) with (r + (400 * q) * 12) at 1 2 by lia.
  rewrite Z.div_add, Z.mod_add by discriminate.
  unfold daysInMonth in *. rewrite isLeapYear_era.
  apply andb_true_iff in Hr. destruct Hr as [Hr H3].
  apply andb_true_iff in Hr. destruct Hr as [H1 H2].
  apply Z.eqb_eq in H1. apply Z.leb_le in H2, H3.
  apply andb_true_iff. split; [apply andb_true_iff; split|].
  - apply Z.eqb_eq. lia.
  - apply Z.leb_le. lia.
  - apply Z.leb_le. lia.
Qed.

(** Every month has the length the Gregorian calendar gives it, and day 0
    is the first of January 1970. *)
Lemma monthStart_length (k : Z) :
  monthStart (k + 1) = monthStart k + daysInMonth (k / 12) (k mod 12 + 1).
Proof.
  pose proof (month_ok_all k) as H. unfold month_ok in H.
  apply andb_true_iff in H. destruct H as [H _].
  apply andb_true_iff in H. destruct H as [H _].
  apply Z.eqb_eq. assumption.
Qed.

Lemma monthStart_epoch : monthStart (12 * 1970) = 0.
Proof. reflexivity. Qed.

Lemma daysInMonth_bounds (y m : Z) : 28 <= daysInMonth y m <= 31.
Proof.
  unfold daysInMonth.
  destruct (m =? 2); [destruct (isLeapYear y); lia|].
  destruct ((m =? 4) || (m =? 6) || (m =? 9) || (m =? 11)); lia.
Qed.

Lemma monthStart_next (k : Z) : monthStart k + 28 <= monthStart (k + 1).
Proof.
  rewrite monthStart_length.
  pose proof (daysInMonth_bounds (k / 12) (k mod 12 + 1)). lia.
Qed.

Lemma monthStart_mean (k : Z) :
  -146097 <= (monthStart (k + 2) + 719468) * 4800 - k * 146097 <= 146097.
Proof.
  pose proof (month_ok_all k) as H. unfold month_ok in H.
  apply andb_true_iff in H. destruct H as [H H3].
  apply andb_true_iff in H. destruct H as [_ H2].
  apply Z.leb_le in H2, H3. lia.
Qed.

Lemma monthStart_mono (k1 k2 : Z) :
  k1 <= k2 -> monthStart k1 + 28 * (k2 - k1) <= monthStart k2.
Proof.
  intros H. replace k2 with (k1 + (k2 - k1)) at 2 by lia.
  assert (Hn : 0 <= k2 - k1) by lia. revert Hn. generalize (k2 - k1) as n. clear H.
  intros n Hn. pattern n. apply natlike_ind; [| |assumption].
  - replace (k1 + 0) with k1 by lia. lia.
  - intros x Hx IH. pose proof (monthStart_next (k1 + x)).
    replace (k1 + Z.succ x) with (k1 + x + 1) by lia. lia.
Qed.

(** The month found for a day holds the day: [civil_from_days] inverts
    [days_from_civil]. *)
Lemma monthOfDay_spec (n : Z) :
  monthStart (monthOfDay n) <= n < monthStart (monthOfDay n + 1).
Proof.
  unfold monthOfDay.
  set (e := (n + 719468) * 4800 / 146097).
  assert (He : e * 146097 <= (n + 719468) * 4800 < (e + 1) * 146097).
  { pose proof (Z.div_mod ((n + 719468) * 4800) 146097 ltac:(discriminate)).
    pose proof (Z.mod_pos_bound ((n + 719468) * 4800) 146097 ltac:(reflexivity)).
    subst e. lia. }
  pose proof (monthStart_mean (e - 1)) as Hlo.
  pose proof (monthStart_mean (e + 2)) as Hhi.
  replace (e - 1 + 2) with (e + 2 - 1) in Hlo by lia.
  replace (e + 2 + 2) with (e + 2 + 1 + 1) in Hhi by lia.
  destruct (Z.ltb_spec n (monthStart (e + 2))) as [H1|H1].
  - replace (e + 2 - 1 + 1) with (e + 2) by lia. lia.
  - destruct (Z.leb_spec (monthStart (e + 2 + 1)) n) as [H2|H2]; lia.
Qed.

Lemma monthOfDay_mono (a b : Z) : a <= b -> monthOfDay a <= monthOfDay b.
Proof.
  intros H. destruct (Z.le_gt_cases (monthOfDay a) (monthOfDay b)) as [|G]; [assumption|].
  pose proof (monthOfDay_spec a). pose proof (monthOfDay_spec b).
  pose proof (monthStart_mono (monthOfDay b + 1) (monthOfDay a) ltac:(lia)). lia.
Qed.

Lemma MakeDay_monthStart (y m d : Z) : MakeDay y m d = monthStart (12 * y + m) + d - 1.
Proof.
  unfold MakeDay, monthStart.
  replace (12 * y + m) with (m + y * 12) by lia.
  rewrite Z.div_add, Z.mod_add by discriminate.
  replace (m / 12 + y) with (y + m / 12) by lia. reflexivity.
Qed.

Lemma addMonthsDay_monthStart (day n : Z) :
  addMonthsDay day n
  = monthStart (monthOfDay day + n) + (day - monthStart (monthOfDay day)).
Proof.
  unfold addMonthsDay, civil_from_days. rewrite MakeDay_monthStart.
  pose proof (Z.div_mod (monthOfDay day) 12 ltac:(discriminate)).
  replace (12 * (monthOfDay day / 12) + (monthOfDay day mod 12 + 1 - 1 + n))
    with (monthOfDay day + n) by lia.
  lia.
Qed.

(** Adding months keeps two days in order when the earlier one is no
    later than the 28th of its month. *)
Lemma addMonthsDay_lt (a b n : Z) :
  a < b -> snd (civil_from_days a) <= 28 -> addMonthsDay a n < addMonthsDay b n.
Proof.
  intros Hab Hd. unfold civil_from_days in Hd. cbn [snd] in Hd.
  rewrite !addMonthsDay_monthStart.
  pose proof (monthOfDay_spec a). pose proof (monthOfDay_spec b).
  pose proof (monthOfDay_mono a b ltac:(lia)) as Hm.
  destruct (Z.eq_dec (monthOfDay a) (monthOfDay b)) as [E|N].
  - rewrite E. lia.
  - pose proof (monthStart_mono (monthOfDay a + n + 1) (monthOfDay b + n) ltac:(lia)).
    pose proof (monthStart_next (monthOfDay a + n)). lia.
Qed.

Lemma Day_ofDATE (p : Z) : Day (ofDATE p) = p.
Proof. unfold Day, ofDATE. apply Z.div_mul. discriminate. Qed.

(** [setMonth] keeps the time within the day, so the calendar day it
    yields depends on the calendar day it starts from only. *)
Lemma isoDate_setMonth (t d : Z) :
  isoDate (setMonth t (getMonth t + d)) = addMonthsDay (Day t) d.
Proof.
  unfold isoDate, setMonth, getMonth, MonthFromTime, YearFromTime, DateFromTime,
    addMonthsDay, MakeDate.
  destruct (civil_from_days (Day t)) as [[y m] dd]. cbn [fst snd].
  unfold Day at 1. rewrite Z.div_add_l by discriminate.
  unfold TimeWithinDay. rewrite Z.div_small; [lia|].
  apply Z.mod_pos_bound. exact msPerDay_pos.
Qed.

(** Comparing midnight of the paid-through day with the present instant
    picks the later of the two calendar days. *)
Lemma Day_extendFrom (p today : Z) :
  Day (if ofDATE p >? today then ofDATE p else today) = Z.max p (Day today).
Proof.
  rewrite Z.gtb_ltb. destruct (Z.ltb_spec today (ofDATE p)) as [H|H].
  - rewrite Day_ofDATE. unfold ofDATE in H.
    assert (Day today < p).
    { unfold Day. apply Z.div_lt_upper_bound; [exact msPerDay_pos|lia]. }
    lia.
  - unfold ofDATE in H.
    assert (p <= Day today).
    { unfold Day. apply Z.div_le_lower_bound; [exact msPerDay_pos|lia]. }
    lia.
Qed.

End DateFacts.

Module SubscriptionFacts.
Import CreateSubscription.

Lemma paidUntil_day today d :
  JsDate.isoDate (paidUntil today d) = JsDate.addMonthsDay (JsDate.Day today) d.
Proof. apply DateFacts.isoDate_setMonth. Qed.

Lemma newPaidUntil_day today d existing :
  JsDate.isoDate (newPaidUntil today d existing)
  = JsDate.addMonthsDay (Z.max (Subscription.paid_until existing) (JsDate.Day today)) d.
Proof.
  unfold newPaidUntil. cbv zeta. rewrite DateFacts.isoDate_setMonth.
  rewrite DateFacts.Day_extendFrom. reflexivity.
Qed.

Lemma not_mine user (t : list Subscription.t) :
  (forall r, In r t -> Subscription.user_id r <> auth_id user) ->
  forall x, In x t -> String.eqb (Subscription.user_id x) (auth_id user) = false.
Proof. intros H x Hx. apply String.eqb_neq. apply H. assumption. Qed.

Lemma upsert_frame w user d active txn pid st s id s1 :
  upsert w user d active txn pid st s = Some (id, s1) ->
  users s1 = users s /\ donations s1 = donations s /\ withdrawals s1 = withdrawals s.
Proof.
  unfold upsert. intros H.
  destruct (Db.select_single _ (subscriptions s)) as [existing|].
  - destruct (Db.update _ _ _ _) as [ss|]; [|discriminate].
    injection H as _ <-. repeat split.
  - destruct (Db.insert _ _ _ _) as [ss|]; [|discriminate].
    injection H as _ <-. repeat split.
Qed.

(** An existing row is extended in place. *)
Lemma upsert_existing w user d active txn pid st s id s1 existing :
  Db.select_single (fun sub => String.eqb (Subscription.user_id sub) (auth_id user))
                   (subscriptions s) = Some existing ->
  upsert w user d active txn pid st s = Some (id, s1) ->
  Db.select_single (fun sub => String.eqb (Subscription.user_id sub) (auth_id user))
                   (subscriptions s1)
  = Some (extend (today w) d active txn pid (subscription_now w) existing existing).
Proof.
  intros He H. unfold upsert in H. rewrite He in H. unfold Db.update in H.
  destruct (subscription_accepted w); [|discriminate].
  injection H as _ <-. cbn [subscriptions with_subscriptions].
  rewrite select_single_on by reflexivity. rewrite He. cbn [option_map].
  unfold Db.on. rewrite String.eqb_refl. reflexivity.
Qed.

(** Without a row of the user, one is inserted. *)
Lemma upsert_new w user d active txn pid st s id s1 :
  (forall r, In r (subscriptions s) -> Subscription.user_id r <> auth_id user) ->
  upsert w user d active txn pid st s = Some (id, s1) ->
  Db.select_single (fun sub => String.eqb (Subscription.user_id sub) (auth_id user))
                   (subscriptions s1)
  = Some (Subscription.mk (subscription_id w) (auth_id user) (100 * d)
                          (JsDate.isoDate (paidUntil (today w) d))
                          active txn pid st None).
Proof.
  intros Hnone H. unfold upsert in H.
  rewrite (select_single_none _ _ (not_mine user _ Hnone)) in H.
  destruct (Db.insert _ _ _ _) as [ss|] eqn:Hins; [|discriminate].
  injection H as _ <-. apply insert_Some in Hins. destruct Hins as [-> _].
  cbn [subscriptions with_subscriptions].
  apply select_single_new; [apply not_mine; assumption|].
  cbn. apply String.eqb_refl.
Qed.

(** A request answered 200 went through the upsert and the mirror update. *)
Lemma subscription_success v w req s user :
  caller w = Authenticated user ->
  status (fst (handler v w req s)) = 200 ->
  is_creator user s = true
  /\ exists pid st id s1,
      upsert w user (months req)
             (match v with Gateway => false | Simulated => true end)
             (txnId v w user) pid st s = Some (id, s1)
      /\ snd (handler v w req s) = update_mirror w user (months req) s1
      /\ field "txn_id" (body (fst (handler v w req s))) = Some (JStr (txnId v w user)).
Proof.
  intros Hc. destruct v; unfold handler, gateway, simulated, txnId; rewrite Hc;
    destruct (is_creator user s); cbn [negb]; try (cbn; discriminate).
  - destruct (checkout w) as [thrown|r]; try (cbn; discriminate).
    destruct (checkout_status r); cbn [negb]; try (cbn; discriminate).
    destruct (upsert _ _ _ _ _ _ _ _) as [[id s1]|] eqn:Hu; try (cbn; discriminate).
    intros _. split; [reflexivity|]. do 4 eexists. split; [exact Hu|]. split; reflexivity.
  - destruct (upsert _ _ _ _ _ _ _ _) as [[id s1]|] eqn:Hu; try (cbn; discriminate).
    intros _. split; [reflexivity|]. do 4 eexists. split; [exact Hu|]. split; reflexivity.
Qed.

Lemma update_mirror_subscriptions w user d s :
  subscriptions (update_mirror w user d s) = subscriptions s.
Proof.
  unfold update_mirror. destruct (Db.update _ _ _ _); reflexivity.
Qed.

Lemma update_mirror_user w user d s :
  is_creator user s = true ->
  mirror_accepted w = true ->
  exists profile,
    Db.select_single (fun u => String.eqb (User.id u) (auth_id user)) (users s)
    = Some profile
    /\ Db.select_single (fun u => String.eqb (User.id u) (auth_id user))
                        (users (update_mirror w user d s))
       = Some (mirror (paidUntil (today w) d) (mirror_now w) profile).
Proof.
  unfold is_creator, update_mirror, Db.update. intros Hcr ->.
  destruct (Db.select_single _ (users s)) as [profile|] eqn:Hp; [|discriminate].
  exists profile. split; [reflexivity|].
  cbn [users with_users]. rewrite select_single_on by reflexivity.
  rewrite Hp. cbn [option_map]. apply select_single_In in Hp.
  unfold Db.on. destruct Hp as [_ ->]. reflexivity.
Qed.

End SubscriptionFacts.



(** C10, the claim as stated fails: on 2025-01-31 a creator whose
    subscription is paid until 2025-02-03, so not expired, renews for one
    month through the gateway. The row is extended to 2025-03-03 (one
    month after 2025-02-03), and the mirror's expiry, one month after
    2025-01-31 with the 31st running over the end of February, falls on
    2025-03-03 as well: the two do not differ. *)
Lemma renewal_mirror_coincides :
  let s' := snd (CreateSubscription.gateway Scenario.renewal_world
                   Scenario.renewal_request Scenario.store_renewal) in
  status (fst (CreateSubscription.gateway Scenario.renewal_world
                 Scenario.renewal_request Scenario.store_renewal)) = 200
  /\ JsDate.civil_from_days (JsDate.Day Scenario.january_31) = (2025, 1, 31)
  /\ map (fun r => JsDate.civil_from_days (Subscription.paid_until r))
         (subscriptions Scenario.store_renewal) = [(2025, 2, 3)]
  /\ map (fun r => JsDate.civil_from_days (Subscription.paid_until r))
         (subscriptions s') = [(2025, 3, 3)]
  /\ map (fun u => option_map (fun t => JsDate.civil_from_days (JsDate.isoDate t))
                              (User.subscription_expires_at u))
         (users s') = [Some (2025, 3, 3)].
Proof. vm_compute. repeat split; reflexivity. Qed.

(** C10, amended. After a gateway-path subscription intake answered 200
    whose update of the [users] row the store accepted, and before any
    webhook: the caller's subscription row has [is_active = false] and
    carries the new transaction id, while the caller's [users] row has
    [subscription_status = 'active'] and [subscription_expires_at] equal
    to today plus the duration, whatever row existed. On a renewal of a
    subscription paid until a day after today the row's [paid_until] is
    that day plus the duration, and the mirror's expiry falls before it,
    so differs from it, whenever today is no later than the 28th of its
    month. *)
Theorem gateway_subscription_mirror (w : CreateSubscription.World)
        (req : CreateSubscription.SubscriptionRequest) (s : Store) (user : AuthUser) :
  CreateSubscription.caller w = Authenticated user ->
  status (fst (CreateSubscription.gateway w req s)) = 200 ->
  CreateSubscription.mirror_accepted w = true ->
  let d := CreateSubscription.months req in
  let today := JsDate.Day (CreateSubscription.today w) in
  let s' := snd (CreateSubscription.gateway w req s) in
  let mine := fun sub => String.eqb (Subscription.user_id sub) (auth_id user) in
  let pending := fun r =>
    Subscription.is_active r = false
    /\ Subscription.last_payment_txn_id r
       = TxnId.subscription_gateway (auth_id user) (CreateSubscription.txn_now w) in
  exists u expires,
    Db.select_single (fun u => String.eqb (User.id u) (auth_id user)) (users s') = Some u
    /\ User.subscription_status u = Some "active"
    /\ User.subscription_expires_at u = Some expires
    /\ JsDate.isoDate expires = JsDate.addMonthsDay today d
    /\ ((forall r, In r (subscriptions s) -> Subscription.user_id r <> auth_id user) ->
        exists r, Db.select_single mine (subscriptions s') = Some r /\ pending r)
    /\ (forall existing,
           Db.select_single mine (subscriptions s) = Some existing ->
           exists r,
             Db.select_single mine (subscriptions s') = Some r
             /\ pending r
             /\ (today < Subscription.paid_until existing ->
                 Subscription.paid_until r
                 = JsDate.addMonthsDay (Subscription.paid_until existing) d
                 /\ (snd (JsDate.civil_from_days today) <= 28 ->
                     JsDate.isoDate expires < Subscription.paid_until r))).
Proof.
  intros Hc Hok Hm d today s' mine pending.
  destruct (SubscriptionFacts.subscription_success Gateway w req s user Hc Hok)
    as (Hcr & pid & st & id & s1 & Hu & Hs & _).
  change (CreateSubscription.handler Gateway) with CreateSubscription.gateway in Hs.
  destruct (SubscriptionFacts.upsert_frame _ _ _ _ _ _ _ _ _ _ Hu) as (Hus & _).
  assert (Hcr1 : CreateSubscription.is_creator user s1 = true).
  { unfold CreateSubscription.is_creator in *. rewrite Hus. exact Hcr. }
  destruct (SubscriptionFacts.update_mirror_user w user d s1 Hcr1 Hm)
    as (profile & _ & Hsel).
  subst s'. rewrite Hs, SubscriptionFacts.update_mirror_subscriptions.
  do 2 eexists. split; [exact Hsel|]. split; [reflexivity|]. split; [reflexivity|].
  rewrite SubscriptionFacts.paidUntil_day. split; [reflexivity|]. split.
  - intros Hnone. eexists. split.
    + exact (SubscriptionFacts.upsert_new _ _ _ _ _ _ _ _ _ _ Hnone Hu).
    + split; reflexivity.
  - intros existing He. eexists. split.
    + exact (SubscriptionFacts.upsert_existing _ _ _ _ _ _ _ _ _ _ _ He Hu).
    + split; [split; reflexivity|]. intros Hlt.
      cbn [Subscription.paid_until CreateSubscription.extend].
      rewrite SubscriptionFacts.newPaidUntil_day.
      replace (Z.max (Subscription.paid_until existing) (JsDate.Day (CreateSubscription.today w)))
        with (Subscription.paid_until existing) by (subst today; lia).
      split; [reflexivity|]. intros H28.
      apply DateFacts.addMonthsDay_lt; assumption.
Qed.

(** C10, amended, at the one-month renewal, on 2025-08-27, of a
    subscription paid until 2025-09-30. *)
Lemma gateway_subscription_mirror_witness :
  exists r expires,
    Db.select_single
      (fun sub => String.eqb (Subscription.user_id sub) Scenario.creator_id)
      (subscriptions
         (snd (CreateSubscription.gateway Scenario.subscription_world
                 Scenario.renewal_request Scenario.store))) = Some r
    /\ Subscription.is_active r = false
    /\ map User.subscription_expires_at
           (users (snd (CreateSubscription.gateway Scenario.subscription_world
                          Scenario.renewal_request Scenario.store))) = [Some expires]
    /\ JsDate.isoDate expires < Subscription.paid_until r.
Proof.
  destruct (gateway_subscription_mirror Scenario.subscription_world
              Scenario.renewal_request Scenario.store
              (mkAuthUser Scenario.creator_id None) eq_refl eq_refl eq_refl)
    as (u & expires & Hu & _ & He & _ & _ & Hrow).
  destruct (Hrow (Scenario.subscription (JsDate.days_from_civil 2025 9 30) true) eq_refl)
    as (r & Hr & (Ha & _) & Hlt).
  exists r, expires. split; [exact Hr|]. split; [exact Ha|]. split.
  - vm_compute in Hu. injection Hu as <-. vm_compute in He. injection He as <-.
    reflexivity.
  - apply Hlt; [reflexivity|]. vm_compute. discriminate.
Defined.

(** ** Donation intake *)

Module DonationFacts.
Import ProcessDonation.

Lemma expired_before_now (p now : Z) :
  p < JsDate.Day now -> (JsDate.ofDATE p <? now) = true.
Proof.
  intros H. apply Z.ltb_lt. unfold JsDate.ofDATE, JsDate.Day in *.
  pose proof (Z.mul_div_le now JsDate.msPerDay DateFacts.msPerDay_pos).
  assert (JsDate.msPerDay = 86400000) by reflexivity. nia.
Qed.

Lemma not_expired_today (p now : Z) :
  (JsDate.ofDATE p <? now) = false -> JsDate.Day now <= p.
Proof.
  intros H. apply Z.ltb_ge in H. unfold JsDate.ofDATE, JsDate.Day in *.
  apply Z.div_le_upper_bound; [exact DateFacts.msPerDay_pos|lia].
Qed.

(** What the shared guard lets through. *)
Lemma precheck_inr w req s creator :
  precheck w req s = inr creator ->
  exists r,
    Db.select_single (fun sub => String.eqb (Subscription.user_id sub) (creator_id req))
                     (subscriptions s) = Some r
    /\ Subscription.is_active r = true
    /\ JsDate.Day (now w) <= Subscription.paid_until r
    /\ isActive (now w) (Some r) = true
    /\ 10 <= amount req.
Proof.
  unfold precheck.
  destruct (String.eqb (creator_id req) ""); cbn [orb]; [discriminate|].
  destruct (amount req =? 0); cbn [orb]; [discriminate|].
  destruct (Z.ltb_spec (amount req) 10) as [|Hamount]; [discriminate|].
  destruct (Db.select_single _ (users s)); [|discriminate].
  destruct (Db.select_single _ (subscriptions s)) as [r|]; [|discriminate].
  destruct (Subscription.is_active r) eqn:Ha; cbn [negb orb]; [|discriminate].
  destruct (JsDate.ofDATE (Subscription.paid_until r) <? now w) eqn:Hd; [discriminate|].
  intros _. exists r. repeat split; try assumption.
  - apply not_expired_today. assumption.
  - unfold isActive. rewrite Ha, Z.geb_leb. apply Z.ltb_ge in Hd.
    apply Z.leb_le in Hd. rewrite Hd. reflexivity.
Qed.

Lemma precheck_small w req s :
  amount req < 10 ->
  precheck w req s = inl (reject 400 "Invalid donation data. Minimum amount is 10 BDT.").
Proof.
  intros H. apply Z.ltb_lt in H. unfold precheck. rewrite H, !orb_true_r. reflexivity.
Qed.

(** What the shared guard answers for a creator whose subscription does
    not pass. *)
Lemma precheck_inactive w req s :
  let sub := Db.select_single
               (fun sub => String.eqb (Subscription.user_id sub) (creator_id req))
               (subscriptions s) in
  (sub = None
   \/ exists r, sub = Some r
                /\ (Subscription.is_active r = false
                    \/ Subscription.paid_until r < JsDate.Day (now w))) ->
  exists resp,
    precheck w req s = inl resp
    /\ (status resp = 400 \/ status resp = 404)
    /\ (forall creator,
           creator_id req <> "" -> 10 <= amount req ->
           Db.select_single
             (fun u => String.eqb (User.id u) (creator_id req)
                       && String.eqb (User.role u) "creator") (users s)
           = Some creator ->
           resp = reject 400 "Creator's subscription is not active").
Proof.
  intros sub Hsub. unfold precheck. fold sub.
  destruct (String.eqb_spec (creator_id req) "") as [Hid|Hid]; cbn [orb].
  { eexists. split; [reflexivity|]. split; [left; reflexivity|].
    intros; contradiction. }
  destruct (Z.eqb_spec (amount req) 0) as [Hz|Hz]; cbn [orb].
  { eexists. split; [reflexivity|]. split; [left; reflexivity|]. intros; lia. }
  destruct (Z.ltb_spec (amount req) 10) as [Hlt|Hge].
  { eexists. split; [reflexivity|]. split; [left; reflexivity|]. intros; lia. }
  destruct (Db.select_single _ (users s)) as [creator|].
  2:{ eexists. split; [reflexivity|]. split; [right; reflexivity|].
      intros; discriminate. }
  destruct Hsub as [-> | (r & -> & Hr)].
  { eexists. split; [reflexivity|]. split; [left; reflexivity|]. reflexivity. }
  assert (E : (negb (Subscription.is_active r)
               || (JsDate.ofDATE (Subscription.paid_until r) <? now w)) = true).
  { destruct Hr as [-> | Hp]; [reflexivity|].
    rewrite (expired_before_now _ _ Hp). apply orb_true_r. }
  rewrite E. eexists. split; [reflexivity|]. split; [left; reflexivity|]. reflexivity.
Qed.

Lemma handler_rejected v w req s resp :
  precheck w req s = inl resp -> handler v w req s = (resp, s).
Proof.
  intros H. destruct v; unfold handler, gateway, simulated; rewrite H; reflexivity.
Qed.

(** A donation answered 200 passed the guard, and its row was inserted
    under the transaction id returned. *)
Lemma donation_success v w req s :
  status (fst (handler v w req s)) = 200 ->
  (exists creator, precheck w req s = inr creator)
  /\ field "txn_id" (body (fst (handler v w req s))) = Some (JStr (txnId v w req))
  /\ exists d, donations (snd (handler v w req s)) = (donations s ++ [d])%list
               /\ Donation.txn_id d = txnId v w req
               /\ Donation.payment_status d
                  = match v with Gateway => "pending" | Simulated => "completed" end.
Proof.
  destruct v; unfold handler, gateway, simulated, txnId;
    destruct (precheck w req s) as [resp|creator] eqn:Hpre.
  - intros H. exfalso. revert H. unfold precheck in Hpre.
    repeat match type of Hpre with
           | (if ?c then _ else _) = _ => destruct c
           | match ?c with _ => _ end = _ => destruct c
           end;
      first [discriminate Hpre | injection Hpre as <-; cbn; discriminate].
  - destruct (checkout w) as [thrown|r]; try (cbn; discriminate).
    destruct (checkout_status r); cbn [negb]; try (cbn; discriminate).
    destruct (Db.insert _ _ _ _) as [ds|] eqn:Hins; try (cbn; discriminate).
    intros _. split; [eauto|]. split; [reflexivity|].
    apply insert_Some in Hins. destruct Hins as [-> _].
    eexists. split; [reflexivity|]. split; reflexivity.
  - intros H. exfalso. revert H. unfold precheck in Hpre.
    repeat match type of Hpre with
           | (if ?c then _ else _) = _ => destruct c
           | match ?c with _ => _ end = _ => destruct c
           end;
      first [discriminate Hpre | injection Hpre as <-; cbn; discriminate].
  - destruct (Db.insert _ _ _ _) as [ds|]; cbn; discriminate.
Qed.

(** The simulated variant answers 200 to no request, and writes no balance. *)
Lemma simulated_never_succeeds w req s :
  status (fst (simulated w req s)) <> 200 /\ users (snd (simulated w req s)) = users s.
Proof.
  split.
  - unfold simulated.
    destruct (precheck w req s) as [resp|creator] eqn:Hpre.
    + unfold precheck in Hpre.
      repeat match type of Hpre with
             | (if ?c then _ else _) = _ => destruct c
             | match ?c with _ => _ end = _ => destruct c
             end;
        first [discriminate Hpre | injection Hpre as <-; cbn; discriminate].
    + destruct (Db.insert _ _ _ _) as [ds|]; cbn; discriminate.
  - unfold simulated. destruct (precheck w req s); [reflexivity|].
    destruct (Db.insert _ _ _ _); reflexivity.
Qed.

(** The row a request has added to the donations, by either variant. *)
Lemma donation_inserted v w req s :
  donations (snd (handler v w req s)) <> donations s ->
  (exists creator, precheck w req s = inr creator)
  /\ exists pid,
      donations (snd (handler v w req s))
      = (donations s
           ++ [new_donation w req
                 (match v with Gateway => "pending" | Simulated => "completed" end)
                 (txnId v w req) pid])%list
      /\ (v = Gateway ->
          status (fst (handler v w req s)) = 200
          /\ field "txn_id" (body (fst (handler v w req s)))
             = Some (JStr (txnId v w req)))
      /\ (v = Simulated ->
          fst (handler v w req s) = internal_error (sql_thrown w)).
Proof.
  destruct v; unfold handler, gateway, simulated, txnId;
    destruct (precheck w req s) as [resp|creator] eqn:Hpre;
    try (intros H; contradiction H; reflexivity).
  - destruct (checkout w) as [thrown|r]; try (intros H; contradiction H; reflexivity).
    destruct (checkout_status r); cbn [negb];
      try (intros H; contradiction H; reflexivity).
    destruct (Db.insert _ _ _ _) as [ds|] eqn:Hins;
      try (intros H; contradiction H; reflexivity).
    intros _. split; [eauto|].
    apply insert_Some in Hins. destruct Hins as [-> _].
    eexists. split; [reflexivity|]. split; [|discriminate].
    intros _. split; reflexivity.
  - destruct (Db.insert _ _ _ _) as [ds|] eqn:Hins;
      try (intros H; contradiction H; reflexivity).
    intros _. split; [eauto|].
    apply insert_Some in Hins. destruct Hins as [-> _].
    eexists. split; [reflexivity|]. split; [discriminate|].
    intros _. reflexivity.
Qed.

End DonationFacts.

(** C7. For every request, world and ledger, in either variant of the
    donation intake: when the creator's subscription row is absent, has
    [is_active = false], or has [paid_until] before today, the request is
    rejected (400, or 404 when no such creator is found) with the ledger
    unchanged, and for a well-formed request to an existing creator the
    answer is the 400 "Creator's subscription is not active"; an amount
    below 10 is answered 400 with the ledger unchanged; and a request
    answered 200 had a subscription row with [is_active] set and
    [paid_until] today or later, one the profile page's [isActive] holds
    of at that instant. *)
Theorem donation_requires_active_subscription (v : Variant)
        (w : ProcessDonation.World) (req : ProcessDonation.DonationRequest) (s : Store) :
  let sub := Db.select_single
               (fun r => String.eqb (Subscription.user_id r) (ProcessDonation.creator_id req))
               (subscriptions s) in
  let today := JsDate.Day (ProcessDonation.now w) in
  let result := ProcessDonation.handler v w req s in
  ((sub = None
    \/ exists r, sub = Some r
                 /\ (Subscription.is_active r = false \/ Subscription.paid_until r < today)) ->
   snd result = s
   /\ (status (fst result) = 400 \/ status (fst result) = 404)
   /\ (forall creator,
          ProcessDonation.creator_id req <> "" -> 10 <= ProcessDonation.amount req ->
          Db.select_single
            (fun u => String.eqb (User.id u) (ProcessDonation.creator_id req)
                      && String.eqb (User.role u) "creator") (users s)
          = Some creator ->
          fst result = ProcessDonation.reject 400 "Creator's subscription is not active"))
  /\ (ProcessDonation.amount req < 10 ->
      result = (ProcessDonation.reject 400
                  "Invalid donation data. Minimum amount is 10 BDT.", s))
  /\ (status (fst result) = 200 ->
      exists r, sub = Some r
                /\ Subscription.is_active r = true
                /\ today <= Subscription.paid_until r
                /\ isActive (ProcessDonation.now w) sub = true).
Proof.
  intros sub today result. subst result. split; [|split].
  - intros Hsub.
    destruct (DonationFacts.precheck_inactive w req s Hsub) as (resp & Hpre & Hst & Hmsg).
    rewrite (DonationFacts.handler_rejected v w req s resp Hpre). cbn [fst snd].
    split; [reflexivity|]. split; assumption.
  - intros Hsmall. apply DonationFacts.handler_rejected.
    apply DonationFacts.precheck_small. assumption.
  - intros Hok.
    destruct (DonationFacts.donation_success v w req s Hok) as ((creator & Hpre) & _).
    destruct (DonationFacts.precheck_inr w req s creator Hpre)
      as (r & Hr & Ha & Hd & Hp & _).
    exists r. subst sub. rewrite Hr. repeat split; assumption.
Qed.

(** C7 at a creator whose subscription is flagged active and was paid
    until the day before. *)
Lemma donation_requires_active_subscription_witness :
  let result := ProcessDonation.handler Gateway Scenario.donation_world
                  Scenario.donation_request Scenario.store_expired in
  snd result = Scenario.store_expired
  /\ (status (fst result) = 400 \/ status (fst result) = 404)
  /\ (forall creator,
         ProcessDonation.creator_id Scenario.donation_request <> "" ->
         10 <= ProcessDonation.amount Scenario.donation_request ->
         Db.select_single
           (fun u => String.eqb (User.id u)
                                (ProcessDonation.creator_id Scenario.donation_request)
                     && String.eqb (User.role u) "creator")
           (users Scenario.store_expired)
         = Some creator ->
         fst result = ProcessDonation.reject 400 "Creator's subscription is not active").
Proof.
  exact (proj1 (donation_requires_active_subscription Gateway Scenario.donation_world
                  Scenario.donation_request Scenario.store_expired)
               (or_intror
                  (ex_intro _ (Scenario.subscription (JsDate.days_from_civil 2025 8 26) true)
                            (conj eq_refl (or_intror eq_refl))))).
Defined.

(** ** Transaction identifiers *)

Lemma startsWith_append (p x : string) : Js.startsWith (p ++ x) p = true.
Proof.
  unfold Js.startsWith. induction p as [|a p IH]; cbn [String.append String.prefix].
  - destruct x; reflexivity.
  - destruct (ascii_dec a a) as [_|N]; [exact IH|contradiction].
Qed.

(** C8, the claim as stated fails: the simulated donation intake records
    its donation under a transaction id that starts with TXN_, not with
    DON_. (The request is then answered 500, the balance update having
    thrown; the row stays, as completed.) *)
Lemma simulated_donation_id_not_DON :
  let result := ProcessDonation.simulated Scenario.donation_world
                  Scenario.donation_request Scenario.store in
  map (fun d => (Donation.txn_id d, Donation.payment_status d))
      (donations (snd result))
  = [("TXN_1756312938000_4FZYO8", "completed")]
  /\ Js.startsWith "TXN_1756312938000_4FZYO8" "DON_" = false
  /\ status (fst result) = 500.
Proof. vm_compute. repeat split; reflexivity. Qed.

(** C8, amended. Every transaction id generated is tagged with a prefix.
    The donation a request adds to the ledger is recorded under
    [DON_{creator fragment}_{timestamp}] in the gateway variant, which
    answers 200 and returns the id, and under
    [TXN_{timestamp}_{random suffix}] in the simulated variant; a
    subscription answered 200 is returned under
    [SUB_{user fragment}_{timestamp}] in the gateway variant and under
    [SUB_{timestamp}_{random suffix}] in the simulated variant. *)
Theorem txn_id_prefixes :
  (forall v w req s,
      donations (snd (ProcessDonation.handler v w req s)) <> donations s ->
      exists t d,
        donations (snd (ProcessDonation.handler v w req s)) = (donations s ++ [d])%list
        /\ Donation.txn_id d = t
        /\ t = match v with
               | Gateway =>
                   "DON_" ++ Js.substring (ProcessDonation.creator_id req) 0 8
                          ++ "_" ++ Js.toString (ProcessDonation.txn_now w)
               | Simulated =>
                   "TXN_" ++ Js.toString (ProcessDonation.txn_now w) ++ "_"
                          ++ Js.toUpperCase (Js.substring (ProcessDonation.random36 w) 2 8)
               end
        /\ Js.startsWith t (match v with Gateway => "DON_" | Simulated => "TXN_" end)
           = true
        /\ (v = Gateway ->
            status (fst (ProcessDonation.handler v w req s)) = 200
            /\ field "txn_id" (body (fst (ProcessDonation.handler v w req s)))
               = Some (JStr t)))
  /\ (forall v w req s,
         status (fst (CreateSubscription.handler v w req s)) = 200 ->
         exists t user,
           CreateSubscription.caller w = Authenticated user
           /\ field "txn_id" (body (fst (CreateSubscription.handler v w req s)))
              = Some (JStr t)
           /\ t = match v with
                  | Gateway =>
                      "SUB_" ++ Js.substring (auth_id user) 0 8
                             ++ "_" ++ Js.toString (CreateSubscription.txn_now w)
                  | Simulated =>
                      "SUB_" ++ Js.toString (CreateSubscription.txn_now w) ++ "_"
                             ++ Js.toUpperCase
                                  (Js.substring (CreateSubscription.random36 w) 2 8)
                  end
           /\ Js.startsWith t "SUB_" = true).
Proof.
  split.
  - intros v w req s Hnew.
    destruct (DonationFacts.donation_inserted v w req s Hnew) as (_ & pid & Hd & Hg & _).
    exists (ProcessDonation.txnId v w req). eexists.
    split; [exact Hd|]. split; [reflexivity|].
    split; [destruct v; reflexivity|].
    split; [destruct v; apply startsWith_append|exact Hg].
  - intros v w req s Hok.
    destruct (CreateSubscription.caller w) as [thrown| |user] eqn:Hc.
    + destruct v; unfold CreateSubscription.handler, CreateSubscription.gateway,
        CreateSubscription.simulated in Hok; rewrite Hc in Hok; discriminate Hok.
    + destruct v; unfold CreateSubscription.handler, CreateSubscription.gateway,
        CreateSubscription.simulated in Hok; rewrite Hc in Hok; discriminate Hok.
    + destruct (SubscriptionFacts.subscription_success v w req s user Hc Hok)
        as (_ & pid & st & id & s1 & _ & _ & Hf).
      exists (CreateSubscription.txnId v w user), user.
      repeat split; try assumption; destruct v;
        first [reflexivity | apply startsWith_append].
Qed.

(** C8, amended, at the simulated donation of 50. *)
Lemma txn_id_prefixes_witness :
  exists t d,
    donations (snd (ProcessDonation.handler Simulated Scenario.donation_world
                      Scenario.donation_request Scenario.store))
    = (donations Scenario.store ++ [d])%list
    /\ Donation.txn_id d = t
    /\ t = "TXN_" ++ Js.toString Scenario.now ++ "_"
                  ++ Js.toUpperCase (Js.substring "0.4fzyo82mvyr" 2 8)
    /\ Js.startsWith t "TXN_" = true
    /\ (Simulated = Gateway ->
        status (fst (ProcessDonation.handler Simulated Scenario.donation_world
                       Scenario.donation_request Scenario.store)) = 200
        /\ field "txn_id"
                 (body (fst (ProcessDonation.handler Simulated Scenario.donation_world
                               Scenario.donation_request Scenario.store)))
           = Some (JStr t)).
Proof.
  refine (proj1 txn_id_prefixes Simulated Scenario.donation_world
                Scenario.donation_request Scenario.store _).
  vm_compute. discriminate.
Defined.

(** ** The specification's dated scenarios *)

(** A renewal for one month on 2025-08-27 of a subscription paid until
    2025-09-06 runs to 2025-10-06, and of one paid until 2025-08-22 to
    2025-09-27. *)
Example renewal_before_and_after_expiry :
  let today := JsDate.days_from_civil 2025 8 27 in
  JsDate.civil_from_days
    (JsDate.addMonthsDay (Z.max (JsDate.days_from_civil 2025 9 6) today) 1) = (2025, 10, 6)
  /\ JsDate.civil_from_days
       (JsDate.addMonthsDay (Z.max (JsDate.days_from_civil 2025 8 22) today) 1) = (2025, 9, 27).
Proof. vm_compute. split; reflexivity. Qed.

(** On 2025-08-27 the renewal of a subscription paid until 2025-09-30
    extends the row to 2025-10-30 while the mirror says 2025-09-27. *)
Example renewal_mirror_apart :
  let s' := snd (CreateSubscription.gateway Scenario.subscription_world
                   Scenario.renewal_request Scenario.store) in
  map (fun r => JsDate.civil_from_days (Subscription.paid_until r)) (subscriptions s')
  = [(2025, 10, 30)]
  /\ map (fun u => option_map (fun t => JsDate.civil_from_days (JsDate.isoDate t))
                              (User.subscription_expires_at u)) (users s')
     = [Some (2025, 9, 27)].
Proof. vm_compute. split; reflexivity. Qed.

(** The end-to-end scenario: neither the simulated donation of 50, whose
    balance update throws, nor the gateway donation, before or after the
    webhook, moves the creator's balance. *)
Example donation_of_50 :
  map User.current_amount
      (users (snd (ProcessDonation.simulated Scenario.donation_world
                     Scenario.donation_request Scenario.store))) = [0]
  /\ map User.current_amount (users Scenario.store_pending) = [0]
  /\ map User.current_amount
         (users (snd (Webhook.handler (Scenario.webhook_world (Scenario.now + 60000))
                        Scenario.webhook_payload Scenario.store_pending))) = [0].
Proof. vm_compute. repeat split; reflexivity. Qed.

(** * Further properties *)

(** ** What a request can do to each table *)

Section ListFacts.
Context {A : Type}.
Implicit Types (P : A -> Prop) (R : A -> A -> Prop) (p q : A -> bool) (f : A -> A)
         (t : list A).


Lemma select_single_filter p t r :
  Db.select_single p t = Some r -> filter p t = [r].
Proof.
  unfold Db.select_single. intros H.
  destruct (filter p t) as [|a [|b l]]; try discriminate.
  injection H as <-. reflexivity.
Qed.

Lemma Forall_on P q f t :
  Forall P t ->
  (forall u, In u t -> q u = true -> P u -> P (f u)) ->
  Forall P (map (Db.on q f) t).
Proof.
  intros H Hf. induction H as [|a l Ha Hl IH]; cbn [map]; constructor.
  - unfold Db.on. destruct (q a) eqn:E; [|assumption].
    apply Hf; [left; reflexivity|assumption..].
  - apply IH. intros u Hu. apply Hf. right. assumption.
Qed.

Lemma Forall2_on R q f t :
  (forall r, R r r) -> (forall r, R r (f r)) -> Forall2 R t (map (Db.on q f) t).
Proof.
  intros Hr Hf. apply Forall2_map_same. intros r. unfold Db.on.
  destruct (q r); auto.
Qed.

Lemma Forall2_same R t : (forall r, R r r) -> Forall2 R t t.
Proof. intros H. induction t; constructor; auto. Qed.

Lemma Forall2_through R t1 t2 t3 :
  (forall a b c, R a b -> R b c -> R a c) ->
  Forall2 R t1 t2 -> Forall2 R t2 t3 -> Forall2 R t1 t3.
Proof.
  intros Htr H12. revert t3. induction H12 as [|a b l1 l2 Hab H IH]; intros t3 H23.
  - inversion H23. constructor.
  - inversion H23 as [|b' c l2' l3 Hbc H' E1 E2]; subst.
    constructor; [eapply Htr; eassumption|apply IH; assumption].
Qed.

Lemma grows_same R t : (forall r, R r r) -> grows R t t.
Proof.
  intros H. exists t, []. split; [symmetry; apply app_nil_r|apply Forall2_same; assumption].
Qed.

Lemma grows_new R t new : (forall r, R r r) -> grows R t (t ++ new).
Proof. intros H. exists t, new. split; [reflexivity|apply Forall2_same; assumption]. Qed.

Lemma grows_on R q f t :
  (forall r, R r r) -> (forall r, R r (f r)) -> grows R t (map (Db.on q f) t).
Proof.
  intros Hr Hf. exists (map (Db.on q f) t), []. split; [symmetry; apply app_nil_r|].
  apply Forall2_on; assumption.
Qed.

Lemma grows_through R t1 t2 t3 :
  (forall a b c, R a b -> R b c -> R a c) ->
  grows R t1 t2 -> grows R t2 t3 -> grows R t1 t3.
Proof.
  intros Htr (k & n & -> & H12) (k' & n' & -> & H23).
  apply Forall2_app_inv_l in H23. destruct H23 as (k1 & k2 & Hk1 & Hk2 & ->).
  exists k1, (k2 ++ n')%list. split; [symmetry; apply app_assoc|].
  eapply Forall2_through; eassumption.
Qed.

End ListFacts.

Module Shapes.

Ltac pick :=
  first [ reflexivity
        | assumption
        | left; reflexivity
        | right; reflexivity
        | right; eexists; reflexivity
        | right; do 2 eexists; reflexivity
        | right; split; [assumption | reflexivity] ].
Ltac shape := cbn [snd users donations subscriptions withdrawals
                   with_users with_donations with_subscriptions with_withdrawals];
              repeat split; pick.

(** A donation request leaves the users, the subscriptions and the
    withdrawals, and adds at most one donation. *)
Lemma donation_shape v w req s :
  let s' := snd (ProcessDonation.handler v w req s) in
  users s' = users s
  /\ subscriptions s' = subscriptions s
  /\ withdrawals s' = withdrawals s
  /\ (donations s' = donations s \/ exists d, donations s' = (donations s ++ [d])%list).
Proof.
  destruct v; unfold ProcessDonation.handler, ProcessDonation.gateway,
    ProcessDonation.simulated;
    destruct (ProcessDonation.precheck w req s) as [resp|creator] eqn:Hpre;
    try solve [shape].
  - destruct (ProcessDonation.checkout w) as [thrown|r]; try solve [shape].
    destruct (negb (checkout_status r)); try solve [shape].
    destruct (Db.insert _ _ _ _) as [ds|] eqn:Hins; try solve [shape].
    apply insert_Some in Hins. destruct Hins as [-> _]. shape.
  - destruct (Db.insert _ _ _ _) as [ds|] eqn:Hins; try solve [shape].
    apply insert_Some in Hins. destruct Hins as [-> _]. shape.
Qed.

(** The upsert of a subscription rewrites the caller's one row, keeping
    whose it is, or adds a row of the caller's when none is found. *)
Lemma upsert_shape w user d active txn pid st s id s1 :
  CreateSubscription.upsert w user d active txn pid st s = Some (id, s1) ->
  (exists existing f,
      Db.select_single (fun sub => String.eqb (Subscription.user_id sub) (auth_id user))
                       (subscriptions s) = Some existing
      /\ (forall r, Subscription.id (f r) = Subscription.id r
                    /\ Subscription.user_id (f r) = Subscription.user_id r)
      /\ subscriptions s1
         = map (Db.on (fun r => String.eqb (Subscription.id r) (Subscription.id existing)) f)
               (subscriptions s))
  \/ (exists r,
         Db.select_single (fun sub => String.eqb (Subscription.user_id sub) (auth_id user))
                          (subscriptions s) = None
         /\ Subscription.user_id r = auth_id user
         /\ subscriptions s1 = (subscriptions s ++ [r])%list).
Proof.
  unfold CreateSubscription.upsert. intros H.
  destruct (Db.select_single _ (subscriptions s)) as [existing|] eqn:He.
  - left. unfold Db.update in H.
    destruct (CreateSubscription.subscription_accepted w); [|discriminate].
    injection H as _ <-. do 2 eexists. split; [reflexivity|]. split; [|reflexivity].
    intros r. split; reflexivity.
  - right. destruct (Db.insert _ _ _ _) as [ss|] eqn:Hins; [|discriminate].
    injection H as _ <-. apply insert_Some in Hins. destruct Hins as [-> _].
    eexists. split; [reflexivity|]. split; [|reflexivity]. reflexivity.
Qed.

Lemma update_mirror_frame w user d s :
  donations (CreateSubscription.update_mirror w user d s) = donations s
  /\ withdrawals (CreateSubscription.update_mirror w user d s) = withdrawals s
  /\ (users (CreateSubscription.update_mirror w user d s) = users s
      \/ exists expires now,
          users (CreateSubscription.update_mirror w user d s)
          = map (Db.on (fun u => String.eqb (User.id u) (auth_id user))
                       (CreateSubscription.mirror expires now)) (users s)).
Proof.
  unfold CreateSubscription.update_mirror, Db.update.
  destruct (CreateSubscription.mirror_accepted w); shape.
Qed.

(** A subscription request either leaves the ledger or went through the
    upsert and the mirror update. *)
Lemma subscription_shape v w req s :
  snd (CreateSubscription.handler v w req s) = s
  \/ exists user active txn pid st id s1,
      CreateSubscription.upsert w user (CreateSubscription.months req)
                                active txn pid st s = Some (id, s1)
      /\ snd (CreateSubscription.handler v w req s)
         = CreateSubscription.update_mirror w user (CreateSubscription.months req) s1.
Proof.
  destruct v; unfold CreateSubscription.handler, CreateSubscription.gateway,
    CreateSubscription.simulated;
    destruct (CreateSubscription.caller w) as [thrown| |user]; cbn [snd]; auto;
    destruct (negb (CreateSubscription.is_creator user s)); cbn [snd]; auto.
  - destruct (CreateSubscription.checkout w) as [thrown|r]; cbn [snd]; auto.
    destruct (negb (checkout_status r)); cbn [snd]; auto.
    destruct (CreateSubscription.upsert _ _ _ _ _ _ _ _) as [[id s1]|] eqn:Hu;
      cbn [snd]; auto.
    right. do 7 eexists. split; [exact Hu|reflexivity].
  - destruct (CreateSubscription.upsert _ _ _ _ _ _ _ _) as [[id s1]|] eqn:Hu;
      cbn [snd]; auto.
    right. do 7 eexists. split; [exact Hu|reflexivity].
Qed.

(** A withdrawal request leaves the ledger, or adds its row, for no more
    than the balance of the one profile it read, and nothing else. *)
Lemma withdrawal_shape w req s :
  let s' := snd (RequestWithdrawal.handler w req s) in
  s' = s
  \/ (exists user profile,
         Db.select_single (fun u => String.eqb (User.id u) (auth_id user)) (users s)
         = Some profile
         /\ 0 < RequestWithdrawal.amount req <= User.current_amount profile
         /\ s' = mkStore (users s) (donations s) (subscriptions s)
                         (withdrawals s ++ [RequestWithdrawal.new_withdrawal w user req])).
Proof.
  unfold RequestWithdrawal.handler.
  destruct (RequestWithdrawal.caller w) as [thrown| |user]; cbn [snd]; auto.
  destruct (Z.eqb_spec (RequestWithdrawal.amount req) 0) as [|Hz]; cbn [orb snd]; auto.
  destruct (Z.leb_spec (RequestWithdrawal.amount req) 0) as [|Hpos]; cbn [snd]; auto.
  destruct (Db.select_single _ (users s)) as [profile|] eqn:Hp; cbn [snd]; auto.
  destruct (negb (String.eqb (User.role profile) "creator")); cbn [snd]; auto.
  destruct (Z.ltb_spec (User.current_amount profile) (RequestWithdrawal.amount req))
    as [|Hle]; cbn [snd]; auto.
  destruct (Db.insert _ _ _ _) as [ws|] eqn:Hins; cbn [snd]; auto.
  right. exists user, profile. split; [exact Hp|]. split; [lia|].
  apply insert_Some in Hins. destruct Hins as [-> _]. reflexivity.
Qed.

(** A delivery leaves each of the two tables it writes, or sets one
    column, and the stamp, of the rows that carry the transaction id. *)
Lemma webhook_shape w p s :
  let s' := snd (Webhook.handler w p s) in
  users s' = users s
  /\ withdrawals s' = withdrawals s
  /\ (donations s' = donations s
      \/ exists st now,
          donations s'
          = map (Db.on (fun d => String.eqb (Donation.txn_id d) (Webhook.transaction_id p))
                       (Webhook.set_payment_status st now)) (donations s))
  /\ (subscriptions s' = subscriptions s
      \/ exists b now,
          subscriptions s'
          = map (Db.on (fun r => String.eqb (Subscription.last_payment_txn_id r)
                                            (Webhook.transaction_id p))
                       (Webhook.set_is_active b now)) (subscriptions s)).
Proof.
  unfold Webhook.handler.
  destruct (Webhook.verification w) as [thrown|v]; try solve [shape].
  unfold Webhook.update_donations, Webhook.update_subscriptions, Db.update.
  destruct (Webhook.verified v && String.eqb (Webhook.payment_status v) "completed");
    destruct (Js.startsWith (Webhook.transaction_id p) "DON_");
    destruct (Js.startsWith (Webhook.transaction_id p) "SUB_");
    destruct (Webhook.donations_accepted w);
    destruct (Webhook.subscriptions_accepted w); shape.
Qed.

Lemma admin_shape w withdrawalId action s :
  let s' := snd (Admin.handleWithdrawal w withdrawalId action s) in
  users s' = users s
  /\ donations s' = donations s
  /\ subscriptions s' = subscriptions s
  /\ (withdrawals s' = withdrawals s
      \/ withdrawals s'
         = map (Db.on (fun r => String.eqb (Withdrawal.id r) withdrawalId)
                      (Admin.process action (Admin.now w))) (withdrawals s)).
Proof.
  unfold Admin.handleWithdrawal, Db.update.
  destruct (Admin.accepted w); shape.
Qed.

End Shapes.

(** ** What every run of requests keeps *)

Module RunFacts.

Lemma step_nonneg s s' : step s s' -> balances_nonneg s -> balances_nonneg s'.
Proof.
  unfold balances_nonneg. intros Hstep H. destruct Hstep.
  - destruct (Shapes.donation_shape v w req s) as (-> & _). assumption.
  - destruct (Shapes.subscription_shape v w req s)
      as [-> | (user & active & txn & pid & st & id & s1 & Hu & ->)]; [assumption|].
    destruct (SubscriptionFacts.upsert_frame _ _ _ _ _ _ _ _ _ _ Hu) as (Hus & _).
    destruct (Shapes.update_mirror_frame w user (CreateSubscription.months req) s1)
      as (_ & _ & [-> | (expires & now & ->)]); rewrite Hus; [assumption|].
    apply Forall_on; [assumption|]. intros u _ _ Hu0. exact Hu0.
  - destruct (Shapes.withdrawal_shape w req s)
      as [-> | (user & profile & _ & _ & ->)]; assumption.
  - destruct (Shapes.webhook_shape w p s) as (-> & _). assumption.
  - destruct (Shapes.admin_shape w withdrawalId action s) as (-> & _). assumption.
Qed.

(** The one write of the [users] table, the mirror of a subscription,
    leaves the balances. *)
Lemma balances_on (q : User.t -> bool) (f : User.t -> User.t) (us : list User.t) :
  (forall u, User.id (f u) = User.id u /\ User.current_amount (f u) = User.current_amount u) ->
  map (fun u => (User.id u, User.current_amount u)) (map (Db.on q f) us)
  = map (fun u => (User.id u, User.current_amount u)) us.
Proof.
  intros Hf. rewrite map_map. apply map_ext. intros u. unfold Db.on.
  destruct (q u); [|reflexivity]. destruct (Hf u) as [-> ->]. reflexivity.
Qed.

Lemma step_balances s s' : step s s' -> balances s' = balances s.
Proof.
  unfold balances. intros Hstep. destruct Hstep.
  - destruct (Shapes.donation_shape v w req s) as (-> & _). reflexivity.
  - destruct (Shapes.subscription_shape v w req s)
      as [-> | (user & active & txn & pid & st & id & s1 & Hu & ->)]; [reflexivity|].
    destruct (SubscriptionFacts.upsert_frame _ _ _ _ _ _ _ _ _ _ Hu) as (Hus & _).
    destruct (Shapes.update_mirror_frame w user (CreateSubscription.months req) s1)
      as (_ & _ & [-> | (expires & now & ->)]); rewrite Hus; [reflexivity|].
    apply balances_on. intros u. split; reflexivity.
  - destruct (Shapes.withdrawal_shape w req s)
      as [-> | (user & profile & _ & _ & ->)]; reflexivity.
  - destruct (Shapes.webhook_shape w p s) as (-> & _). reflexivity.
  - destruct (Shapes.admin_shape w withdrawalId action s) as (-> & _). reflexivity.
Qed.

Lemma length_filter_on {A} (p q : A -> bool) (f : A -> A) (t : list A) :
  (forall r, p (f r) = p r) ->
  List.length (filter p (map (Db.on q f) t)) = List.length (filter p t).
Proof. intros H. rewrite filter_on by assumption. apply length_map. Qed.

Lemma none_of_at_most_one {A} (p : A -> bool) (t : list A) :
  Db.select_single p t = None -> (List.length (filter p t) <= 1)%nat -> filter p t = [].
Proof.
  unfold Db.select_single. destruct (filter p t) as [|a [|b l]]; cbn; intros H L.
  - reflexivity.
  - discriminate.
  - lia.
Qed.

Lemma upsert_one_each w user d active txn pid st s id s1 :
  CreateSubscription.upsert w user d active txn pid st s = Some (id, s1) ->
  one_subscription_each s -> one_subscription_each s1.
Proof.
  intros Hu H uid. specialize (H uid) as Huid.
  destruct (Shapes.upsert_shape _ _ _ _ _ _ _ _ _ _ Hu)
    as [(existing & f & _ & Hf & ->) | (r & Hnone & Hr & ->)].
  - rewrite length_filter_on; [assumption|].
    intros x. destruct (Hf x) as [_ ->]. reflexivity.
  - rewrite filter_app, length_app. cbn [filter]. rewrite Hr.
    destruct (String.eqb_spec (auth_id user) uid) as [<-|Hne]; cbn [List.length].
    + rewrite (none_of_at_most_one _ _ Hnone (H (auth_id user))). cbn. lia.
    + lia.
Qed.

Lemma step_one_each s s' : step s s' -> one_subscription_each s -> one_subscription_each s'.
Proof.
  intros Hstep H. destruct Hstep.
  - destruct (Shapes.donation_shape v w req s) as (_ & Hs & _).
    intros uid. rewrite Hs. apply H.
  - destruct (Shapes.subscription_shape v w req s)
      as [-> | (user & active & txn & pid & st & id & s1 & Hu & ->)]; [assumption|].
    intros uid. rewrite SubscriptionFacts.update_mirror_subscriptions.
    apply (upsert_one_each _ _ _ _ _ _ _ _ _ _ Hu H).
  - destruct (Shapes.withdrawal_shape w req s)
      as [-> | (user & profile & _ & _ & ->)]; assumption.
  - destruct (Shapes.webhook_shape w p s) as (_ & _ & _ & [Hs | (b & now & Hs)]);
      intros uid; rewrite Hs; [apply H|].
    rewrite length_filter_on; [apply H|reflexivity].
  - destruct (Shapes.admin_shape w withdrawalId action s) as (_ & _ & Hs & _).
    intros uid. rewrite Hs. apply H.
Qed.

(** The relations a row keeps are reflexive and transitive. *)
Lemma same_user_refl u : same_user u u.
Proof. split; reflexivity. Qed.
Lemma same_user_trans a b c : same_user a b -> same_user b c -> same_user a c.
Proof. unfold same_user. intuition congruence. Qed.
Lemma same_donation_refl d : same_donation d d.
Proof. repeat split. Qed.
Lemma same_donation_trans a b c : same_donation a b -> same_donation b c -> same_donation a c.
Proof. unfold same_donation. intuition congruence. Qed.
Lemma same_owner_refl r : same_owner r r.
Proof. split; reflexivity. Qed.
Lemma same_owner_trans a b c : same_owner a b -> same_owner b c -> same_owner a c.
Proof. unfold same_owner. intuition congruence. Qed.
Lemma same_but_status_refl r : same_but_status r r.
Proof. repeat split. Qed.
Lemma same_but_status_trans a b c :
  same_but_status a b -> same_but_status b c -> same_but_status a c.
Proof. unfold same_but_status. intuition congruence. Qed.

Lemma kept_refl s : kept s s.
Proof.
  repeat split.
  - apply Forall2_same, same_user_refl.
  - apply grows_same, same_donation_refl.
  - apply grows_same, same_owner_refl.
  - apply grows_same, same_but_status_refl.
Qed.

Lemma kept_trans s1 s2 s3 : kept s1 s2 -> kept s2 s3 -> kept s1 s3.
Proof.
  intros (U1 & D1 & S1 & W1) (U2 & D2 & S2 & W2). repeat split.
  - eapply Forall2_through; [exact same_user_trans|eassumption..].
  - eapply grows_through; [exact same_donation_trans|eassumption..].
  - eapply grows_through; [exact same_owner_trans|eassumption..].
  - eapply grows_through; [exact same_but_status_trans|eassumption..].
Qed.

Lemma step_kept s s' : step s s' -> kept s s'.
Proof.
  intros Hstep. destruct Hstep.
  - destruct (Shapes.donation_shape v w req s) as (Hu & Hs & Hw & Hd).
    unfold kept. rewrite Hu, Hs, Hw. repeat split.
    + apply Forall2_same, same_user_refl.
    + destruct Hd as [-> | (d & ->)];
        [apply grows_same|apply grows_new]; exact same_donation_refl.
    + apply grows_same, same_owner_refl.
    + apply grows_same, same_but_status_refl.
  - destruct (Shapes.subscription_shape v w req s)
      as [-> | (user & active & txn & pid & st & id & s1 & Hu & ->)];
      [apply kept_refl|].
    destruct (SubscriptionFacts.upsert_frame _ _ _ _ _ _ _ _ _ _ Hu) as (Hus & Hds & Hws).
    destruct (Shapes.update_mirror_frame w user (CreateSubscription.months req) s1)
      as (Hd & Hw & Hm).
    unfold kept. rewrite Hd, Hw, Hds, Hws, SubscriptionFacts.update_mirror_subscriptions.
    repeat split.
    + destruct Hm as [-> | (expires & now & ->)]; rewrite Hus;
        [apply Forall2_same, same_user_refl
        |apply Forall2_on; [exact same_user_refl|intros r; split; reflexivity]].
    + apply grows_same, same_donation_refl.
    + destruct (Shapes.upsert_shape _ _ _ _ _ _ _ _ _ _ Hu)
        as [(existing & f & _ & Hf & ->) | (r & _ & _ & ->)].
      * apply grows_on; [exact same_owner_refl|exact Hf].
      * apply grows_new, same_owner_refl.
    + apply grows_same, same_but_status_refl.
  - destruct (Shapes.withdrawal_shape w req s)
      as [-> | (user & profile & _ & _ & ->)];
      [apply kept_refl|]; unfold kept; cbn [users donations subscriptions withdrawals];
      repeat split;
      first [ apply Forall2_same, same_user_refl
            | apply grows_same, same_donation_refl
            | apply grows_same, same_owner_refl
            | apply grows_new, same_but_status_refl ].
  - destruct (Shapes.webhook_shape w p s) as (Hu & Hw & Hd & Hs).
    unfold kept. rewrite Hu, Hw. repeat split.
    + apply Forall2_same, same_user_refl.
    + destruct Hd as [-> | (st & now & ->)];
        [apply grows_same, same_donation_refl
        |apply grows_on; [exact same_donation_refl|intros r; repeat split]].
    + destruct Hs as [-> | (b & now & ->)];
        [apply grows_same, same_owner_refl
        |apply grows_on; [exact same_owner_refl|intros r; split; reflexivity]].
    + apply grows_same, same_but_status_refl.
  - destruct (Shapes.admin_shape w withdrawalId action s) as (Hu & Hd & Hs & Hw).
    unfold kept. rewrite Hu, Hd, Hs. repeat split.
    + apply Forall2_same, same_user_refl.
    + apply grows_same, same_donation_refl.
    + apply grows_same, same_owner_refl.
    + destruct Hw as [-> | ->];
        [apply grows_same, same_but_status_refl
        |apply grows_on; [exact same_but_status_refl|intros r; repeat split]].
Qed.

End RunFacts.

(** X1. Along any sequence of requests, served by any of the handlers in
    any world, no balance becomes negative if none was: no request lowers
    a [current_amount]. *)
Theorem balances_stay_nonneg (s s' : Store) :
  run s s' -> balances_nonneg s -> balances_nonneg s'.
Proof.
  intros Hrun. induction Hrun as [s|s s1 s2 Hstep _ IH]; intros H; [assumption|].
  apply IH. exact (RunFacts.step_nonneg s s1 Hstep H).
Qed.

(** X1 at a request to withdraw 50 out of 50 followed by a rejection by
    the administrator. *)
Lemma balances_stay_nonneg_witness :
  balances_nonneg
    (snd (Admin.handleWithdrawal (Cases.admin_world Scenario.now)
            "w0000000-0000-4000-8000-000000000001" Admin.reject
            (snd (RequestWithdrawal.handler Scenario.withdrawal_world
                    (Scenario.withdrawal_request 50) (Scenario.store_balance 50))))).
Proof.
  apply (balances_stay_nonneg (Scenario.store_balance 50)).
  - eapply run_more; [apply step_withdrawal|].
    eapply run_more; [apply step_admin|]. apply run_done.
  - repeat constructor. discriminate.
Defined.

(** X2. Along any sequence of requests, a ledger in which every user has
    at most one subscription row stays so: the subscription intake
    rewrites the row it finds and inserts one only when it finds none. *)
Theorem one_subscription_each_kept (s s' : Store) :
  run s s' -> one_subscription_each s -> one_subscription_each s'.
Proof.
  intros Hrun. induction Hrun as [s|s s1 s2 Hstep _ IH]; intros H; [assumption|].
  apply IH. exact (RunFacts.step_one_each s s1 Hstep H).
Qed.

(** X2 at a first subscription followed by a renewal. *)
Lemma one_subscription_each_kept_witness :
  one_subscription_each
    (snd (CreateSubscription.handler Simulated Scenario.subscription_world
            Scenario.renewal_request Cases.store_subscribed)).
Proof.
  apply (one_subscription_each_kept Cases.store_new_creator).
  - eapply run_more; [apply (step_subscription Gateway)|].
    eapply run_more; [apply (step_subscription Simulated)|]. apply run_done.
  - intros uid. cbn. lia.
Defined.

(** X3. No sequence of requests deletes a row or gives it away: the users
    stay the same rows with the same id and role, every donation stays
    with its id, creator, amount, donor, message and transaction id,
    every subscription with its id and owner, every withdrawal with all
    but its status and [processed_at]; tables only grow at the end. *)
Theorem rows_are_kept (s s' : Store) : run s s' -> kept s s'.
Proof.
  intros Hrun. induction Hrun as [s|s s1 s2 Hstep _ IH]; [apply RunFacts.kept_refl|].
  eapply RunFacts.kept_trans; [apply RunFacts.step_kept; exact Hstep|exact IH].
Qed.

(** X3 at a gateway donation followed by its webhook. *)
Lemma rows_are_kept_witness :
  kept Scenario.store
       (snd (Webhook.handler (Scenario.webhook_world (Scenario.now + 60000))
               Scenario.webhook_payload Scenario.store_pending)).
Proof.
  apply rows_are_kept.
  eapply run_more; [apply (step_donation Gateway)|].
  eapply run_more; [apply step_webhook|]. apply run_done.
Defined.

(** ** Donations *)

Module DonationMore.
Import ProcessDonation.

(** The row a donation answered 200 has inserted. *)
Lemma inserted v w req s :
  status (fst (handler v w req s)) = 200 ->
  exists pid,
    donations (snd (handler v w req s))
    = (donations s
         ++ [new_donation w req
               (match v with Gateway => "pending" | Simulated => "completed" end)
               (txnId v w req) pid])%list.
Proof.
  intros Hok.
  destruct (DonationFacts.donation_success v w req s Hok) as ((creator & Hpre) & _).
  revert Hok. destruct v; unfold handler, gateway, simulated, txnId; rewrite Hpre.
  - destruct (checkout w) as [thrown|r]; try (cbn; discriminate).
    destruct (checkout_status r); cbn [negb]; try (cbn; discriminate).
    destruct (Db.insert _ _ _ _) as [ds|] eqn:Hins; try (cbn; discriminate).
    intros _. apply insert_Some in Hins. destruct Hins as [-> _].
    eexists. reflexivity.
  - destruct (Db.insert _ _ _ _) as [ds|]; cbn; discriminate.
Qed.

(** The shared guard never rejects with a 200. *)
Lemma precheck_inl_status w req s resp :
  precheck w req s = inl resp -> status resp <> 200.
Proof.
  unfold precheck. intros Hpre.
  repeat match type of Hpre with
         | (if ?c then _ else _) = _ => destruct c
         | match ?c with _ => _ end = _ => destruct c
         end;
    first [discriminate Hpre | injection Hpre as <-; cbn; discriminate].
Qed.

Lemma precheck_passes w req s creator sub :
  creator_id req <> "" ->
  10 <= amount req ->
  Db.select_single (fun u => String.eqb (User.id u) (creator_id req)
                             && String.eqb (User.role u) "creator") (users s)
  = Some creator ->
  Db.select_single (fun r => String.eqb (Subscription.user_id r) (creator_id req))
                   (subscriptions s) = Some sub ->
  Subscription.is_active sub = true ->
  now w <= JsDate.ofDATE (Subscription.paid_until sub) ->
  precheck w req s = inr creator.
Proof.
  intros Hid Hten Hc Hs Ha Hd. unfold precheck.
  replace (String.eqb (creator_id req) "") with false
    by (symmetry; apply String.eqb_neq; assumption).
  replace (amount req =? 0) with false by (symmetry; apply Z.eqb_neq; lia).
  replace (amount req <? 10) with false by (symmetry; apply Z.ltb_ge; lia).
  cbn [orb]. rewrite Hc, Hs, Ha.
  replace (JsDate.ofDATE (Subscription.paid_until sub) <? now w) with false
    by (symmetry; apply Z.ltb_ge; lia).
  reflexivity.
Qed.

End DonationMore.

(** X4. The gateway donation intake accepts a well-formed request of 10 or
    more to a creator whose subscription is flagged active and whose
    paid-through day has not begun to pass, once the gateway has opened
    the checkout and the store takes the row: it answers 200 and the
    ledger is the one before with one [pending] donation added, carrying
    the request's creator, amount and message. *)
Theorem gateway_donation_accepted (w : ProcessDonation.World)
        (req : ProcessDonation.DonationRequest) (s : Store)
        (creator : User.t) (sub : Subscription.t) (r : CheckoutResult) :
  ProcessDonation.creator_id req <> "" ->
  10 <= ProcessDonation.amount req ->
  Db.select_single (fun u => String.eqb (User.id u) (ProcessDonation.creator_id req)
                             && String.eqb (User.role u) "creator") (users s)
  = Some creator ->
  Db.select_single (fun x => String.eqb (Subscription.user_id x)
                                        (ProcessDonation.creator_id req))
                   (subscriptions s) = Some sub ->
  Subscription.is_active sub = true ->
  ProcessDonation.now w <= JsDate.ofDATE (Subscription.paid_until sub) ->
  ProcessDonation.checkout w = inr r ->
  checkout_status r = true ->
  ProcessDonation.insert_accepted w = true ->
  (forall d, In d (donations s) -> Donation.id d <> ProcessDonation.donation_id w) ->
  status (fst (ProcessDonation.gateway w req s)) = 200
  /\ exists d,
      snd (ProcessDonation.gateway w req s) = with_donations s (donations s ++ [d])
      /\ Donation.payment_status d = "pending"
      /\ Donation.creator_id d = ProcessDonation.creator_id req
      /\ Donation.amount d = ProcessDonation.amount req
      /\ Donation.message d = ProcessDonation.message req
      /\ Donation.txn_id d
         = TxnId.donation_gateway (ProcessDonation.creator_id req)
                                  (ProcessDonation.txn_now w).
Proof.
  intros Hid Hten Hc Hs Ha Hd Hco Hst Hi Hfresh.
  unfold ProcessDonation.gateway.
  rewrite (DonationMore.precheck_passes w req s creator sub Hid Hten Hc Hs Ha Hd).
  rewrite Hco, Hst. cbn [negb]. unfold Db.insert. rewrite Hi.
  change (Donation.id (ProcessDonation.new_donation w req ?a ?b ?c))
    with (ProcessDonation.donation_id w).
  rewrite existsb_fresh by assumption. cbn [andb negb fst snd status].
  split; [reflexivity|]. eexists. split; [reflexivity|]. repeat split.
Qed.

(** X4 at a donation of exactly 10. *)
Lemma gateway_donation_accepted_witness :
  status (fst (ProcessDonation.gateway Scenario.donation_world Cases.donation_of_10
                 Scenario.store)) = 200
  /\ exists d,
      snd (ProcessDonation.gateway Scenario.donation_world Cases.donation_of_10
             Scenario.store)
      = with_donations Scenario.store (donations Scenario.store ++ [d])
      /\ Donation.payment_status d = "pending"
      /\ Donation.creator_id d = Scenario.creator_id
      /\ Donation.amount d = 10
      /\ Donation.message d = Some "Keep going"
      /\ Donation.txn_id d = TxnId.donation_gateway Scenario.creator_id Scenario.now.
Proof.
  refine (gateway_donation_accepted Scenario.donation_world Cases.donation_of_10
            Scenario.store (Scenario.creator 0)
            (Scenario.subscription (JsDate.days_from_civil 2025 9 30) true)
            Scenario.checkout_ok _ _ eq_refl eq_refl eq_refl _ eq_refl eq_refl eq_refl _).
  - discriminate.
  - discriminate.
  - discriminate.
  - intros d [].
Defined.

(** X5. When the gateway does not open the checkout, because the call
    throws or because it answers with a false status, neither intake
    writes anything: the ledger is the one before and the answer is not
    200. No donation or subscription row exists without a checkout. *)
Theorem no_checkout_no_row :
  (forall w req s,
      (forall r, ProcessDonation.checkout w = inr r -> checkout_status r = false) ->
      snd (ProcessDonation.gateway w req s) = s
      /\ status (fst (ProcessDonation.gateway w req s)) <> 200)
  /\ (forall w req s,
         (forall r, CreateSubscription.checkout w = inr r -> checkout_status r = false) ->
         snd (CreateSubscription.gateway w req s) = s
         /\ status (fst (CreateSubscription.gateway w req s)) <> 200).
Proof.
  split; intros w req s Hno.
  - unfold ProcessDonation.gateway.
    destruct (ProcessDonation.precheck w req s) as [resp|creator] eqn:Hpre.
    + split; [reflexivity|]. apply (DonationMore.precheck_inl_status w req s resp Hpre).
    + destruct (ProcessDonation.checkout w) as [thrown|r]; [split; [reflexivity|cbn; discriminate]|].
      rewrite (Hno r eq_refl). cbn. split; [reflexivity|discriminate].
  - unfold CreateSubscription.gateway.
    destruct (CreateSubscription.caller w) as [thrown| |user];
      try (split; [reflexivity|cbn; discriminate]).
    destruct (negb (CreateSubscription.is_creator user s));
      try (split; [reflexivity|cbn; discriminate]).
    destruct (CreateSubscription.checkout w) as [thrown|r];
      [split; [reflexivity|cbn; discriminate]|].
    rewrite (Hno r eq_refl). cbn. split; [reflexivity|discriminate].
Qed.

(** X6. A donation marked anonymous is stored without the donor's name and
    address, whatever the request carried in them, by either variant; its
    message is stored as sent. A donation not so marked is stored with the
    name and address of the request. *)
Theorem anonymous_donation_stored_nameless (v : Variant) (w : ProcessDonation.World)
        (req : ProcessDonation.DonationRequest) (s : Store) :
  status (fst (ProcessDonation.handler v w req s)) = 200 ->
  exists d,
    donations (snd (ProcessDonation.handler v w req s)) = (donations s ++ [d])%list
    /\ Donation.is_anonymous d = ProcessDonation.is_anonymous req
    /\ Donation.message d = ProcessDonation.message req
    /\ (ProcessDonation.is_anonymous req = true ->
        Donation.donor_name d = None /\ Donation.donor_email d = None)
    /\ (ProcessDonation.is_anonymous req = false ->
        Donation.donor_name d = ProcessDonation.donor_name req
        /\ Donation.donor_email d = ProcessDonation.donor_email req).
Proof.
  intros Hok. destruct (DonationMore.inserted v w req s Hok) as (pid & E).
  eexists. split; [exact E|]. cbn.
  split; [reflexivity|]. split; [reflexivity|].
  split; intros ->; split; reflexivity.
Qed.

(** X6 at an anonymous donation that carried a name and an address. *)
Lemma anonymous_donation_stored_nameless_witness :
  exists d,
    donations (snd (ProcessDonation.handler Gateway Scenario.donation_world
                      Cases.anonymous_donation Scenario.store))
    = (donations Scenario.store ++ [d])%list
    /\ Donation.is_anonymous d = true
    /\ Donation.message d = Some "Keep going"
    /\ (true = true -> Donation.donor_name d = None /\ Donation.donor_email d = None)
    /\ (true = false ->
        Donation.donor_name d = Some "Rahim"
        /\ Donation.donor_email d = Some "rahim@example.com").
Proof.
  exact (anonymous_donation_stored_nameless Gateway Scenario.donation_world
           Cases.anonymous_donation Scenario.store eq_refl).
Defined.

(** X7. The simulated donation intake records a donation it cannot
    credit. A well-formed request of 10 or more to a creator whose
    subscription passes the guard, once the store takes the row, leaves
    the ledger with that one donation added, as [completed] and under the
    TXN_ id, and every user row as it was; the answer is the 500 of the
    [catch], carrying the message of what the balance update threw, and
    not the 200 the donation page waits for. *)
Theorem simulated_donation_recorded_not_credited
        (w : ProcessDonation.World) (req : ProcessDonation.DonationRequest)
        (s : Store) (creator : User.t) (sub : Subscription.t) :
  ProcessDonation.creator_id req <> "" ->
  10 <= ProcessDonation.amount req ->
  Db.select_single (fun u => String.eqb (User.id u) (ProcessDonation.creator_id req)
                             && String.eqb (User.role u) "creator") (users s)
  = Some creator ->
  Db.select_single (fun x => String.eqb (Subscription.user_id x)
                                        (ProcessDonation.creator_id req))
                   (subscriptions s) = Some sub ->
  Subscription.is_active sub = true ->
  ProcessDonation.now w <= JsDate.ofDATE (Subscription.paid_until sub) ->
  ProcessDonation.insert_accepted w = true ->
  (forall d, In d (donations s) -> Donation.id d <> ProcessDonation.donation_id w) ->
  fst (ProcessDonation.simulated w req s) = internal_error (ProcessDonation.sql_thrown w)
  /\ status (fst (ProcessDonation.simulated w req s)) = 500
  /\ exists d,
      snd (ProcessDonation.simulated w req s) = with_donations s (donations s ++ [d])
      /\ Donation.payment_status d = "completed"
      /\ Donation.creator_id d = ProcessDonation.creator_id req
      /\ Donation.amount d = ProcessDonation.amount req
      /\ Donation.txn_id d
         = TxnId.donation_simulated (ProcessDonation.txn_now w)
                                    (ProcessDonation.random36 w).
Proof.
  intros Hid Hten Hc Hs Ha Hd Hi Hfresh.
  unfold ProcessDonation.simulated.
  rewrite (DonationMore.precheck_passes w req s creator sub Hid Hten Hc Hs Ha Hd).
  unfold Db.insert. rewrite Hi.
  change (Donation.id (ProcessDonation.new_donation w req ?a ?b ?c))
    with (ProcessDonation.donation_id w).
  rewrite existsb_fresh by assumption. cbn [andb negb fst snd].
  split; [reflexivity|]. split; [reflexivity|].
  eexists. split; [reflexivity|]. repeat split.
Qed.

(** X7 at a donation of 50 to a creator holding nothing. *)
Lemma simulated_donation_recorded_not_credited_witness :
  fst (ProcessDonation.simulated Scenario.donation_world Scenario.donation_request
         Scenario.store)
  = internal_error Scenario.sql_is_not_a_function
  /\ status (fst (ProcessDonation.simulated Scenario.donation_world
                    Scenario.donation_request Scenario.store)) = 500
  /\ exists d,
      snd (ProcessDonation.simulated Scenario.donation_world Scenario.donation_request
             Scenario.store)
      = with_donations Scenario.store (donations Scenario.store ++ [d])
      /\ Donation.payment_status d = "completed"
      /\ Donation.creator_id d = Scenario.creator_id
      /\ Donation.amount d = 50
      /\ Donation.txn_id d = TxnId.donation_simulated Scenario.now "0.4fzyo82mvyr".
Proof.
  refine (simulated_donation_recorded_not_credited Scenario.donation_world
            Scenario.donation_request Scenario.store (Scenario.creator 0)
            (Scenario.subscription (JsDate.days_from_civil 2025 9 30) true)
            _ _ eq_refl eq_refl eq_refl _ eq_refl _).
  - discriminate.
  - discriminate.
  - discriminate.
  - intros d [].
Defined.

(** ** Subscriptions *)

Module SubscriptionMore.
Import CreateSubscription.

(** What the upsert leaves under the caller's id. *)
Lemma upsert_row w user d active txn pid st s id s1 :
  upsert w user d active txn pid st s = Some (id, s1) ->
  let mine := fun sub => String.eqb (Subscription.user_id sub) (auth_id user) in
  (exists existing,
      Db.select_single mine (subscriptions s) = Some existing
      /\ Db.select_single mine (subscriptions s1)
         = Some (extend (today w) d active txn pid (subscription_now w) existing existing))
  \/ (Db.select_single mine (subscriptions s) = None
      /\ subscriptions s1
         = (subscriptions s
              ++ [Subscription.mk (subscription_id w) (auth_id user) (100 * d)
                                  (JsDate.isoDate (paidUntil (today w) d))
                                  active txn pid st None])%list).
Proof.
  intros Hu mine.
  destruct (Db.select_single mine (subscriptions s)) as [existing|] eqn:He.
  - left. exists existing. split; [reflexivity|].
    exact (SubscriptionFacts.upsert_existing w user d active txn pid st s id s1 existing He Hu).
  - right. split; [reflexivity|]. unfold upsert in Hu. fold mine in Hu. rewrite He in Hu.
    destruct (Db.insert _ _ _ _) as [ss|] eqn:Hins; [|discriminate].
    injection Hu as _ <-. apply insert_Some in Hins. destruct Hins as [-> _]. reflexivity.
Qed.

(** The row found under the caller's id after the upsert, if one is
    found, carries the flag and the transaction id of the request. *)
Lemma upsert_found w user d active txn pid st s id s1 r :
  upsert w user d active txn pid st s = Some (id, s1) ->
  Db.select_single (fun sub => String.eqb (Subscription.user_id sub) (auth_id user))
                   (subscriptions s1) = Some r ->
  Subscription.is_active r = active /\ Subscription.last_payment_txn_id r = txn.
Proof.
  intros Hu Hr.
  destruct (upsert_row _ _ _ _ _ _ _ _ _ _ Hu) as [(existing & _ & E) | (Hnone & E)].
  - rewrite E in Hr. injection Hr as <-. split; reflexivity.
  - rewrite E in Hr. unfold Db.select_single in Hr. rewrite filter_app in Hr.
    cbn [filter Subscription.user_id] in Hr. rewrite String.eqb_refl in Hr.
    destruct (filter _ (subscriptions s)) as [|a [|b l]]; cbn in Hr;
      [injection Hr as <-; split; reflexivity|discriminate..].
Qed.

(** Months added move a day on by at least 28 days each. *)
Lemma addMonthsDay_later (day d : Z) :
  0 <= d -> day + 28 * d <= JsDate.addMonthsDay day d.
Proof.
  intros Hd. rewrite DateFacts.addMonthsDay_monthStart.
  pose proof (DateFacts.monthStart_mono (JsDate.monthOfDay day)
                (JsDate.monthOfDay day + d) ltac:(lia)).
  lia.
Qed.

(** Midnight of a later day is not before any instant of an earlier one. *)
Lemma ofDATE_after (p t : Z) : JsDate.Day t < p -> (JsDate.ofDATE p >=? t) = true.
Proof.
  intros H. rewrite Z.geb_leb. apply Z.leb_le. unfold JsDate.ofDATE, JsDate.Day in *.
  pose proof DateFacts.msPerDay_pos as Hpos.
  pose proof (Z.div_mod t JsDate.msPerDay ltac:(lia)).
  pose proof (Z.mod_pos_bound t JsDate.msPerDay Hpos). nia.
Qed.

End SubscriptionMore.

(** X8. A subscription request through the gateway that is answered 200
    leaves the caller with no subscription that passes the donation guard:
    the row it wrote is flagged inactive, also when it renewed one that
    was active and paid for. Until a delivery of the reconciler sets the
    flag again, every donation to that creator, in either variant, is
    rejected and writes nothing. *)
Theorem gateway_renewal_suspends_donations
        (w : CreateSubscription.World) (req : CreateSubscription.SubscriptionRequest)
        (s : Store) (user : AuthUser)
        (v : Variant) (wd : ProcessDonation.World)
        (dreq : ProcessDonation.DonationRequest) :
  CreateSubscription.caller w = Authenticated user ->
  status (fst (CreateSubscription.gateway w req s)) = 200 ->
  ProcessDonation.creator_id dreq = auth_id user ->
  let s' := snd (CreateSubscription.gateway w req s) in
  snd (ProcessDonation.handler v wd dreq s') = s'
  /\ (status (fst (ProcessDonation.handler v wd dreq s')) = 400
      \/ status (fst (ProcessDonation.handler v wd dreq s')) = 404).
Proof.
  intros Hc Hok Hid s'.
  destruct (SubscriptionFacts.subscription_success Gateway w req s user Hc Hok)
    as (_ & pid & st & id & s1 & Hu & Hs' & _).
  change (CreateSubscription.handler Gateway w req s)
    with (CreateSubscription.gateway w req s) in Hs'. fold s' in Hs'.
  assert (Hsub : subscriptions s' = subscriptions s1).
  { rewrite Hs'. apply SubscriptionFacts.update_mirror_subscriptions. }
  destruct (DonationFacts.precheck_inactive wd dreq s') as (resp & Hpre & Hst & _).
  { cbv zeta. rewrite Hid, Hsub.
    destruct (Db.select_single _ (subscriptions s1)) as [r|] eqn:Hr; [|left; reflexivity].
    right. exists r. split; [reflexivity|]. left.
    apply (SubscriptionMore.upsert_found _ _ _ _ _ _ _ _ _ _ r Hu Hr). }
  rewrite (DonationFacts.handler_rejected v wd dreq s' resp Hpre).
  split; [reflexivity|exact Hst].
Qed.

(** X8 at the renewal, on 2025-08-27, of a subscription active and paid
    until 2025-09-30: the donation of 50 is rejected afterwards. *)
Lemma gateway_renewal_suspends_donations_witness :
  let s' := snd (CreateSubscription.gateway Scenario.subscription_world
                   Scenario.renewal_request Scenario.store) in
  snd (ProcessDonation.handler Gateway Scenario.donation_world
         Scenario.donation_request s') = s'
  /\ (status (fst (ProcessDonation.handler Gateway Scenario.donation_world
                     Scenario.donation_request s')) = 400
      \/ status (fst (ProcessDonation.handler Gateway Scenario.donation_world
                        Scenario.donation_request s')) = 404).
Proof.
  exact (gateway_renewal_suspends_donations Scenario.subscription_world
           Scenario.renewal_request Scenario.store (mkAuthUser Scenario.creator_id None)
           Gateway Scenario.donation_world Scenario.donation_request
           eq_refl eq_refl eq_refl).
Defined.

(** X9. Intake and reconciler together: when a subscription request for
    one month or more is answered 200 by the gateway variant, and a
    delivery for the transaction id it returned is verified as completed
    and taken by the store, the caller's subscription is flagged active
    and paid until at least 28 days per month from the day of the
    request, so that the pages find it active at every instant of the
    days before. Each user is taken to have at most one subscription row
    beforehand. *)
Theorem gateway_subscription_activated
        (w : CreateSubscription.World) (req : CreateSubscription.SubscriptionRequest)
        (s : Store) (user : AuthUser)
        (ww : Webhook.World) (p : Webhook.WebhookPayload) (v : Webhook.Verification) :
  CreateSubscription.caller w = Authenticated user ->
  status (fst (CreateSubscription.gateway w req s)) = 200 ->
  one_subscription_each s ->
  1 <= CreateSubscription.months req ->
  Webhook.verification ww = inr v ->
  Webhook.verified v = true ->
  Webhook.payment_status v = "completed" ->
  Webhook.subscriptions_accepted ww = true ->
  Webhook.transaction_id p
  = TxnId.subscription_gateway (auth_id user) (CreateSubscription.txn_now w) ->
  let s' := snd (Webhook.handler ww p (snd (CreateSubscription.gateway w req s))) in
  exists r,
    Db.select_single (fun sub => String.eqb (Subscription.user_id sub) (auth_id user))
                     (subscriptions s') = Some r
    /\ Subscription.is_active r = true
    /\ JsDate.Day (CreateSubscription.today w) + 28 * CreateSubscription.months req
       <= Subscription.paid_until r
    /\ forall t, JsDate.Day t < JsDate.Day (CreateSubscription.today w)
                                + 28 * CreateSubscription.months req ->
                 isActive t (Some r) = true.
Proof.
  intros Hc Hok Hone Hd Hv Hver Hst Hacc Htid s'.
  destruct (SubscriptionFacts.subscription_success Gateway w req s user Hc Hok)
    as (_ & pid & st & id & s1 & Hu & Hs1 & _).
  change (CreateSubscription.handler Gateway w req s)
    with (CreateSubscription.gateway w req s) in Hs1.
  cbn [CreateSubscription.txnId] in Hu.
  set (mine := fun sub => String.eqb (Subscription.user_id sub) (auth_id user)).
  set (tid := TxnId.subscription_gateway (auth_id user) (CreateSubscription.txn_now w)) in *.
  (* the delivery *)
  assert (Hsub : subscriptions s'
                 = map (Db.on (fun r => String.eqb (Subscription.last_payment_txn_id r) tid)
                              (Webhook.set_is_active true (Webhook.subscriptions_now ww)))
                       (subscriptions s1)).
  { subst s'. unfold Webhook.handler. rewrite Hv, Hver, Hst, Htid. cbn [andb String.eqb].
    replace (String.eqb "completed" "completed") with true by reflexivity.
    assert (Hsubp : Js.startsWith tid "SUB_" = true) by apply startsWith_append.
    rewrite (startsWith_SUB_not_DON tid Hsubp), Hsubp. cbn [snd].
    unfold Webhook.update_subscriptions, Db.update. rewrite Hacc.
    cbn [subscriptions with_subscriptions]. rewrite Hs1.
    rewrite SubscriptionFacts.update_mirror_subscriptions. reflexivity. }
  (* the row of the intake *)
  assert (Hrow : exists r0,
             Db.select_single mine (subscriptions s1) = Some r0
             /\ Subscription.last_payment_txn_id r0 = tid
             /\ JsDate.Day (CreateSubscription.today w) + 28 * CreateSubscription.months req
                <= Subscription.paid_until r0).
  { destruct (SubscriptionMore.upsert_row _ _ _ _ _ _ _ _ _ _ Hu)
      as [(existing & _ & E) | (Hnone & E)]; fold mine in E.
    - eexists. split; [exact E|]. split; [reflexivity|].
      cbn [CreateSubscription.extend Subscription.paid_until].
      rewrite SubscriptionFacts.newPaidUntil_day.
      pose proof (SubscriptionMore.addMonthsDay_later
                    (Z.max (Subscription.paid_until existing)
                           (JsDate.Day (CreateSubscription.today w)))
                    (CreateSubscription.months req) ltac:(lia)).
      lia.
    - fold mine in Hnone. eexists. split.
      + rewrite E. unfold Db.select_single. rewrite filter_app.
        rewrite (RunFacts.none_of_at_most_one mine _ Hnone (Hone (auth_id user))).
        cbn [filter app]. unfold mine at 1. cbn [Subscription.user_id].
        rewrite String.eqb_refl. reflexivity.
      + split; [reflexivity|]. cbn [Subscription.paid_until].
        rewrite SubscriptionFacts.paidUntil_day.
        apply SubscriptionMore.addMonthsDay_later. lia. }
  destruct Hrow as (r0 & Hr0 & Htxn & Hpaid).
  exists (Webhook.set_is_active true (Webhook.subscriptions_now ww) r0).
  split.
  { rewrite Hsub. unfold mine in *.
    rewrite select_single_on by reflexivity. rewrite Hr0. cbn [option_map].
    unfold Db.on. rewrite Htxn, String.eqb_refl. reflexivity. }
  split; [reflexivity|]. split; [exact Hpaid|].
  intros t Ht. unfold isActive. cbn [Webhook.set_is_active Subscription.is_active
                                      Subscription.paid_until andb].
  apply SubscriptionMore.ofDATE_after. lia.
Qed.

(** X9 at a creator's first subscription, for one month on 2025-08-27. *)
Lemma gateway_subscription_activated_witness :
  let s' := snd (Webhook.handler (Scenario.webhook_world (Scenario.now + 60000))
                   Cases.subscription_payload Cases.store_subscribed) in
  exists r,
    Db.select_single (fun sub => String.eqb (Subscription.user_id sub) Scenario.creator_id)
                     (subscriptions s') = Some r
    /\ Subscription.is_active r = true
    /\ JsDate.Day Scenario.now + 28 * 1 <= Subscription.paid_until r
    /\ forall t, JsDate.Day t < JsDate.Day Scenario.now + 28 * 1 ->
                 isActive t (Some r) = true.
Proof.
  refine (gateway_subscription_activated Scenario.subscription_world
            Scenario.renewal_request Cases.store_new_creator
            (mkAuthUser Scenario.creator_id None)
            (Scenario.webhook_world (Scenario.now + 60000))
            Cases.subscription_payload Scenario.completed
            eq_refl eq_refl _ _ eq_refl eq_refl eq_refl eq_refl eq_refl).
  - intros uid. cbn. lia.
  - cbn. lia.
Defined.

(** X10. A renewal answers with the price of the months requested, 100 a
    month, but writes neither the [amount] nor the [status] of the
    existing row: after a request answered 200 the caller's row holds the
    amount and status it held before, under the new transaction id. *)
Theorem renewal_keeps_recorded_amount
        (v : Variant) (w : CreateSubscription.World)
        (req : CreateSubscription.SubscriptionRequest) (s : Store)
        (user : AuthUser) (existing : Subscription.t) :
  CreateSubscription.caller w = Authenticated user ->
  status (fst (CreateSubscription.handler v w req s)) = 200 ->
  Db.select_single (fun sub => String.eqb (Subscription.user_id sub) (auth_id user))
                   (subscriptions s) = Some existing ->
  field "amount" (body (fst (CreateSubscription.handler v w req s)))
  = Some (JNum (100 * CreateSubscription.months req))
  /\ exists r,
      Db.select_single (fun sub => String.eqb (Subscription.user_id sub) (auth_id user))
                       (subscriptions (snd (CreateSubscription.handler v w req s)))
      = Some r
      /\ Subscription.id r = Subscription.id existing
      /\ Subscription.amount r = Subscription.amount existing
      /\ Subscription.status r = Subscription.status existing
      /\ Subscription.last_payment_txn_id r = CreateSubscription.txnId v w user.
Proof.
  intros Hc Hok He.
  split.
  - revert Hok. destruct v; unfold CreateSubscription.handler,
      CreateSubscription.gateway, CreateSubscription.simulated; rewrite Hc;
      destruct (negb (CreateSubscription.is_creator user s)); try (cbn; discriminate).
    + destruct (CreateSubscription.checkout w) as [thrown|r]; try (cbn; discriminate).
      destruct (negb (checkout_status r)); try (cbn; discriminate).
      destruct (CreateSubscription.upsert _ _ _ _ _ _ _ _) as [[i s2]|];
        try (cbn; discriminate).
      intros _. reflexivity.
    + destruct (CreateSubscription.upsert _ _ _ _ _ _ _ _) as [[i s2]|];
        try (cbn; discriminate).
      intros _. reflexivity.
  - destruct (SubscriptionFacts.subscription_success v w req s user Hc Hok)
      as (_ & pid & st & id & s1 & Hu & Hs1 & _).
    rewrite Hs1, SubscriptionFacts.update_mirror_subscriptions.
    rewrite (SubscriptionFacts.upsert_existing _ _ _ _ _ _ _ _ _ _ existing He Hu).
    eexists. split; [reflexivity|]. repeat split.
Qed.

(** X10 at a renewal for one month of the row recorded with amount 100 and
    status [pending]. *)
Lemma renewal_keeps_recorded_amount_witness :
  field "amount" (body (fst (CreateSubscription.handler Simulated
                               Scenario.subscription_world Scenario.renewal_request
                               Scenario.store)))
  = Some (JNum (100 * 1))
  /\ exists r,
      Db.select_single (fun sub => String.eqb (Subscription.user_id sub) Scenario.creator_id)
                       (subscriptions (snd (CreateSubscription.handler Simulated
                                              Scenario.subscription_world
                                              Scenario.renewal_request Scenario.store)))
      = Some r
      /\ Subscription.id r = "5ub00000-0000-4000-8000-000000000001"
      /\ Subscription.amount r = 100
      /\ Subscription.status r = "pending"
      /\ Subscription.last_payment_txn_id r
         = CreateSubscription.txnId Simulated Scenario.subscription_world
                                    (mkAuthUser Scenario.creator_id None).
Proof.
  exact (renewal_keeps_recorded_amount Simulated Scenario.subscription_world
           Scenario.renewal_request Scenario.store (mkAuthUser Scenario.creator_id None)
           (Scenario.subscription (JsDate.days_from_civil 2025 9 30) true)
           eq_refl eq_refl eq_refl).
Defined.

(** ** The reconciler, further *)

(** X11. A delivery writes two columns and their stamps, nothing more: of
    every donation it leaves all but [payment_status] and [updated_at], of
    every subscription all but [is_active] and [updated_at] (so never an
    amount, an owner or a paid-through date), rows are neither added nor
    removed nor reordered, and a row that does not carry the delivered
    transaction id is left exactly as it was. *)
Theorem webhook_column_frame (w : Webhook.World) (p : Webhook.WebhookPayload)
        (s : Store) :
  let s' := snd (Webhook.handler w p s) in
  Forall2 (fun d d' =>
             same_donation d d'
             /\ (Donation.txn_id d <> Webhook.transaction_id p -> d' = d))
          (donations s) (donations s')
  /\ Forall2 (fun r r' =>
                same_but_active r r'
                /\ (Subscription.last_payment_txn_id r <> Webhook.transaction_id p -> r' = r))
             (subscriptions s) (subscriptions s').
Proof.
  destruct (Shapes.webhook_shape w p s) as (_ & _ & Hd & Hs). cbv zeta. split.
  - destruct Hd as [-> | (st & now & ->)].
    + apply Forall2_same. intros d. split; [repeat split|reflexivity].
    + apply Forall2_map_same. intros d. unfold Db.on.
      destruct (String.eqb_spec (Donation.txn_id d) (Webhook.transaction_id p)) as [E|N].
      * split; [repeat split|]. intros N. contradiction.
      * split; [repeat split|reflexivity].
  - destruct Hs as [-> | (b & now & ->)].
    + apply Forall2_same. intros r. split; [repeat split|reflexivity].
    + apply Forall2_map_same. intros r. unfold Db.on.
      destruct (String.eqb_spec (Subscription.last_payment_txn_id r)
                                (Webhook.transaction_id p)) as [E|N].
      * split; [repeat split|]. intros N. contradiction.
      * split; [repeat split|reflexivity].
Qed.

(** X12. The reconciler looks at no earlier state: when a delivery is
    verified, with whatever result, and the store takes its writes, the
    ledger it leaves is the same whether or not another delivery for that
    payload was served before it, whatever that one was told and did. The
    later delivery alone decides; in particular a donation completed by
    one delivery is failed by a later one that is not verified as
    completed. *)
Theorem later_delivery_decides (w1 w2 : Webhook.World) (p : Webhook.WebhookPayload)
        (s : Store) (v2 : Webhook.Verification) :
  Webhook.verification w2 = inr v2 ->
  Webhook.donations_accepted w2 = true ->
  Webhook.subscriptions_accepted w2 = true ->
  snd (Webhook.handler w2 p (snd (Webhook.handler w1 p s)))
  = snd (Webhook.handler w2 p s).
Proof.
  intros V2 A2 B2. unfold Webhook.handler. rewrite V2.
  destruct (Webhook.verification w1) as [thrown|v1]; cbn [snd]; [reflexivity|].
  unfold Webhook.update_donations, Webhook.update_subscriptions, Db.update.
  rewrite A2, B2.
  destruct (Webhook.verified v1 && String.eqb (Webhook.payment_status v1) "completed");
    destruct (Webhook.verified v2 && String.eqb (Webhook.payment_status v2) "completed");
    destruct (Js.startsWith (Webhook.transaction_id p) "DON_");
    destruct (Js.startsWith (Webhook.transaction_id p) "SUB_");
    destruct (Webhook.donations_accepted w1);
    destruct (Webhook.subscriptions_accepted w1);
    unfold with_donations, with_subscriptions;
    cbn [donations subscriptions users withdrawals];
    rewrite ?on_absorb by reflexivity; reflexivity.
Qed.

(** X12 at the gateway donation of 50: completed a minute after the
    intake, then reported failed a minute later, it ends as if the first
    delivery had never come. *)
Lemma later_delivery_decides_witness :
  snd (Webhook.handler (Cases.webhook_world_failed (Scenario.now + 120000))
         Scenario.webhook_payload
         (snd (Webhook.handler (Scenario.webhook_world (Scenario.now + 60000))
                 Scenario.webhook_payload Scenario.store_pending)))
  = snd (Webhook.handler (Cases.webhook_world_failed (Scenario.now + 120000))
           Scenario.webhook_payload Scenario.store_pending).
Proof.
  exact (later_delivery_decides (Scenario.webhook_world (Scenario.now + 60000))
           (Cases.webhook_world_failed (Scenario.now + 120000))
           Scenario.webhook_payload Scenario.store_pending Cases.failed
           eq_refl eq_refl eq_refl).
Defined.

(** ** Withdrawals and their processing *)

Module WithdrawalMore.

(** An update by key leaves a table that does not hold the key. *)
Lemma on_absent {A} (key : A -> string) (k : string) (f : A -> A) (t : list A) :
  existsb (fun x => String.eqb (key x) k) t = false ->
  map (Db.on (fun x => String.eqb (key x) k) f) t = t.
Proof.
  intros H. induction t as [|a t IH]; cbn in *; [reflexivity|].
  apply orb_false_iff in H. destruct H as [Ha Ht].
  unfold Db.on at 1. rewrite Ha, IH by assumption. reflexivity.
Qed.

End WithdrawalMore.

(** X13. No sequence of requests moves a balance: whatever requests are
    served, by any of the handlers in any world, every user row holds
    the [current_amount] it held at the start. The reconciler writes
    donations and subscriptions, the subscription intake writes the
    mirror columns, the administrator writes withdrawals, and the two
    updates that name [current_amount] throw before they are sent. *)
Theorem balances_never_move (s s' : Store) : run s s' -> balances s' = balances s.
Proof.
  intros Hrun. induction Hrun as [s|s s1 s2 Hstep _ IH]; [reflexivity|].
  rewrite IH. exact (RunFacts.step_balances s s1 Hstep).
Qed.

(** X13 at a simulated donation of 50, a request to withdraw 30 and the
    administrator's approval of it: the balance is 0 throughout. *)
Lemma balances_never_move_witness :
  balances
    (snd (Admin.handleWithdrawal (Cases.admin_world (Scenario.now + 60000))
            "w0000000-0000-4000-8000-000000000001" Admin.approve
            (snd (RequestWithdrawal.handler Scenario.withdrawal_world
                    (Scenario.withdrawal_request 30)
                    (snd (ProcessDonation.handler Simulated Scenario.donation_world
                            Scenario.donation_request Scenario.store))))))
  = balances Scenario.store.
Proof.
  apply balances_never_move.
  eapply run_more; [apply (step_donation Simulated)|].
  eapply run_more; [apply step_withdrawal|].
  eapply run_more; [apply step_admin|]. apply run_done.
Defined.

(** X14. The administrator's count of pending withdrawals follows a
    request through its life: a request that passes every check and
    whose row the store takes, though answered 500, raises the count by
    one and leaves the counts of users, creators and completed
    donations; the administrator's action on the withdrawal made,
    approving or rejecting, once taken by the store, brings the counts
    back to what they were before the request. The users are the same
    rows throughout: nothing was debited, and a rejection has nothing to
    give back. *)
Theorem pending_withdrawal_counted (w : RequestWithdrawal.World)
        (req : RequestWithdrawal.WithdrawalRequest) (s : Store)
        (user : AuthUser) (profile : User.t)
        (wa : Admin.World) (action : Admin.Action) :
  RequestWithdrawal.caller w = Authenticated user ->
  Db.select_single (fun u => String.eqb (User.id u) (auth_id user)) (users s)
  = Some profile ->
  User.role profile = "creator" ->
  0 < RequestWithdrawal.amount req <= User.current_amount profile ->
  RequestWithdrawal.insert_accepted w = true ->
  (forall r, In r (withdrawals s) ->
             Withdrawal.id r <> RequestWithdrawal.withdrawal_id w) ->
  Admin.accepted wa = true ->
  let stats := AdminDashboard.fetchDashboardData in
  let s1 := snd (RequestWithdrawal.handler w req s) in
  let s2 := snd (Admin.handleWithdrawal wa (RequestWithdrawal.withdrawal_id w) action s1) in
  status (fst (RequestWithdrawal.handler w req s)) = 500
  /\ stats s1 = AdminDashboard.mkStats
                  (AdminDashboard.totalUsers (stats s))
                  (AdminDashboard.totalCreators (stats s))
                  (AdminDashboard.totalDonations (stats s))
                  (AdminDashboard.pendingWithdrawals (stats s) + 1)
  /\ stats s2 = stats s
  /\ users s1 = users s
  /\ users s2 = users s.
Proof.
  intros Hc Hp Hr Ha Hi Hf Hacc stats s1 s2.
  pose proof (WithdrawalFacts.handler_inserted w req s user profile Hc Hp Hr Ha Hi Hf)
    as E.
  assert (E1 : s1 = mkStore (users s) (donations s) (subscriptions s)
                            (withdrawals s
                               ++ [RequestWithdrawal.new_withdrawal w user req])).
  { subst s1. rewrite E. reflexivity. }
  assert (E2 : s2 = mkStore (users s) (donations s) (subscriptions s)
                            (withdrawals s
                               ++ [Admin.process action (Admin.now wa)
                                     (RequestWithdrawal.new_withdrawal w user req)])).
  { subst s2. unfold Admin.handleWithdrawal, Db.update. rewrite Hacc.
    cbn [snd]. unfold with_withdrawals. rewrite E1.
    cbn [users donations subscriptions withdrawals]. f_equal. rewrite map_app.
    rewrite WithdrawalMore.on_absent by (apply existsb_fresh; assumption).
    cbn [map]. unfold Db.on.
    cbn [RequestWithdrawal.new_withdrawal Withdrawal.id].
    rewrite String.eqb_refl. reflexivity. }
  split; [rewrite E; reflexivity|].
  split; [|split; [|split]].
  - unfold stats, AdminDashboard.fetchDashboardData. rewrite E1.
    cbn [users donations withdrawals AdminDashboard.totalUsers
         AdminDashboard.totalCreators AdminDashboard.totalDonations
         AdminDashboard.pendingWithdrawals].
    f_equal. unfold AdminDashboard.count. rewrite filter_app, length_app. cbn. lia.
  - unfold stats, AdminDashboard.fetchDashboardData. rewrite E2.
    cbn [users donations withdrawals]. f_equal.
    unfold AdminDashboard.count. rewrite filter_app, length_app.
    destruct action; cbn; lia.
  - rewrite E1. reflexivity.
  - rewrite E2. reflexivity.
Qed.

(** X14 at a request to withdraw 30 out of 50, then rejected. *)
Lemma pending_withdrawal_counted_witness :
  let stats := AdminDashboard.fetchDashboardData in
  let s := Scenario.store_balance 50 in
  let s1 := Cases.store_withdrawn in
  let s2 := snd (Admin.handleWithdrawal (Cases.admin_world (Scenario.now + 60000))
                   "w0000000-0000-4000-8000-000000000001" Admin.reject s1) in
  status (fst (RequestWithdrawal.handler Scenario.withdrawal_world
                 (Scenario.withdrawal_request 30) s)) = 500
  /\ stats s1 = AdminDashboard.mkStats
                  (AdminDashboard.totalUsers (stats s))
                  (AdminDashboard.totalCreators (stats s))
                  (AdminDashboard.totalDonations (stats s))
                  (AdminDashboard.pendingWithdrawals (stats s) + 1)
  /\ stats s2 = stats s
  /\ users s1 = users s
  /\ users s2 = users s.
Proof.
  refine (pending_withdrawal_counted Scenario.withdrawal_world
            (Scenario.withdrawal_request 30) (Scenario.store_balance 50)
            (mkAuthUser Scenario.creator_id None) (Scenario.creator 50)
            (Cases.admin_world (Scenario.now + 60000)) Admin.reject
            eq_refl eq_refl eq_refl _ eq_refl _ eq_refl).
  - split; [reflexivity|discriminate].
  - intros r [].
Defined.

(** X15. The administrator's update carries no condition on the status a
    withdrawal has: a second action on the same id, once taken by the
    store, leaves the ledger it would have left had the first never been
    made, so an approval can be turned into a rejection and the reverse;
    and an action on an id that no withdrawal has is reported as a
    success and changes nothing. *)
Theorem later_action_decides (w1 w2 : Admin.World) (withdrawalId : string)
        (a1 a2 : Admin.Action) (s : Store) :
  Admin.accepted w2 = true ->
  Admin.handleWithdrawal w2 withdrawalId a2
    (snd (Admin.handleWithdrawal w1 withdrawalId a1 s))
  = Admin.handleWithdrawal w2 withdrawalId a2 s
  /\ ((forall r, In r (withdrawals s) -> Withdrawal.id r <> withdrawalId) ->
      Admin.handleWithdrawal w2 withdrawalId a2 s = ("Success", s)).
Proof.
  intros H2. unfold Admin.handleWithdrawal, Db.update. rewrite H2. split.
  - destruct (Admin.accepted w1); cbn [snd]; [|reflexivity].
    unfold with_withdrawals. cbn [withdrawals users donations subscriptions].
    rewrite on_absorb by reflexivity. reflexivity.
  - intros Hnone. unfold with_withdrawals.
    rewrite WithdrawalMore.on_absent by (apply existsb_fresh; assumption).
    rewrite store_eta. reflexivity.
Qed.

(** X15 at the withdrawal of 30 requested: approved, then rejected a
    minute later. *)
Lemma later_action_decides_witness :
  Admin.handleWithdrawal (Cases.admin_world (Scenario.now + 120000))
    "w0000000-0000-4000-8000-000000000001" Admin.reject
    (snd (Admin.handleWithdrawal (Cases.admin_world (Scenario.now + 60000))
            "w0000000-0000-4000-8000-000000000001" Admin.approve Cases.store_withdrawn))
  = Admin.handleWithdrawal (Cases.admin_world (Scenario.now + 120000))
      "w0000000-0000-4000-8000-000000000001" Admin.reject Cases.store_withdrawn
  /\ ((forall r, In r (withdrawals Cases.store_withdrawn) ->
                 Withdrawal.id r <> "w0000000-0000-4000-8000-000000000001") ->
      Admin.handleWithdrawal (Cases.admin_world (Scenario.now + 120000))
        "w0000000-0000-4000-8000-000000000001" Admin.reject Cases.store_withdrawn
      = ("Success", Cases.store_withdrawn)).
Proof.
  exact (later_action_decides (Cases.admin_world (Scenario.now + 60000))
           (Cases.admin_world (Scenario.now + 120000))
           "w0000000-0000-4000-8000-000000000001" Admin.approve Admin.reject
           Cases.store_withdrawn eq_refl).
Defined.

(** ** The pages' readings *)

Module DashboardFacts.
Import Dashboard.




End DashboardFacts.




(** X17. The days remaining shown on the subscription page are the
    paid-through day less the day of the clock reading, whatever the time
    of day. So a subscription flagged active that shows a day or more
    remaining is active at any earlier reading, and one found active
    shows no fewer days than the days the two readings are apart. *)
Theorem days_remaining_by_day (subscription : Subscription.t) :
  (forall now,
      SubscriptionPage.daysRemaining now (Some subscription)
      = Subscription.paid_until subscription - JsDate.Day now)
  /\ (forall t1 t2,
         t1 <= t2 ->
         Subscription.is_active subscription = true ->
         0 < SubscriptionPage.daysRemaining t2 (Some subscription) ->
         isActive t1 (Some subscription) = true)
  /\ (forall t1 t2,
         isActive t1 (Some subscription) = true ->
         JsDate.Day t1 - JsDate.Day t2
         <= SubscriptionPage.daysRemaining t2 (Some subscription)).
Proof.
  assert (Hday : forall now,
             SubscriptionPage.daysRemaining now (Some subscription)
             = Subscription.paid_until subscription - JsDate.Day now).
  { intros now. unfold SubscriptionPage.daysRemaining, SubscriptionPage.ceil_div,
      JsDate.ofDATE, JsDate.Day.
    change (1000 * 3600 * 24) with JsDate.msPerDay.
    replace (- (Subscription.paid_until subscription * JsDate.msPerDay - now))
      with (now + (- Subscription.paid_until subscription) * JsDate.msPerDay) by lia.
    rewrite Z.div_add by (pose proof DateFacts.msPerDay_pos; lia). lia. }
  split; [exact Hday|]. split.
  - intros t1 t2 Hle Ha Hpos. rewrite Hday in Hpos.
    unfold isActive. rewrite Ha. cbn [andb].
    apply SubscriptionMore.ofDATE_after.
    assert (JsDate.Day t1 <= JsDate.Day t2).
    { unfold JsDate.Day. apply Z.div_le_mono; [exact DateFacts.msPerDay_pos|exact Hle]. }
    lia.
  - intros t1 t2 Hact. rewrite Hday. unfold isActive in Hact.
    apply andb_true_iff in Hact. destruct Hact as [_ Hact].
    rewrite Z.geb_leb in Hact. apply Z.leb_le in Hact.
    assert (JsDate.Day t1 <= Subscription.paid_until subscription).
    { unfold JsDate.Day, JsDate.ofDATE in *.
      apply Z.div_le_upper_bound; [exact DateFacts.msPerDay_pos|lia]. }
    lia.
Qed.

(** ** Transaction identifiers, further *)

Section TxnIdFacts.

Lemma append_cancel_l (p x y : string) : (p ++ x = p ++ y)%string -> x = y.
Proof.
  induction p as [|c p IH]; cbn [String.append]; intros H; [exact H|].
  injection H as H. apply IH. exact H.
Qed.

(** Two strings that agree up to and after a separator neither holds
    before it agree on both sides of it. *)
Lemma append_split (c : ascii) (a b x y : string) :
  Forall (fun k => k <> c) (list_ascii_of_string a) ->
  Forall (fun k => k <> c) (list_ascii_of_string b) ->
  (a ++ String c x = b ++ String c y)%string -> a = b /\ x = y.
Proof.
  revert b. induction a as [|k a IH]; intros [|k' b] Ha Hb H; cbn in *.
  - injection H as H. split; [reflexivity|exact H].
  - injection H as Hk _. inversion Hb; subst. congruence.
  - injection H as Hk _. inversion Ha; subst. congruence.
  - injection H as Hk H. inversion Ha; subst. inversion Hb; subst.
    destruct (IH b ltac:(assumption) ltac:(assumption) H) as [-> ->].
    split; reflexivity.
Qed.

Lemma string_of_uint_digits (d : Decimal.uint) :
  Forall (fun k => k <> "_"%char) (list_ascii_of_string (NilEmpty.string_of_uint d)).
Proof.
  induction d; cbn; constructor; solve [discriminate | assumption].
Qed.

Lemma toString_digits (n : Z) :
  Forall (fun k => k <> "_"%char) (list_ascii_of_string (Js.toString n)).
Proof.
  unfold Js.toString, NilZero.string_of_int, NilZero.string_of_uint.
  destruct (Z.to_int n) as [d|d]; destruct d; cbn;
    repeat (constructor; [discriminate|]);
    solve [constructor | apply string_of_uint_digits].
Qed.

Lemma to_int_not_nil (n : Z) :
  Z.to_int n <> Decimal.Pos Decimal.Nil /\ Z.to_int n <> Decimal.Neg Decimal.Nil.
Proof.
  destruct n as [|p|p]; cbn; split; try discriminate;
    intros H; injection H as H; exact (DecimalPos.Unsigned.to_uint_nonnil p H).
Qed.

(** The decimal digits of a number determine it. *)
Lemma toString_inj (a b : Z) : Js.toString a = Js.toString b -> a = b.
Proof.
  unfold Js.toString. intros H.
  apply (f_equal NilZero.int_of_string) in H.
  destruct (to_int_not_nil a) as [Ha1 Ha2]. destruct (to_int_not_nil b) as [Hb1 Hb2].
  rewrite !NilZero.isi in H by assumption.
  injection H as H. apply DecimalZ.to_int_inj. exact H.
Qed.

End TxnIdFacts.

(** X18. A transaction id determines the clock reading it was made from:
    the gateway ids of one creator, for donations as for subscriptions,
    differ whenever the readings differ by a millisecond, and so do two
    simulated ids, which differ as well when the readings agree and the
    random suffixes do not. Two creators whose ids share their first
    eight characters get the same gateway id at the same reading. *)
Theorem txn_id_determines_clock :
  (forall c t1 t2,
      TxnId.donation_gateway c t1 = TxnId.donation_gateway c t2 -> t1 = t2)
  /\ (forall c t1 t2,
         TxnId.subscription_gateway c t1 = TxnId.subscription_gateway c t2 -> t1 = t2)
  /\ (forall t1 t2 r1 r2,
         TxnId.donation_simulated t1 r1 = TxnId.donation_simulated t2 r2 ->
         t1 = t2
         /\ Js.toUpperCase (Js.substring r1 2 8) = Js.toUpperCase (Js.substring r2 2 8))
  /\ (forall t1 t2 r1 r2,
         TxnId.subscription_simulated t1 r1 = TxnId.subscription_simulated t2 r2 ->
         t1 = t2
         /\ Js.toUpperCase (Js.substring r1 2 8) = Js.toUpperCase (Js.substring r2 2 8))
  /\ (forall c1 c2 t,
         Js.substring c1 0 8 = Js.substring c2 0 8 ->
         TxnId.donation_gateway c1 t = TxnId.donation_gateway c2 t
         /\ TxnId.subscription_gateway c1 t = TxnId.subscription_gateway c2 t).
Proof.
  repeat split.
  - intros c t1 t2 H. unfold TxnId.donation_gateway in H.
    apply append_cancel_l, append_cancel_l, append_cancel_l in H.
    apply toString_inj. exact H.
  - intros c t1 t2 H. unfold TxnId.subscription_gateway in H.
    apply append_cancel_l, append_cancel_l, append_cancel_l in H.
    apply toString_inj. exact H.
  - unfold TxnId.donation_simulated in H. apply append_cancel_l in H.
    apply (append_split "_") in H; try apply toString_digits.
    apply toString_inj. apply H.
  - unfold TxnId.donation_simulated in H. apply append_cancel_l in H.
    apply (append_split "_") in H; try apply toString_digits. apply H.
  - unfold TxnId.subscription_simulated in H. apply append_cancel_l in H.
    apply (append_split "_") in H; try apply toString_digits.
    apply toString_inj. apply H.
  - unfold TxnId.subscription_simulated in H. apply append_cancel_l in H.
    apply (append_split "_") in H; try apply toString_digits. apply H.
  - unfold TxnId.donation_gateway. rewrite H. reflexivity.
  - unfold TxnId.subscription_gateway. rewrite H. reflexivity.
Qed.

(** X19. The pages and the donation intake agree on who can be given to:
    for a well-formed request of 10 or more to an existing creator, the
    intake's guard lets the request through exactly when [isActive], which
    the profile page, the donation page and the dashboard compute from the
    creator's subscription row, holds at the same clock reading. *)
Theorem guard_agrees_with_pages (w : ProcessDonation.World)
        (req : ProcessDonation.DonationRequest) (s : Store) (creator : User.t) :
  ProcessDonation.creator_id req <> "" ->
  10 <= ProcessDonation.amount req ->
  Db.select_single (fun u => String.eqb (User.id u) (ProcessDonation.creator_id req)
                             && String.eqb (User.role u) "creator") (users s)
  = Some creator ->
  let subscription :=
    Db.select_single (fun x => String.eqb (Subscription.user_id x)
                                          (ProcessDonation.creator_id req))
                     (subscriptions s) in
  (ProcessDonation.precheck w req s = inr creator
   <-> isActive (ProcessDonation.now w) subscription = true)
  /\ (isActive (ProcessDonation.now w) subscription = false ->
      forall v, ProcessDonation.handler v w req s
                = (ProcessDonation.reject 400 "Creator's subscription is not active", s)).
Proof.
  intros Hid Hten Hc subscription. split; [split|].
  - intros Hpre. destruct (DonationFacts.precheck_inr w req s creator Hpre)
      as (r & Hr & _ & _ & Hact & _).
    subst subscription. rewrite Hr. exact Hact.
  - intros Hact. subst subscription.
    destruct (Db.select_single _ (subscriptions s)) as [r|] eqn:Hr; [|discriminate].
    unfold isActive in Hact. apply andb_true_iff in Hact. destruct Hact as [Ha Hd].
    rewrite Z.geb_leb in Hd. apply Z.leb_le in Hd.
    exact (DonationMore.precheck_passes w req s creator r Hid Hten Hc Hr Ha Hd).
  - intros Hact v. apply DonationFacts.handler_rejected.
    unfold ProcessDonation.precheck.
    replace (String.eqb (ProcessDonation.creator_id req) "") with false
      by (symmetry; apply String.eqb_neq; assumption).
    replace (ProcessDonation.amount req =? 0) with false
      by (symmetry; apply Z.eqb_neq; lia).
    replace (ProcessDonation.amount req <? 10) with false
      by (symmetry; apply Z.ltb_ge; lia).
    cbn [orb]. rewrite Hc. fold subscription.
    destruct subscription as [r|]; [|reflexivity].
    unfold isActive in Hact. destruct (Subscription.is_active r); cbn [negb andb orb] in *;
      [|reflexivity].
    rewrite Z.geb_leb in Hact. apply Z.leb_gt in Hact.
    apply Z.ltb_lt in Hact. rewrite Hact. reflexivity.
Qed.

(** X19 at the creator paid until 2025-09-30, on 2025-08-27. *)
Lemma guard_agrees_with_pages_witness :
  let subscription :=
    Db.select_single (fun x => String.eqb (Subscription.user_id x) Scenario.creator_id)
                     (subscriptions Scenario.store) in
  (ProcessDonation.precheck Scenario.donation_world Scenario.donation_request
                            Scenario.store = inr (Scenario.creator 0)
   <-> isActive Scenario.now subscription = true)
  /\ (isActive Scenario.now subscription = false ->
      forall v, ProcessDonation.handler v Scenario.donation_world
                  Scenario.donation_request Scenario.store
                = (ProcessDonation.reject 400 "Creator's subscription is not active",
                   Scenario.store)).
Proof.
  refine (guard_agrees_with_pages Scenario.donation_world Scenario.donation_request
            Scenario.store (Scenario.creator 0) _ _ eq_refl).
  - discriminate.
  - discriminate.
Defined.

(** X20. The withdrawals page after a request. When the caller's request
    passes every check and the store takes its row, the request is
    answered 500 and the page, reading the ledger again, shows the
    balance it showed before, undiminished, next to a history that now
    begins with the new withdrawal, pending, for the amount and method
    asked; the amount was positive and no more than the balance shown,
    as the page's own check asks, and it still is. *)
Theorem withdrawals_page_after_request
        (w : RequestWithdrawal.World) (req : RequestWithdrawal.WithdrawalRequest)
        (s : Store) (user : AuthUser) (profile : User.t)
        (page0 : WithdrawalsPage.State) :
  RequestWithdrawal.caller w = Authenticated user ->
  Db.select_single (fun u => String.eqb (User.id u) (auth_id user)) (users s)
  = Some profile ->
  User.role profile = "creator" ->
  0 < RequestWithdrawal.amount req <= User.current_amount profile ->
  RequestWithdrawal.insert_accepted w = true ->
  (forall r, In r (withdrawals s) ->
             Withdrawal.id r <> RequestWithdrawal.withdrawal_id w) ->
  let before := WithdrawalsPage.fetchData user page0 s in
  let after := WithdrawalsPage.fetchData user before
                 (snd (RequestWithdrawal.handler w req s)) in
  status (fst (RequestWithdrawal.handler w req s)) = 500
  /\ WithdrawalsPage.userBalance before = User.current_amount profile
  /\ WithdrawalsPage.userBalance after = WithdrawalsPage.userBalance before
  /\ 0 < RequestWithdrawal.amount req <= WithdrawalsPage.userBalance after
  /\ exists r,
      WithdrawalsPage.withdrawals after = r :: WithdrawalsPage.withdrawals before
      /\ Withdrawal.id r = RequestWithdrawal.withdrawal_id w
      /\ Withdrawal.status r = "pending"
      /\ Withdrawal.amount r = RequestWithdrawal.amount req
      /\ Withdrawal.method r = RequestWithdrawal.method req.
Proof.
  intros Hc Hp Hr Ha Hi Hf before after.
  pose proof (WithdrawalFacts.handler_inserted w req s user profile Hc Hp Hr Ha Hi Hf)
    as E.
  subst before after. unfold WithdrawalsPage.fetchData, WithdrawalsPage.withdrawalsData.
  rewrite E. cbn [fst snd status internal_error users withdrawals with_withdrawals
                  WithdrawalsPage.userBalance WithdrawalsPage.withdrawals].
  rewrite Hp.
  assert (Hb : (if User.current_amount profile =? 0 then 0 else User.current_amount profile)
               = User.current_amount profile)
    by (destruct (Z.eqb_spec (User.current_amount profile) 0); lia).
  rewrite Hb.
  split; [reflexivity|]. split; [reflexivity|]. split; [reflexivity|]. split; [exact Ha|].
  rewrite filter_app. cbn [filter RequestWithdrawal.new_withdrawal Withdrawal.user_id].
  rewrite String.eqb_refl, rev_app_distr. cbn [rev app].
  eexists. split; [reflexivity|]. repeat split.
Qed.

(** X20 at a request to withdraw 30 out of 50. *)
Lemma withdrawals_page_after_request_witness :
  let user := mkAuthUser Scenario.creator_id None in
  let before := WithdrawalsPage.fetchData user WithdrawalsPage.initial
                  (Scenario.store_balance 50) in
  let after := WithdrawalsPage.fetchData user before Cases.store_withdrawn in
  status (fst (RequestWithdrawal.handler Scenario.withdrawal_world
                 (Scenario.withdrawal_request 30) (Scenario.store_balance 50))) = 500
  /\ WithdrawalsPage.userBalance before = 50
  /\ WithdrawalsPage.userBalance after = WithdrawalsPage.userBalance before
  /\ 0 < 30 <= WithdrawalsPage.userBalance after
  /\ exists r,
      WithdrawalsPage.withdrawals after = r :: WithdrawalsPage.withdrawals before
      /\ Withdrawal.id r = "w0000000-0000-4000-8000-000000000001"
      /\ Withdrawal.status r = "pending"
      /\ Withdrawal.amount r = 30
      /\ Withdrawal.method r = "bkash".
Proof.
  refine (withdrawals_page_after_request Scenario.withdrawal_world
            (Scenario.withdrawal_request 30) (Scenario.store_balance 50)
            (mkAuthUser Scenario.creator_id None) (Scenario.creator 50)
            WithdrawalsPage.initial eq_refl eq_refl eq_refl _ eq_refl _).
  - split; [reflexivity|discriminate].
  - intros r [].
Defined.
